(** * VariantUtils: the Variant binary decoder of [pyspark.sql.variant_utils]

    A shallow embedding of [python/pyspark/sql/variant_utils.py].  Byte
    buffers are [list byte], Python integers are [Z], decoded text is a list
    of Unicode code points, and a raised exception is the [Err] case of a
    small error monad that records which exception Python raises. *)

From Stdlib Require Import ZArith NArith List String Ascii Bool Lia QArith.
From Stdlib Require Import Strings.Byte.
Import ListNotations.
Local Open Scope Z_scope.
Local Set Warnings "-register-all".

(** ** Exceptions and the error monad *)

(** The exceptions the module can raise.  [Exception("Malformed Variant")]
    and [Exception("Unexpected Variant type: ...")] are the two the module
    raises itself; the others come from the interpreter and the standard
    library ([bytes] indexing, [struct.unpack], [bytes.decode], an unbound
    global name).  [OutOfFuel] is not an exception of the module: it marks
    that the recursion budget handed to [_to_json] or [_to_python] was used
    up.  Python has no such parameter; its interpreter bounds the depth of
    the call stack, and a decoding that needs more nested calls than the
    interpreter allows ends in the interpreter's [RecursionError]. *)
Inductive error : Type :=
| MalformedVariant
| UnexpectedType
| IndexError
| StructError
| UnicodeDecodeError
| NameError
| OutOfFuel.

Inductive result (A : Type) : Type :=
| Ok (a : A)
| Err (e : error).
Arguments Ok {A} a.
Arguments Err {A} e.

Definition bind {A B : Type} (c : result A) (k : A -> result B) : result B :=
  match c with
  | Ok a => k a
  | Err e => Err e
  end.

Notation "x <- c ;; k" := (bind c (fun x => k))
  (at level 61, c at next level, right associativity).
Notation "c ;;; k" := (bind c (fun _ => k))
  (at level 61, right associativity).

(** A list comprehension whose body may raise: elements are evaluated from
    left to right and the first exception leaves the comprehension. *)
Fixpoint mapM {A B : Type} (f : A -> result B) (l : list A) : result (list B) :=
  match l with
  | [] => Ok []
  | x :: xs => y <- f x ;; ys <- mapM f xs ;; Ok (y :: ys)
  end.

(** ** Byte buffers with Python's indexing and slicing *)

Definition bytes := list byte.

Definition byte_val (b : byte) : Z := Z.of_N (Byte.to_N b).

Definition len (data : bytes) : Z := Z.of_nat (List.length data).

(** [data[i]]: a negative index counts from the end, anything outside
    raises [IndexError]. *)
Definition py_index (data : bytes) (i : Z) : result Z :=
  let j := if i <? 0 then i + len data else i in
  if (j <? 0) || (len data <=? j) then Err IndexError
  else match nth_error data (Z.to_nat j) with
       | Some b => Ok (byte_val b)
       | None => Err IndexError
       end.

Definition slice_bound (n i : Z) : Z :=
  if i <? 0 then Z.max 0 (i + n) else Z.min i n.

(** [data[lo:hi]]: bounds are clamped to the buffer, never an exception. *)
Definition py_slice (data : bytes) (lo hi : Z) : bytes :=
  let a := slice_bound (len data) lo in
  let b := slice_bound (len data) hi in
  firstn (Z.to_nat (b - a)) (skipn (Z.to_nat a) data).

(** [int.from_bytes(bs, byteorder="little", signed=...)]. *)
Fixpoint from_bytes_unsigned (bs : bytes) : Z :=
  match bs with
  | [] => 0
  | b :: rest => byte_val b + 256 * from_bytes_unsigned rest
  end.

Definition int_from_bytes (bs : bytes) (signed : bool) : Z :=
  let u := from_bytes_unsigned bs in
  let top := 256 ^ len bs in
  if signed && (top <=? 2 * u) then u - top else u.

(** ** Constants of the class *)

Definition BASIC_TYPE_BITS : Z := 2.
Definition BASIC_TYPE_MASK : Z := 3.
Definition TYPE_INFO_MASK : Z := 63.
Definition MAX_SHORT_STR_SIZE : Z := 63.

Definition PRIMITIVE : Z := 0.
Definition SHORT_STR : Z := 1.
Definition OBJECT : Z := 2.
Definition ARRAY : Z := 3.

Definition NULL : Z := 0.
Definition TRUE : Z := 1.
Definition FALSE : Z := 2.
Definition INT1 : Z := 3.
Definition INT2 : Z := 4.
Definition INT4 : Z := 5.
Definition INT8 : Z := 6.
Definition DOUBLE : Z := 7.
Definition DECIMAL4 : Z := 8.
Definition DECIMAL8 : Z := 9.
Definition DECIMAL16 : Z := 10.
Definition LONG_STR : Z := 16.

Definition U32_SIZE : Z := 4.

(** ** The bounds-checked reader *)

Definition _check_index (pos length : Z) : result unit :=
  if (pos <? 0) || (length <=? pos) then Err MalformedVariant else Ok tt.

Definition _read_long (data : bytes) (pos num_bytes : Z) (signed : bool)
  : result Z :=
  _check_index pos (len data) ;;;
  _check_index (pos + num_bytes - 1) (len data) ;;;
  Ok (int_from_bytes (py_slice data pos (pos + num_bytes)) signed).

(** ** The header byte *)

Definition _get_type_info (value : bytes) (pos : Z) : result (Z * Z) :=
  b <- py_index value pos ;;
  b' <- py_index value pos ;;
  Ok (Z.land b BASIC_TYPE_MASK,
      Z.land (Z.shiftr b' BASIC_TYPE_BITS) TYPE_INFO_MASK).

(** ** Text: strict UTF-8 decoding *)

(** A Python [str] is a sequence of code points. *)
Definition pystr := list Z.

Definition cont (b : Z) : bool := (128 <=? b) && (b <=? 191).

(** [bs.decode("utf-8")] in strict mode: the well-formed byte sequences of
    the Unicode standard (no overlong forms, no surrogates, nothing above
    U+10FFFF); [None] stands for [UnicodeDecodeError]. *)
Fixpoint utf8_decode (bs : list Z) : option pystr :=
  match bs with
  | [] => Some []
  | b0 :: r0 =>
    if b0 <? 128 then option_map (cons b0) (utf8_decode r0)
    else match r0 with
    | [] => None
    | b1 :: r1 =>
      if (194 <=? b0) && (b0 <=? 223) then
        if cont b1
        then option_map (cons ((b0 - 192) * 64 + (b1 - 128))) (utf8_decode r1)
        else None
      else match r1 with
      | [] => None
      | b2 :: r2 =>
        if (224 <=? b0) && (b0 <=? 239) then
          if cont b1 && cont b2
             && negb ((b0 =? 224) && (b1 <? 160))
             && negb ((b0 =? 237) && (159 <? b1))
          then option_map
                 (cons ((b0 - 224) * 4096 + (b1 - 128) * 64 + (b2 - 128)))
                 (utf8_decode r2)
          else None
        else match r2 with
        | [] => None
        | b3 :: r3 =>
          if (240 <=? b0) && (b0 <=? 244) then
            if cont b1 && cont b2 && cont b3
               && negb ((b0 =? 240) && (b1 <? 144))
               && negb ((b0 =? 244) && (143 <? b1))
            then option_map
                   (cons ((b0 - 240) * 262144 + (b1 - 128) * 4096
                          + (b2 - 128) * 64 + (b3 - 128)))
                   (utf8_decode r3)
            else None
          else None
        end
      end
    end
  end.

Definition decode_utf8 (bs : bytes) : result pystr :=
  match utf8_decode (map byte_val bs) with
  | Some s => Ok s
  | None => Err UnicodeDecodeError
  end.

(** ** The metadata dictionary *)

Definition _get_metadata_key (metadata : bytes) (id : Z) : result pystr :=
  _check_index 0 (len metadata) ;;;
  h <- py_index metadata 0 ;;
  let offset_size := Z.land (Z.shiftr h 6) 3 + 1 in
  dict_size <- _read_long metadata 1 offset_size false ;;
  if id >=? dict_size then Err MalformedVariant else
  let string_start := 1 + (dict_size + 2) * offset_size in
  offset <- _read_long metadata (1 + (id + 1) * offset_size) offset_size false ;;
  next_offset <-
    _read_long metadata (1 + (id + 2) * offset_size) offset_size false ;;
  if offset >? next_offset then Err MalformedVariant else
  _check_index (string_start + next_offset - 1) (len metadata) ;;;
  decode_utf8
    (py_slice metadata (string_start + offset) (string_start + next_offset)).

(** ** Text produced by [str] and [json.dumps] *)

Definition chars := list ascii.

Definition digit_char (d : N) : ascii := ascii_of_N (48 + d).

Fixpoint digits_fuel (fuel : nat) (n : N) (acc : chars) : chars :=
  let acc' := digit_char (n mod 10) :: acc in
  match fuel with
  | O => acc'
  | S f => if (n <? 10)%N then acc' else digits_fuel f (n / 10) acc'
  end.

(** The decimal digits of a natural number, most significant first. *)
Definition str_N (n : N) : chars :=
  digits_fuel (N.to_nat (N.log2 n)) n [].

(** [str(i)] for a Python [int]. *)
Definition str_int (i : Z) : chars :=
  if i <? 0 then "-"%char :: str_N (Z.abs_N i) else str_N (Z.abs_N i).

Definition dquote : ascii := ascii_of_nat 34.
Definition backslash : ascii := ascii_of_nat 92.

Definition hex_char (d : Z) : ascii :=
  if d <? 10 then ascii_of_N (Z.to_N (48 + d)) else ascii_of_N (Z.to_N (87 + d)).

(** ['\\u{0:04x}'.format(n)] for [n < 0x10000]. *)
Definition u_escape (n : Z) : chars :=
  [backslash; "u"%char;
   hex_char (Z.land (Z.shiftr n 12) 15); hex_char (Z.land (Z.shiftr n 8) 15);
   hex_char (Z.land (Z.shiftr n 4) 15); hex_char (Z.land n 15)].

(** One character of [json.dumps(s)] with the default [ensure_ascii=True]:
    the quote, the backslash and everything outside [' '..'~'] is escaped,
    code points above the basic plane as a surrogate pair. *)
Definition escape_char (c : Z) : chars :=
  if c =? 34 then [backslash; dquote]
  else if c =? 92 then [backslash; backslash]
  else if c =? 8 then [backslash; "b"%char]
  else if c =? 12 then [backslash; "f"%char]
  else if c =? 10 then [backslash; "n"%char]
  else if c =? 13 then [backslash; "r"%char]
  else if c =? 9 then [backslash; "t"%char]
  else if (32 <=? c) && (c <=? 126) then [ascii_of_N (Z.to_N c)]
  else if c <? 65536 then u_escape c
  else let n := c - 65536 in
       u_escape (Z.lor 55296 (Z.land (Z.shiftr n 10) 1023))
       ++ u_escape (Z.lor 56320 (Z.land n 1023)).

Definition json_dumps (s : pystr) : string :=
  string_of_list_ascii (dquote :: flat_map escape_char s ++ [dquote]).

(** ** [decimal.Decimal] *)

(** A finite [Decimal]: sign, coefficient and exponent, the value being
    [(-1)^sign * coefficient * 10^exponent]. *)
Record PyDecimal : Type := mkDecimal {
  dec_sign : bool;
  dec_int : N;
  dec_exp : Z
}.

(** The rational number a [Decimal] denotes. *)
Definition decimal_value (d : PyDecimal) : Q :=
  (inject_Z (if dec_sign d then - Z.of_N (dec_int d) else Z.of_N (dec_int d))
   * Qpower (10 # 1) (dec_exp d))%Q.

(** [decimal.Decimal(i)] for an [int]: always exact. *)
Definition Decimal_of_int (i : Z) : PyDecimal :=
  mkDecimal (i <? 0) (Z.abs_N i) 0.

(** [decimal.Decimal(10) ** (-scale)] for a scale byte: the coefficient is 1
    and the exponent is [-scale], exact in every context. *)
Definition Decimal_pow10_neg (scale : Z) : PyDecimal :=
  mkDecimal false 1 (- scale).

(** The precision of the default arithmetic context, which the module never
    changes; rounding is ROUND_HALF_EVEN. *)
Definition context_prec : Z := 28.

Definition ndigits (n : N) : Z := Z.of_nat (List.length (str_N n)).

(** [Decimal._fix]: a coefficient of more than [context_prec] digits is
    rounded half-even to [context_prec] digits.  The exponent limits of the
    context (plus or minus 999999) are out of reach of a one-byte scale. *)
Definition Decimal_fix (d : PyDecimal) : PyDecimal :=
  let nd := ndigits (dec_int d) in
  if nd <=? context_prec then d else
  let drop := nd - context_prec in
  let unit := (10 ^ Z.to_N drop)%N in
  let q := (dec_int d / unit)%N in
  let r := (dec_int d mod unit)%N in
  let half := (unit / 2)%N in
  let up := (half <? r)%N || ((r =? half)%N && N.odd q) in
  let q' := if up then (q + 1)%N else q in
  if (q' =? 10 ^ Z.to_N context_prec)%N
  then mkDecimal (dec_sign d) (q' / 10)%N (dec_exp d + drop + 1)
  else mkDecimal (dec_sign d) q' (dec_exp d + drop).

(** [a * b] on [Decimal]: exact product, then rounded to the context. *)
Definition Decimal_mul (a b : PyDecimal) : PyDecimal :=
  Decimal_fix (mkDecimal (xorb (dec_sign a) (dec_sign b))
                         (dec_int a * dec_int b)%N
                         (dec_exp a + dec_exp b)).

(** [str(d)] for a [Decimal] ([Decimal.__str__]): plain notation when the
    exponent is not positive and the first digit sits at most six places
    after the point, scientific notation otherwise. *)
Definition str_Decimal (d : PyDecimal) : chars :=
  let sign := if dec_sign d then ["-"%char] else [] in
  let int := str_N (dec_int d) in
  let n := Z.of_nat (List.length int) in
  let leftdigits := dec_exp d + n in
  let dotplace :=
    if (dec_exp d <=? 0) && (leftdigits >? -6) then leftdigits else 1 in
  let intpart :=
    if dotplace <=? 0 then ["0"%char]
    else if dotplace >=? n
         then int ++ repeat "0"%char (Z.to_nat (dotplace - n))
         else firstn (Z.to_nat dotplace) int in
  let fracpart :=
    if dotplace <=? 0
    then "."%char :: repeat "0"%char (Z.to_nat (- dotplace)) ++ int
    else if dotplace >=? n then []
         else "."%char :: skipn (Z.to_nat dotplace) int in
  let exp :=
    if leftdigits =? dotplace then []
    else "E"%char
         :: (if leftdigits - dotplace <? 0 then "-"%char else "+"%char)
         :: str_N (Z.abs_N (leftdigits - dotplace)) in
  sign ++ intpart ++ fracpart ++ exp.

(** ** Scalar accessors *)

(** What [_get_scalar] can return: [None], a [bool], an [int], a [str], a
    [float] (kept as the eight bytes [struct.unpack("d", ...)] was given, in
    the byte order of the machine) or a [Decimal]. *)
Inductive scalar : Type :=
| SNone
| SBool (b : bool)
| SInt (i : Z)
| SStr (s : pystr)
| SFloat (raw : bytes)
| SDecimal (d : PyDecimal).

Definition _get_boolean (value : bytes) (pos : Z) : result bool :=
  _check_index pos (len value) ;;;
  ti <- _get_type_info value pos ;;
  let '(basic_type, type_info) := ti in
  if negb (basic_type =? PRIMITIVE)
     || (negb (type_info =? TRUE) && negb (type_info =? FALSE))
  then Err UnexpectedType
  else Ok (type_info =? TRUE).

Definition _get_long (value : bytes) (pos : Z) : result Z :=
  _check_index pos (len value) ;;;
  ti <- _get_type_info value pos ;;
  let '(basic_type, type_info) := ti in
  if negb (basic_type =? PRIMITIVE) then Err UnexpectedType
  else if type_info =? INT1 then _read_long value (pos + 1) 1 true
  else if type_info =? INT2 then _read_long value (pos + 1) 2 true
  else if type_info =? INT4 then _read_long value (pos + 1) 4 true
  else if type_info =? INT8 then _read_long value (pos + 1) 8 true
  else Err UnexpectedType.

Definition _get_string (value : bytes) (pos : Z) : result pystr :=
  _check_index pos (len value) ;;;
  ti <- _get_type_info value pos ;;
  let '(basic_type, type_info) := ti in
  if (basic_type =? SHORT_STR)
     || ((basic_type =? PRIMITIVE) && (type_info =? LONG_STR))
  then
    sl <- (if basic_type =? SHORT_STR
           then Ok (pos + 1, type_info)
           else length <- _read_long value (pos + 1) U32_SIZE false ;;
                Ok (pos + 1 + U32_SIZE, length)) ;;
    let '(start, length) := sl in
    _check_index (start + length - 1) (len value) ;;;
    decode_utf8 (py_slice value start (start + length))
  else Err UnexpectedType.

(** [struct.unpack("d", b)] raises [struct.error] unless [b] has exactly
    eight bytes. *)
Definition struct_unpack_d (b : bytes) : result bytes :=
  if len b =? 8 then Ok b else Err StructError.

Definition _get_double (value : bytes) (pos : Z) : result bytes :=
  _check_index pos (len value) ;;;
  ti <- _get_type_info value pos ;;
  let '(basic_type, type_info) := ti in
  if negb (basic_type =? PRIMITIVE) || negb (type_info =? DOUBLE)
  then Err UnexpectedType
  else struct_unpack_d (py_slice value (pos + 1) (pos + 9)).

(** The two [raise] statements of [_get_decimal] format their message with
    [str(Decimal)], and the module only binds the name [decimal]: reaching
    one of them raises [NameError]. *)
Definition _get_decimal (value : bytes) (pos : Z) : result PyDecimal :=
  _check_index pos (len value) ;;;
  ti <- _get_type_info value pos ;;
  let '(basic_type, type_info) := ti in
  if negb (basic_type =? PRIMITIVE) then Err NameError else
  scale <- py_index value (pos + 1) ;;
  unscaled <-
    (if type_info =? DECIMAL4 then _read_long value (pos + 2) 4 true
     else if type_info =? DECIMAL8 then _read_long value (pos + 2) 8 true
     else if type_info =? DECIMAL16 then
       _check_index (pos + 17) (len value) ;;;
       Ok (int_from_bytes (py_slice value (pos + 2) (pos + 18)) true)
     else Err NameError) ;;
  Ok (Decimal_mul (Decimal_of_int unscaled) (Decimal_pow10_neg scale)).

(** ** Resolving the kind of a value *)

(** The Python type objects [_get_type] returns as markers. *)
Inductive pytype : Type :=
| t_str | t_dict | t_array | t_NoneType | t_bool | t_int | t_float | t_Decimal.

Definition _get_type (value : bytes) (pos : Z) : result pytype :=
  _check_index pos (len value) ;;;
  ti <- _get_type_info value pos ;;
  let '(basic_type, type_info) := ti in
  if basic_type =? SHORT_STR then Ok t_str
  else if basic_type =? OBJECT then Ok t_dict
  else if basic_type =? ARRAY then Ok t_array
  else if type_info =? NULL then Ok t_NoneType
  else if (type_info =? TRUE) || (type_info =? FALSE) then Ok t_bool
  else if (type_info =? INT1) || (type_info =? INT2)
          || (type_info =? INT4) || (type_info =? INT8) then Ok t_int
  else if type_info =? DOUBLE then Ok t_float
  else if (type_info =? DECIMAL4) || (type_info =? DECIMAL8)
          || (type_info =? DECIMAL16) then Ok t_Decimal
  else if type_info =? LONG_STR then Ok t_str
  else Err MalformedVariant.

Definition _get_scalar (variant_type : pytype) (value metadata : bytes)
  (pos : Z) : result scalar :=
  match variant_type with
  | t_NoneType => Ok SNone
  | t_bool => b <- _get_boolean value pos ;; Ok (SBool b)
  | t_int => i <- _get_long value pos ;; Ok (SInt i)
  | t_str => s <- _get_string value pos ;; Ok (SStr s)
  | t_float => f <- _get_double value pos ;; Ok (SFloat f)
  | t_Decimal => d <- _get_decimal value pos ;; Ok (SDecimal d)
  | _ => Err MalformedVariant
  end.

(** ** Container decoders *)

(** The body of [for i in range(num_fields)] in [_handle_object], with [n]
    iterations left and loop index [i]. *)
Fixpoint object_loop (value metadata : bytes)
  (id_start id_size offset_start offset_size data_start : Z)
  (n : nat) (i : Z) : result (list (pystr * Z)) :=
  match n with
  | O => Ok []
  | S n' =>
    id <- _read_long value (id_start + id_size * i) id_size false ;;
    offset <- _read_long value (offset_start + offset_size * i) offset_size false ;;
    let value_pos := data_start + offset in
    key <- _get_metadata_key metadata id ;;
    rest <- object_loop value metadata id_start id_size offset_start
              offset_size data_start n' (i + 1) ;;
    Ok ((key, value_pos) :: rest)
  end.

Definition _handle_object {A : Type} (value metadata : bytes) (pos : Z)
  (func : list (pystr * Z) -> result A) : result A :=
  _check_index pos (len value) ;;;
  ti <- _get_type_info value pos ;;
  let '(basic_type, type_info) := ti in
  if negb (basic_type =? OBJECT) then Err MalformedVariant else
  let large_size := negb (Z.land (Z.shiftr type_info 4) 1 =? 0) in
  let size_bytes := if large_size then U32_SIZE else 1 in
  num_fields <- _read_long value (pos + 1) size_bytes false ;;
  let id_size := Z.land (Z.shiftr type_info 2) 3 + 1 in
  let offset_size := Z.land type_info 3 + 1 in
  let id_start := pos + 1 + size_bytes in
  let offset_start := id_start + num_fields * id_size in
  let data_start := offset_start + (num_fields + 1) * offset_size in
  key_value_pos_list <-
    object_loop value metadata id_start id_size offset_start offset_size
      data_start (Z.to_nat num_fields) 0 ;;
  func key_value_pos_list.

Fixpoint array_loop (value : bytes) (offset_start offset_size data_start : Z)
  (n : nat) (i : Z) : result (list Z) :=
  match n with
  | O => Ok []
  | S n' =>
    offset <- _read_long value (offset_start + offset_size * i) offset_size false ;;
    let element_pos := data_start + offset in
    rest <- array_loop value offset_start offset_size data_start n' (i + 1) ;;
    Ok (element_pos :: rest)
  end.

Definition _handle_array {A : Type} (value : bytes) (pos : Z)
  (func : list Z -> result A) : result A :=
  _check_index pos (len value) ;;;
  ti <- _get_type_info value pos ;;
  let '(basic_type, type_info) := ti in
  if negb (basic_type =? ARRAY) then Err MalformedVariant else
  let large_size := negb (Z.land (Z.shiftr type_info 2) 1 =? 0) in
  let size_bytes := if large_size then U32_SIZE else 1 in
  num_fields <- _read_long value (pos + 1) size_bytes false ;;
  let offset_size := Z.land type_info 3 + 1 in
  let offset_start := pos + 1 + size_bytes in
  let data_start := offset_start + (num_fields + 1) * offset_size in
  value_pos_list <-
    array_loop value offset_start offset_size data_start
      (Z.to_nat num_fields) 0 ;;
  func value_pos_list.

(** ** The two materializers *)

(** The native result of [to_python]: a scalar, a [list], or a [dict] kept as
    its items in insertion order. *)
Inductive pyvalue : Type :=
| PyScalar (s : scalar)
| PyList (l : list pyvalue)
| PyDict (items : list (pystr * pyvalue)).

Definition pystr_eq_dec : forall a b : pystr, {a = b} + {a <> b} :=
  list_eq_dec Z.eq_dec.

(** [d[k] = v]: an existing key keeps its place and takes the new value, a
    new key goes to the end. *)
Fixpoint dict_setitem {V : Type} (d : list (pystr * V)) (k : pystr) (v : V)
  : list (pystr * V) :=
  match d with
  | [] => [(k, v)]
  | (k', v') :: rest =>
    if pystr_eq_dec k' k then (k', v) :: rest
    else (k', v') :: dict_setitem rest k v
  end.

(** [dict(pairs)]: the pairs are inserted from left to right. *)
Definition py_dict {V : Type} (pairs : list (pystr * V)) : list (pystr * V) :=
  fold_left (fun d kv => dict_setitem d (fst kv) (snd kv)) pairs [].

Fixpoint dict_get {V : Type} (d : list (pystr * V)) (k : pystr) : option V :=
  match d with
  | [] => None
  | (k', v) :: rest => if pystr_eq_dec k' k then Some v else dict_get rest k
  end.

Section ToJson.

(** [str(x)] for the [float] that [struct.unpack("d", raw)] yields.
    Binary floating point and its shortest round-trip printing are left
    abstract. *)
Variable float_repr : bytes -> string.

(** The text [_to_json] returns for a scalar. *)
Definition scalar_json (v : scalar) : string :=
  match v with
  | SNone => "null"
  | SBool b => if b then "true" else "false"
  | SStr s => json_dumps s
  | SInt i => string_of_list_ascii (str_int i)
  | SFloat raw => float_repr raw
  | SDecimal d => string_of_list_ascii (str_Decimal d)
  end.

(** [fuel] is the recursion budget: the number of nested calls of
    [_to_json] that may be open at once, which in Python is set by the
    interpreter and not by the module.  [to_json] starts with more than any
    value buffer can use (see [_to_json_fuel_enough]): it describes a run in
    which the call stack is deep enough for the value at hand. *)
Fixpoint _to_json (fuel : nat) (value metadata : bytes) (pos : Z)
  : result string :=
  match fuel with
  | O => Err OutOfFuel
  | S fuel' =>
    variant_type <- _get_type value pos ;;
    match variant_type with
    | t_dict =>
      _handle_object value metadata pos (fun key_value_pos_list =>
        key_value_list <-
          mapM (fun kp =>
                  v <- _to_json fuel' value metadata (snd kp) ;;
                  Ok (json_dumps (fst kp) ++ ":" ++ v)%string)
               key_value_pos_list ;;
        Ok ("{" ++ String.concat "," key_value_list ++ "}")%string)
    | t_array =>
      _handle_array value pos (fun value_pos_list =>
        value_list <-
          mapM (fun value_pos => _to_json fuel' value metadata value_pos)
               value_pos_list ;;
        Ok ("[" ++ String.concat "," value_list ++ "]")%string)
    | _ =>
      v <- _get_scalar variant_type value metadata pos ;;
      Ok (scalar_json v)
    end
  end.

Definition to_json (value metadata : bytes) : result string :=
  _to_json (S (List.length value)) value metadata 0.

End ToJson.

Fixpoint _to_python (fuel : nat) (value metadata : bytes) (pos : Z)
  : result pyvalue :=
  match fuel with
  | O => Err OutOfFuel
  | S fuel' =>
    variant_type <- _get_type value pos ;;
    match variant_type with
    | t_dict =>
      _handle_object value metadata pos (fun key_value_pos_list =>
        key_value_list <-
          mapM (fun kp =>
                  v <- _to_python fuel' value metadata (snd kp) ;;
                  Ok (fst kp, v))
               key_value_pos_list ;;
        Ok (PyDict (py_dict key_value_list)))
    | t_array =>
      _handle_array value pos (fun value_pos_list =>
        value_list <-
          mapM (fun value_pos => _to_python fuel' value metadata value_pos)
               value_pos_list ;;
        Ok (PyList value_list))
    | _ =>
      v <- _get_scalar variant_type value metadata pos ;;
      Ok (PyScalar v)
    end
  end.

Definition to_python (value metadata : bytes) : result pyvalue :=
  _to_python (S (List.length value)) value metadata 0.

(** ** Notions used to state the properties *)

(** A computation that never ends in the exception [e]. *)
Definition never {A} (e : error) (c : result A) : Prop := c <> Err e.

(** The exceptions that come out of the checked reader, raw indexing, text
    decoding and [struct.unpack]. *)
Definition reader_error (e : error) : bool :=
  match e with
  | MalformedVariant | IndexError | UnicodeDecodeError | StructError
  | NameError => true
  | UnexpectedType | OutOfFuel => false
  end.

(** The list [_handle_object] hands to its callback. *)
Definition object_fields (value metadata : bytes) (pos : Z)
  : result (list (pystr * Z)) :=
  _handle_object value metadata pos Ok.

(** The list [_handle_array] hands to its callback. *)
Definition array_elements (value : bytes) (pos : Z) : result (list Z) :=
  _handle_array value pos Ok.

(** The header fields of the object at [pos]: the number of fields and the
    widths and starts of its id table, offset table and field data, as
    [_handle_object] computes them. *)
Record object_layout : Type := mkLayout {
  num_fields : Z;
  id_size : Z;
  offset_size : Z;
  id_start : Z;
  offset_start : Z;
  data_start : Z
}.

Definition object_header (value : bytes) (pos : Z) : result object_layout :=
  _check_index pos (len value) ;;;
  ti <- _get_type_info value pos ;;
  let '(basic_type, type_info) := ti in
  if negb (basic_type =? OBJECT) then Err MalformedVariant else
  let size_bytes :=
    if negb (Z.land (Z.shiftr type_info 4) 1 =? 0) then U32_SIZE else 1 in
  n <- _read_long value (pos + 1) size_bytes false ;;
  let isz := Z.land (Z.shiftr type_info 2) 3 + 1 in
  let osz := Z.land type_info 3 + 1 in
  let ids := pos + 1 + size_bytes in
  let os := ids + n * isz in
  Ok (mkLayout n isz osz ids os (os + (n + 1) * osz)).

(** The [i]-th field as it is stored: the key named by the [i]-th entry of
    the id table, and the position the [i]-th entry of the offset table
    points to. *)
Definition stored_field (value metadata : bytes) (L : object_layout) (i : nat)
  : result (pystr * Z) :=
  id <- _read_long value (id_start L + id_size L * Z.of_nat i) (id_size L)
          false ;;
  offset <- _read_long value (offset_start L + offset_size L * Z.of_nat i)
              (offset_size L) false ;;
  key <- _get_metadata_key metadata id ;;
  Ok (key, data_start L + offset).

(** The header of the metadata dictionary. *)
Definition metadata_offset_size (metadata : bytes) : result Z :=
  _check_index 0 (len metadata) ;;;
  h <- py_index metadata 0 ;;
  Ok (Z.land (Z.shiftr h 6) 3 + 1).

Definition metadata_dict_size (metadata : bytes) : result Z :=
  osz <- metadata_offset_size metadata ;;
  _read_long metadata 1 osz false.

(** Entry [i] of the offset table of the dictionary; the key of [id] spans
    entries [id] and [id + 1]. *)
Definition metadata_offset (metadata : bytes) (i : Z) : result Z :=
  osz <- metadata_offset_size metadata ;;
  _read_long metadata (1 + (i + 1) * osz) osz false.

(** Width of the unscaled integer of a decimal, by type info. *)
Definition decimal_width (type_info : Z) : option Z :=
  if type_info =? DECIMAL4 then Some 4
  else if type_info =? DECIMAL8 then Some 8
  else if type_info =? DECIMAL16 then Some 16
  else None.

Definition is_digit (c : ascii) : bool :=
  (48 <=? N_of_ascii c)%N && (N_of_ascii c <=? 57)%N.

Fixpoint split_dot (l : chars) : chars * option chars :=
  match l with
  | [] => ([], None)
  | c :: r =>
    if Ascii.eqb c "."
    then ([], Some r)
    else let '(a, b) := split_dot r in (c :: a, b)
  end.

Definition strip_minus (l : chars) : chars :=
  match l with
  | c :: r => if Ascii.eqb c "-" then r else l
  | [] => l
  end.

Definition plain_body (scale : Z) (body : chars) : bool :=
  let '(ip, fp) := split_dot body in
  negb (Nat.eqb (List.length ip) 0) && forallb is_digit ip
  && match fp with
     | None => scale =? 0
     | Some f =>
       forallb is_digit f && (Z.of_nat (List.length f) =? scale) && (0 <? scale)
     end.

(** A number written without an exponent and with exactly [scale] digits
    after the decimal point: an optional minus sign, one or more digits,
    and, unless [scale] is 0, a point followed by [scale] digits. *)
Definition plain_decimal_text (scale : Z) (txt : string) : bool :=
  plain_body scale (strip_minus (list_ascii_of_string txt)).

(** Whether a text carries an exponent marker. *)
Definition has_exponent (txt : string) : bool :=
  existsb (fun c => Ascii.eqb c "E") (list_ascii_of_string txt).

(** Scientific notation with a negative exponent: an optional minus sign,
    the first digit of the coefficient, a point and the remaining digits
    when there are any, then [E-] and the magnitude [e] of the exponent. *)
Definition scientific_text (neg : bool) (coeff : N) (e : Z) : string :=
  let ds := str_N coeff in
  string_of_list_ascii
    ((if neg then ["-"%char] else [])
     ++ firstn 1 ds
     ++ match skipn 1 ds with
        | [] => []
        | r => "."%char :: r
        end
     ++ "E"%char :: "-"%char :: str_N (Z.to_N e)).

Definition byte_of_Z (z : Z) : byte :=
  match Byte.of_N (Z.to_N (z mod 256)) with
  | Some b => b
  | None => x00
  end.

(** Four bytes, little-endian. *)
Definition le32 (z : Z) : bytes :=
  [byte_of_Z z; byte_of_Z (z / 256); byte_of_Z (z / 65536);
   byte_of_Z (z / 16777216)].

(** An array of one element, nested [n] deep around a null: header [0x0f]
    (array, one-byte size, four-byte offsets), size 1, the offsets 0 and
    the length of the element, then the element. *)
Fixpoint nested_arrays (n : nat) : bytes :=
  match n with
  | O => [x00]
  | S m =>
    [x0f; x01] ++ le32 0 ++ le32 (len (nested_arrays m)) ++ nested_arrays m
  end.



(** ** Sample buffers *)

(** The dictionary with the keys "a" (id 0) and "b" (id 1): one-byte
    offsets, two entries, offsets 0, 1, 2. *)
Definition sample_metadata : bytes := [x01; x02; x00; x01; x02; x61; x62].

(** An object whose two fields are stored as "b" then "a", holding the
    one-byte integers 1 and 2. *)
Definition sample_object : bytes :=
  [x02; x02; x01; x00; x00; x02; x04; x0c; x01; x0c; x02].

(** The same object with both field ids 0: the key "a" twice. *)
Definition sample_object_dup : bytes :=
  [x02; x02; x00; x00; x00; x02; x04; x0c; x01; x0c; x02].

(** The array of the one-byte integers 1 and 2. *)
Definition sample_array : bytes :=
  [x03; x02; x00; x02; x04; x0c; x01; x0c; x02].

(** A dictionary of one key whose only byte, 0xff, is not UTF-8. *)
Definition sample_metadata_bad_utf8 : bytes := [x01; x01; x00; x01; xff].

(** A dictionary of one key whose offsets decrease (1 then 0). *)
Definition sample_metadata_bad_offsets : bytes := [x01; x01; x01; x00; x61].

(** The Decimal16 of scale 0 and unscaled value [10^28 + 1]. *)
Definition sample_decimal16 : bytes :=
  [x28; x00; x01; x00; x00; x10; x61; x02; x25; x3e; x5e; xce; x4f; x20;
   x00; x00; x00; x00].

(** The Decimal4 of scale 7 and unscaled value 1. *)
Definition sample_decimal4_tiny : bytes := [x20; x07; x01; x00; x00; x00].

(** The Decimal4 of scale 2 and unscaled value 12345. *)
Definition sample_decimal4 : bytes := [x20; x02; x39; x30; x00; x00].

(** A float rendering to instantiate [to_json] with where no float occurs. *)
Definition no_float : bytes -> string := fun _ => EmptyString.

(** ** Notions used to state further properties *)

(** The exceptions that can leave [to_json] and [to_python]. *)
Definition public_error (e : error) : bool :=
  match e with
  | MalformedVariant | IndexError | StructError | UnicodeDecodeError => true
  | UnexpectedType | NameError | OutOfFuel => false
  end.

(** The type infos [_get_type] knows for a primitive. *)
Definition known_primitive (type_info : Z) : bool :=
  (type_info <=? DECIMAL16) || (type_info =? LONG_STR).

(** Width in bytes of an integer, by type info. *)
Definition int_width (type_info : Z) : option Z :=
  if type_info =? INT1 then Some 1
  else if type_info =? INT2 then Some 2
  else if type_info =? INT4 then Some 4
  else if type_info =? INT8 then Some 8
  else None.

(** The header fields of the array at [pos], as [_handle_array] computes
    them: element count, offset width, start of the offset table and start
    of the element data. *)
Record array_layout : Type := mkArrayLayout {
  arr_count : Z;
  arr_offset_size : Z;
  arr_offset_start : Z;
  arr_data_start : Z
}.

Definition array_header (value : bytes) (pos : Z) : result array_layout :=
  _check_index pos (len value) ;;;
  ti <- _get_type_info value pos ;;
  let '(basic_type, type_info) := ti in
  if negb (basic_type =? ARRAY) then Err MalformedVariant else
  let size_bytes :=
    if negb (Z.land (Z.shiftr type_info 2) 1 =? 0) then U32_SIZE else 1 in
  n <- _read_long value (pos + 1) size_bytes false ;;
  let osz := Z.land type_info 3 + 1 in
  let os := pos + 1 + size_bytes in
  Ok (mkArrayLayout n osz os (os + (n + 1) * osz)).

(** The position of the [i]-th element as it is stored. *)
Definition stored_element (value : bytes) (L : array_layout) (i : nat)
  : result Z :=
  offset <- _read_long value
              (arr_offset_start L + arr_offset_size L * Z.of_nat i)
              (arr_offset_size L) false ;;
  Ok (arr_data_start L + offset).

(** A byte [json.dumps] copies unchanged: printable ASCII other than the
    quote and the backslash. *)
Definition plain_ascii (b : byte) : bool :=
  (32 <=? byte_val b) && (byte_val b <=? 126)
  && negb (byte_val b =? 34) && negb (byte_val b =? 92).

(** The bytes of [payload] as text between two quotes. *)
Definition quoted (payload : bytes) : string :=
  string_of_list_ascii
    (dquote :: map (fun b => ascii_of_N (Byte.to_N b)) payload ++ [dquote]).

(** The header byte of a short string of [n] bytes. *)
Definition short_str_header (n : nat) : byte :=
  byte_of_Z (4 * Z.of_nat n + 1).

(** How a computation ends: the exception it raises, if any. *)
Definition raised {A : Type} (c : result A) : option error :=
  match c with
  | Ok _ => None
  | Err e => Some e
  end.

(** The JSON text of a native value: scalars as [_to_json] writes them,
    lists between brackets, dict items in order between braces. *)
Fixpoint render (float_repr : bytes -> string) (v : pyvalue) : string :=
  match v with
  | PyScalar s => scalar_json float_repr s
  | PyList l =>
    ("[" ++ String.concat "," (map (render float_repr) l) ++ "]")%string
  | PyDict items =>
    ("{" ++ String.concat ","
              (map (fun kv => json_dumps (fst kv) ++ ":"
                              ++ render float_repr (snd kv)) items)
         ++ "}")%string
  end.

(** Every object met within [fuel] levels below [pos] has pairwise distinct
    keys. *)
Fixpoint keys_distinct (fuel : nat) (value metadata : bytes) (pos : Z)
  : Prop :=
  match fuel with
  | O => True
  | S f =>
    match object_fields value metadata pos with
    | Ok kvs =>
      NoDup (map fst kvs)
      /\ Forall (fun kp => keys_distinct f value metadata (snd kp)) kvs
    | Err _ =>
      match array_elements value pos with
      | Ok ps => Forall (keys_distinct f value metadata) ps
      | Err _ => True
      end
    end
  end.

(** * Properties *)

(** ** The error monad *)

Lemma bind_Ok {A B} (c : result A) (k : A -> result B) (b : B) :
  bind c k = Ok b -> exists a, c = Ok a /\ k a = Ok b.
Proof. destruct c as [a|e]; simpl; intros H; [eauto | discriminate]. Qed.

Lemma bind_Err {A B} (c : result A) (k : A -> result B) (e : error) :
  bind c k = Err e -> c = Err e \/ exists a, c = Ok a /\ k a = Err e.
Proof. destruct c as [a|e']; simpl; intros H; [eauto | left; congruence]. Qed.

Lemma mapM_Ok_length {A B} (f : A -> result B) (l : list A) (r : list B) :
  mapM f l = Ok r -> List.length r = List.length l.
Proof.
  revert r; induction l as [|x xs IH]; simpl; intros r H.
  - injection H as <-; reflexivity.
  - apply bind_Ok in H as (y & _ & H).
    apply bind_Ok in H as (ys & Hys & H).
    injection H as <-; simpl; f_equal; auto.
Qed.

Lemma mapM_ext_in {A B} (f g : A -> result B) (l : list A) :
  (forall x, In x l -> f x = g x) -> mapM f l = mapM g l.
Proof.
  induction l as [|x xs IH]; simpl; intros H; [reflexivity|].
  rewrite (H x) by auto. rewrite IH by auto. reflexivity.
Qed.

Lemma never_Ok {A} e (a : A) : never e (Ok a).
Proof. unfold never; discriminate. Qed.

Lemma never_bind {A B} e (c : result A) (k : A -> result B) :
  never e c -> (forall a, c = Ok a -> never e (k a)) -> never e (bind c k).
Proof.
  unfold never; intros Hc Hk H.
  apply bind_Err in H as [H | (a & Ha & H)]; [auto | eapply Hk; eauto].
Qed.

Lemma never_mapM {A B} e (f : A -> result B) (l : list A) :
  (forall x, In x l -> never e (f x)) -> never e (mapM f l).
Proof.
  induction l as [|x xs IH]; simpl; intros H.
  - apply never_Ok.
  - apply never_bind; [auto | intros y _].
    apply never_bind; [auto | intros ys _; apply never_Ok].
Qed.

(** ** The reader *)

Lemma _check_index_Ok pos n u :
  _check_index pos n = Ok u <-> 0 <= pos < n.
Proof.
  unfold _check_index.
  destruct (Z.ltb_spec pos 0), (Z.leb_spec n pos); simpl;
    split; intros E; try discriminate; try lia; destruct u; reflexivity.
Qed.

Lemma _check_index_Err pos n e :
  _check_index pos n = Err e <-> e = MalformedVariant /\ (pos < 0 \/ n <= pos).
Proof.
  unfold _check_index.
  destruct (Z.ltb_spec pos 0), (Z.leb_spec n pos); simpl; split;
    try (intros E; injection E as <-; split; [reflexivity | lia]);
    try (intros [-> _]; reflexivity);
    try discriminate; intros [_ E]; lia.
Qed.

Lemma _check_index_in pos n : 0 <= pos < n -> _check_index pos n = Ok tt.
Proof. intros H; apply _check_index_Ok; exact H. Qed.

Lemma _check_index_out pos n :
  pos < 0 \/ n <= pos -> _check_index pos n = Err MalformedVariant.
Proof. intros H; apply _check_index_Err; auto. Qed.

Lemma _read_long_Ok data pos n signed v :
  _read_long data pos n signed = Ok v ->
  0 <= pos < len data /\ 0 <= pos + n - 1 < len data
  /\ v = int_from_bytes (py_slice data pos (pos + n)) signed.
Proof.
  unfold _read_long; intros H.
  apply bind_Ok in H as (u1 & H1 & H).
  apply bind_Ok in H as (u2 & H2 & H).
  apply _check_index_Ok in H1, H2. injection H as <-. auto.
Qed.

Lemma _read_long_in data pos n signed :
  0 <= pos < len data -> 0 <= pos + n - 1 < len data ->
  _read_long data pos n signed
  = Ok (int_from_bytes (py_slice data pos (pos + n)) signed).
Proof.
  intros H1 H2; unfold _read_long.
  rewrite (_check_index_in _ _ H1), (_check_index_in _ _ H2); reflexivity.
Qed.

Lemma _read_long_Err data pos n signed e :
  _read_long data pos n signed = Err e ->
  e = MalformedVariant
  /\ (pos < 0 \/ len data <= pos \/ pos + n - 1 < 0 \/ len data <= pos + n - 1).
Proof.
  unfold _read_long; intros H.
  apply bind_Err in H as [H | (u1 & H1 & H)].
  - apply _check_index_Err in H as [-> H']; split; [reflexivity | lia].
  - apply bind_Err in H as [H | (u2 & H2 & H)]; [|discriminate].
    apply _check_index_Err in H as [-> H']; split; [reflexivity | lia].
Qed.

Lemma _read_long_out data pos n signed :
  pos < 0 \/ len data <= pos \/ pos + n - 1 < 0 \/ len data <= pos + n - 1 ->
  _read_long data pos n signed = Err MalformedVariant.
Proof.
  intros H. destruct (_read_long data pos n signed) as [v|e] eqn:E.
  - apply _read_long_Ok in E; lia.
  - apply _read_long_Err in E as [-> _]; reflexivity.
Qed.

Lemma byte_val_range b : 0 <= byte_val b < 256.
Proof.
  unfold byte_val. pose proof (Byte.to_N_bounded b) as H.
  split; [apply N2Z.is_nonneg | lia].
Qed.

Lemma from_bytes_unsigned_range bs :
  0 <= from_bytes_unsigned bs < 256 ^ len bs.
Proof.
  unfold len; induction bs as [|b bs IH]; cbn [from_bytes_unsigned].
  - simpl; lia.
  - rewrite length_cons, Nat2Z.inj_succ, Z.pow_succ_r by lia.
    pose proof (byte_val_range b).
    remember (256 ^ Z.of_nat (List.length bs)) as P. lia.
Qed.

Lemma int_from_bytes_unsigned_nonneg bs : 0 <= int_from_bytes bs false.
Proof. unfold int_from_bytes; simpl. apply from_bytes_unsigned_range. Qed.

Lemma _read_long_unsigned_nonneg data pos n v :
  _read_long data pos n false = Ok v -> 0 <= v.
Proof.
  intros H; apply _read_long_Ok in H as (_ & _ & ->).
  apply int_from_bytes_unsigned_nonneg.
Qed.

Lemma py_index_Ok data i v :
  0 <= i -> py_index data i = Ok v -> i < len data /\ 0 <= v < 256.
Proof.
  unfold py_index; intros Hi.
  destruct (Z.ltb_spec i 0); [lia|].
  destruct (Z.ltb_spec i 0); [lia|]. simpl.
  destruct (Z.leb_spec (len data) i); [discriminate|].
  destruct (nth_error data (Z.to_nat i)); [|discriminate].
  intros H'; injection H' as <-. split; [lia | apply byte_val_range].
Qed.

Lemma py_index_in data i :
  0 <= i < len data -> exists b, py_index data i = Ok (byte_val b)
                                 /\ nth_error data (Z.to_nat i) = Some b.
Proof.
  unfold py_index, len; intros Hi.
  destruct (Z.ltb_spec i 0); [lia|].
  destruct (Z.ltb_spec i 0); [lia|]. simpl.
  destruct (Z.leb_spec (Z.of_nat (List.length data)) i); [lia|].
  destruct (nth_error data (Z.to_nat i)) as [b|] eqn:E; [eauto|].
  apply nth_error_None in E; lia.
Qed.

Lemma py_index_Err data i e :
  py_index data i = Err e -> e = IndexError.
Proof.
  unfold py_index.
  destruct (_ || _); [congruence|].
  destruct (nth_error _ _); congruence.
Qed.

Lemma land_1 a : Z.land a 1 = a mod 2.
Proof. change 1 with (Z.ones 1) at 1. apply Z.land_ones; lia. Qed.

Lemma land_3 a : Z.land a 3 = a mod 4.
Proof. change 3 with (Z.ones 2). apply Z.land_ones; lia. Qed.

Lemma land_63 a : Z.land a 63 = a mod 64.
Proof. change 63 with (Z.ones 6). apply Z.land_ones; lia. Qed.

(** The header byte splits into a basic type in [0..3] and a type info in
    [0..63]. *)
Lemma _get_type_info_Ok value pos bt ti :
  0 <= pos -> _get_type_info value pos = Ok (bt, ti) ->
  pos < len value /\ 0 <= bt <= 3 /\ 0 <= ti <= 63.
Proof.
  unfold _get_type_info; intros Hpos H.
  apply bind_Ok in H as (b & Hb & H).
  apply bind_Ok in H as (b' & Hb' & H).
  injection H as <- <-.
  apply py_index_Ok in Hb as [Hl Hb]; [|exact Hpos].
  apply py_index_Ok in Hb' as [_ Hb']; [|exact Hpos].
  unfold BASIC_TYPE_MASK, TYPE_INFO_MASK, BASIC_TYPE_BITS.
  rewrite (land_3 b), (land_63 (Z.shiftr b' 2)).
  pose proof (Z.mod_pos_bound b 4 ltac:(lia)).
  pose proof (Z.mod_pos_bound (Z.shiftr b' 2) 64 ltac:(lia)). lia.
Qed.

Lemma _get_type_info_in value pos :
  0 <= pos < len value -> exists bt ti, _get_type_info value pos = Ok (bt, ti).
Proof.
  intros H. destruct (py_index_in value pos H) as (b & Hb & _).
  unfold _get_type_info. rewrite Hb. simpl. eauto.
Qed.

(** ** The callbacks of the container decoders *)

Lemma bind_assoc {A B C} (c : result A) (k : A -> result B) (h : B -> result C) :
  bind (bind c k) h = bind c (fun a => bind (k a) h).
Proof. destruct c; reflexivity. Qed.

Lemma bind_ret {A} (c : result A) : bind c Ok = c.
Proof. destruct c; reflexivity. Qed.

Lemma _handle_object_callback {A} value metadata pos
  (func : list (pystr * Z) -> result A) :
  _handle_object value metadata pos func
  = bind (object_fields value metadata pos) func.
Proof.
  unfold object_fields, _handle_object.
  destruct (_check_index pos (len value)); [|reflexivity]. simpl.
  destruct (_get_type_info value pos) as [[bt ti]|]; [|reflexivity]. simpl.
  destruct (negb (bt =? OBJECT)); [reflexivity|].
  destruct (_read_long value (pos + 1) _ false); [|reflexivity]. simpl.
  rewrite bind_ret. reflexivity.
Qed.

Lemma _handle_array_callback {A} value pos (func : list Z -> result A) :
  _handle_array value pos func = bind (array_elements value pos) func.
Proof.
  unfold array_elements, _handle_array.
  destruct (_check_index pos (len value)); [|reflexivity]. simpl.
  destruct (_get_type_info value pos) as [[bt ti]|]; [|reflexivity]. simpl.
  destruct (negb (bt =? ARRAY)); [reflexivity|].
  destruct (_read_long value (pos + 1) _ false); [|reflexivity]. simpl.
  rewrite bind_ret. reflexivity.
Qed.

(** ** Which exceptions the readers can raise *)

Lemma never_Err {A} e e' : e' <> e -> never e (@Err A e').
Proof. unfold never; congruence. Qed.

Ltac not_reader_error :=
  match goal with
  | He : reader_error ?e = false |- never ?e (Err _) =>
    apply never_Err; intros <-; discriminate He
  | |- never _ (Err _) => apply never_Err; discriminate
  end.

Section Never.

Variable e : error.
Hypothesis He : reader_error e = false.

Lemma never_check_index pos n : never e (_check_index pos n).
Proof.
  intros H; apply _check_index_Err in H as [-> _]; discriminate He.
Qed.

Lemma never_read_long data pos n s : never e (_read_long data pos n s).
Proof. intros H; apply _read_long_Err in H as [-> _]; discriminate He. Qed.

Lemma never_py_index data i : never e (py_index data i).
Proof. intros H; apply py_index_Err in H as ->; discriminate He. Qed.

Lemma never_decode_utf8 bs : never e (decode_utf8 bs).
Proof.
  unfold decode_utf8; destruct (utf8_decode _);
    [apply never_Ok | not_reader_error].
Qed.

Lemma never_struct_unpack_d bs : never e (struct_unpack_d bs).
Proof.
  unfold struct_unpack_d; destruct (_ =? _);
    [apply never_Ok | not_reader_error].
Qed.

End Never.

Create HintDb never discriminated.
#[local] Hint Resolve never_Ok never_check_index never_read_long never_py_index
  never_decode_utf8 never_struct_unpack_d : never.
#[local] Hint Extern 1 (never _ (Err _)) => not_reader_error : never.
#[local] Hint Extern 1 (reader_error _ = false) => reflexivity : never.

Ltac never_step :=
  first
    [ solve [auto with never]
    | apply never_bind; [ | intros ? _ ]
    | match goal with
      | |- never _ (if ?b then _ else _) => destruct b
      | |- never _ (let '(_, _) := ?p in _) => destruct p
      end ].

Section NeverContainers.

Variable e : error.
Hypothesis He : reader_error e = false.

Lemma never_get_type_info value pos : never e (_get_type_info value pos).
Proof. unfold _get_type_info. repeat never_step. Qed.

Lemma never_get_type value pos : never e (_get_type value pos).
Proof.
  pose proof never_get_type_info.
  unfold _get_type. repeat never_step.
Qed.

Lemma never_get_metadata_key metadata id :
  never e (_get_metadata_key metadata id).
Proof. unfold _get_metadata_key. repeat never_step. Qed.

Lemma never_object_loop value metadata ids isz os osz ds n i :
  never e (object_loop value metadata ids isz os osz ds n i).
Proof.
  pose proof never_get_metadata_key.
  revert i; induction n as [|n IH]; intros i; simpl; repeat never_step.
Qed.

Lemma never_array_loop value os osz ds n i :
  never e (array_loop value os osz ds n i).
Proof.
  revert i; induction n as [|n IH]; intros i; simpl; repeat never_step.
Qed.

Lemma never_object_fields value metadata pos :
  never e (object_fields value metadata pos).
Proof.
  pose proof never_get_type_info. pose proof never_object_loop.
  unfold object_fields, _handle_object. repeat never_step.
Qed.

Lemma never_array_elements value pos : never e (array_elements value pos).
Proof.
  pose proof never_get_type_info. pose proof never_array_loop.
  unfold array_elements, _handle_array. repeat never_step.
Qed.

End NeverContainers.

#[local] Hint Resolve never_get_type_info never_get_type
  never_get_metadata_key never_object_fields never_array_elements : never.

(** The accessors end in [UnexpectedType] at worst: they do not recurse. *)
Lemma _get_scalar_no_fuel t value metadata pos :
  never OutOfFuel (_get_scalar t value metadata pos).
Proof.
  unfold _get_scalar, _get_boolean, _get_long, _get_string, _get_double,
    _get_decimal.
  destruct t; repeat never_step.
Qed.

Ltac unfold_constants :=
  unfold BASIC_TYPE_BITS, BASIC_TYPE_MASK, TYPE_INFO_MASK, PRIMITIVE,
    SHORT_STR, OBJECT, ARRAY, NULL, TRUE, FALSE, INT1, INT2, INT4, INT8,
    DOUBLE, DECIMAL4, DECIMAL8, DECIMAL16, LONG_STR, U32_SIZE in *.

Ltac case_eqb :=
  repeat match goal with
    | H : context [Z.eqb ?a ?b] |- _ =>
      destruct (Z.eqb_spec a b); simpl in H; try discriminate H; try lia
    | |- context [Z.eqb ?a ?b] =>
      destruct (Z.eqb_spec a b); simpl; try lia
    end.

(** What [_get_type] resolved decides which accessor [_get_scalar] calls, and
    that accessor's own check of the header then passes. *)
Lemma _get_scalar_dispatched value metadata pos t :
  _get_type value pos = Ok t ->
  never UnexpectedType (_get_scalar t value metadata pos).
Proof.
  unfold _get_type; intros H.
  apply bind_Ok in H as ([] & Hc & H).
  apply bind_Ok in H as ([bt ti] & Hti & H).
  pose proof Hc as Hr; apply _check_index_Ok in Hr.
  destruct (_get_type_info_Ok _ _ _ _ (proj1 Hr) Hti) as (_ & Hbt & Hti').
  unfold _get_scalar, _get_boolean, _get_long, _get_string, _get_double,
    _get_decimal.
  unfold_constants.
  destruct t; rewrite ?Hc, ?Hti; simpl bind; cbv beta iota;
    try (unfold never; discriminate);
    case_eqb; repeat never_step.
Qed.

(** ** Children lie strictly after their container *)

Lemma object_loop_positions value metadata ids isz os osz ds n i kvs :
  object_loop value metadata ids isz os osz ds n i = Ok kvs ->
  Forall (fun kp => ds <= snd kp) kvs.
Proof.
  revert i kvs; induction n as [|n IH]; intros i kvs; simpl; intros H.
  - injection H as <-; constructor.
  - apply bind_Ok in H as (id & _ & H).
    apply bind_Ok in H as (offset & Ho & H).
    apply bind_Ok in H as (key & _ & H).
    apply bind_Ok in H as (rest & Hr & H).
    injection H as <-. constructor; [simpl | eauto].
    apply _read_long_unsigned_nonneg in Ho; lia.
Qed.

Lemma array_loop_positions value os osz ds n i ps :
  array_loop value os osz ds n i = Ok ps -> Forall (fun p => ds <= p) ps.
Proof.
  revert i ps; induction n as [|n IH]; intros i ps; simpl; intros H.
  - injection H as <-; constructor.
  - apply bind_Ok in H as (offset & Ho & H).
    apply bind_Ok in H as (rest & Hr & H).
    injection H as <-. constructor; [| eauto].
    apply _read_long_unsigned_nonneg in Ho; lia.
Qed.

Lemma land_3_range a : 0 <= Z.land a 3 <= 3.
Proof. rewrite land_3. pose proof (Z.mod_pos_bound a 4 ltac:(lia)). lia. Qed.

Lemma object_fields_after value metadata pos kvs :
  object_fields value metadata pos = Ok kvs ->
  Forall (fun kp => pos < snd kp) kvs.
Proof.
  unfold object_fields, _handle_object; intros H.
  apply bind_Ok in H as ([] & Hc & H).
  apply bind_Ok in H as ([bt ti] & Hti & H).
  destruct (negb (bt =? OBJECT)); [discriminate|].
  apply bind_Ok in H as (num_fields & Hn & H).
  apply bind_Ok in H as (l & Hl & H). injection H as <-.
  apply object_loop_positions in Hl.
  apply _read_long_unsigned_nonneg in Hn.
  pose proof (land_3_range (Z.shiftr ti 2)).
  pose proof (land_3_range ti).
  eapply Forall_impl; [|exact Hl]. intros kp Hkp; cbv beta in *.
  assert (0 <= (if negb (Z.land (Z.shiftr ti 4) 1 =? 0) then U32_SIZE else 1))
    by (destruct (negb _); unfold U32_SIZE; lia).
  nia.
Qed.

Lemma array_elements_after value pos ps :
  array_elements value pos = Ok ps -> Forall (fun p => pos < p) ps.
Proof.
  unfold array_elements, _handle_array; intros H.
  apply bind_Ok in H as ([] & Hc & H).
  apply bind_Ok in H as ([bt ti] & Hti & H).
  destruct (negb (bt =? ARRAY)); [discriminate|].
  apply bind_Ok in H as (num_fields & Hn & H).
  apply bind_Ok in H as (l & Hl & H). injection H as <-.
  apply array_loop_positions in Hl.
  apply _read_long_unsigned_nonneg in Hn.
  pose proof (land_3_range ti).
  eapply Forall_impl; [|exact Hl]. intros p Hp; cbv beta in *.
  assert (0 <= (if negb (Z.land (Z.shiftr ti 2) 1 =? 0) then U32_SIZE else 1))
    by (destruct (negb _); unfold U32_SIZE; lia).
  nia.
Qed.

Lemma _get_type_Ok value pos t :
  _get_type value pos = Ok t -> 0 <= pos < len value.
Proof.
  unfold _get_type; intros H.
  apply bind_Ok in H as (u & Hc & _). apply _check_index_Ok in Hc; exact Hc.
Qed.

(** ** Fuel: the recursion is as deep as the buffer is long, at most *)

Section Fuel.

Variable float_repr : bytes -> string.
Variables value metadata : bytes.

Lemma _to_json_unfold fuel pos :
  _to_json float_repr (S fuel) value metadata pos =
  (variant_type <- _get_type value pos ;;
   match variant_type with
   | t_dict =>
     kvs <- object_fields value metadata pos ;;
     key_value_list <-
       mapM (fun kp =>
               v <- _to_json float_repr fuel value metadata (snd kp) ;;
               Ok (json_dumps (fst kp) ++ ":" ++ v)%string) kvs ;;
     Ok ("{" ++ String.concat "," key_value_list ++ "}")%string
   | t_array =>
     ps <- array_elements value pos ;;
     value_list <- mapM (_to_json float_repr fuel value metadata) ps ;;
     Ok ("[" ++ String.concat "," value_list ++ "]")%string
   | _ =>
     v <- _get_scalar variant_type value metadata pos ;;
     Ok (scalar_json float_repr v)
   end).
Proof.
  cbn [_to_json]. destruct (_get_type value pos) as [t|]; [|reflexivity].
  cbn [bind]. destruct t; try reflexivity.
  - apply _handle_object_callback.
  - apply _handle_array_callback.
Qed.

Lemma _to_python_unfold fuel pos :
  _to_python (S fuel) value metadata pos =
  (variant_type <- _get_type value pos ;;
   match variant_type with
   | t_dict =>
     kvs <- object_fields value metadata pos ;;
     key_value_list <-
       mapM (fun kp =>
               v <- _to_python fuel value metadata (snd kp) ;;
               Ok (fst kp, v)) kvs ;;
     Ok (PyDict (py_dict key_value_list))
   | t_array =>
     ps <- array_elements value pos ;;
     value_list <- mapM (_to_python fuel value metadata) ps ;;
     Ok (PyList value_list)
   | _ =>
     v <- _get_scalar variant_type value metadata pos ;;
     Ok (PyScalar v)
   end).
Proof.
  cbn [_to_python]. destruct (_get_type value pos) as [t|]; [|reflexivity].
  cbn [bind]. destruct t; try reflexivity.
  - apply _handle_object_callback.
  - apply _handle_array_callback.
Qed.

Lemma _to_json_fuel_stable fuel1 : forall fuel2 pos,
  len value <= Z.of_nat fuel1 + pos ->
  len value <= Z.of_nat fuel2 + pos ->
  _to_json float_repr (S fuel1) value metadata pos
  = _to_json float_repr (S fuel2) value metadata pos.
Proof.
  induction fuel1 as [|f1 IH]; intros fuel2 pos H1 H2;
    rewrite !_to_json_unfold;
    destruct (_get_type value pos) as [t|] eqn:Ht; try reflexivity;
    apply _get_type_Ok in Ht; [lia|].
  destruct fuel2 as [|f2]; [lia|].
  cbn [bind]; destruct t; try reflexivity.
  - destruct (object_fields value metadata pos) as [kvs|] eqn:Hk;
      [|reflexivity].
    apply object_fields_after in Hk. rewrite Forall_forall in Hk.
    cbn [bind]. f_equal. apply mapM_ext_in; intros kp Hin.
    specialize (Hk kp Hin). rewrite (IH f2) by lia. reflexivity.
  - destruct (array_elements value pos) as [ps|] eqn:Hk; [|reflexivity].
    apply array_elements_after in Hk. rewrite Forall_forall in Hk.
    cbn [bind]. f_equal. apply mapM_ext_in; intros p Hin.
    specialize (Hk p Hin). apply IH; lia.
Qed.

Lemma _to_python_fuel_stable fuel1 : forall fuel2 pos,
  len value <= Z.of_nat fuel1 + pos ->
  len value <= Z.of_nat fuel2 + pos ->
  _to_python (S fuel1) value metadata pos
  = _to_python (S fuel2) value metadata pos.
Proof.
  induction fuel1 as [|f1 IH]; intros fuel2 pos H1 H2;
    rewrite !_to_python_unfold;
    destruct (_get_type value pos) as [t|] eqn:Ht; try reflexivity;
    apply _get_type_Ok in Ht; [lia|].
  destruct fuel2 as [|f2]; [lia|].
  cbn [bind]; destruct t; try reflexivity.
  - destruct (object_fields value metadata pos) as [kvs|] eqn:Hk;
      [|reflexivity].
    apply object_fields_after in Hk. rewrite Forall_forall in Hk.
    cbn [bind]. f_equal. apply mapM_ext_in; intros kp Hin.
    specialize (Hk kp Hin). rewrite (IH f2) by lia. reflexivity.
  - destruct (array_elements value pos) as [ps|] eqn:Hk; [|reflexivity].
    apply array_elements_after in Hk. rewrite Forall_forall in Hk.
    cbn [bind]. f_equal. apply mapM_ext_in; intros p Hin.
    specialize (Hk p Hin). apply IH; lia.
Qed.

Lemma _to_json_fuel_enough fuel : forall pos,
  len value <= Z.of_nat fuel + pos ->
  never OutOfFuel (_to_json float_repr (S fuel) value metadata pos).
Proof.
  induction fuel as [|f IH]; intros pos H; rewrite _to_json_unfold;
    (apply never_bind; [auto with never | intros t Ht]);
    pose proof (_get_type_Ok _ _ _ Ht) as Hp; [lia|].
  pose proof (_get_scalar_no_fuel t value metadata pos) as Hs.
  destruct t; try (apply never_bind; [exact Hs | intros; apply never_Ok]).
  - apply never_bind; [auto with never | intros kvs Hk].
    apply object_fields_after in Hk. rewrite Forall_forall in Hk.
    apply never_bind; [|intros; apply never_Ok].
    apply never_mapM; intros kp Hin. specialize (Hk kp Hin).
    apply never_bind; [apply IH; lia | intros; apply never_Ok].
  - apply never_bind; [auto with never | intros ps Hk].
    apply array_elements_after in Hk. rewrite Forall_forall in Hk.
    apply never_bind; [|intros; apply never_Ok].
    apply never_mapM; intros p Hin. specialize (Hk p Hin).
    apply IH; lia.
Qed.

Lemma _to_python_fuel_enough fuel : forall pos,
  len value <= Z.of_nat fuel + pos ->
  never OutOfFuel (_to_python (S fuel) value metadata pos).
Proof.
  induction fuel as [|f IH]; intros pos H; rewrite _to_python_unfold;
    (apply never_bind; [auto with never | intros t Ht]);
    pose proof (_get_type_Ok _ _ _ Ht) as Hp; [lia|].
  pose proof (_get_scalar_no_fuel t value metadata pos) as Hs.
  destruct t; try (apply never_bind; [exact Hs | intros; apply never_Ok]).
  - apply never_bind; [auto with never | intros kvs Hk].
    apply object_fields_after in Hk. rewrite Forall_forall in Hk.
    apply never_bind; [|intros; apply never_Ok].
    apply never_mapM; intros kp Hin. specialize (Hk kp Hin).
    apply never_bind; [apply IH; lia | intros; apply never_Ok].
  - apply never_bind; [auto with never | intros ps Hk].
    apply array_elements_after in Hk. rewrite Forall_forall in Hk.
    apply never_bind; [|intros; apply never_Ok].
    apply never_mapM; intros p Hin. specialize (Hk p Hin).
    apply IH; lia.
Qed.

Lemma _to_json_never_unexpected fuel : forall pos,
  never UnexpectedType (_to_json float_repr fuel value metadata pos).
Proof.
  induction fuel as [|f IH]; intros pos;
    [simpl; auto with never | rewrite _to_json_unfold].
  apply never_bind; [auto with never | intros t Ht].
  pose proof (_get_scalar_dispatched value metadata pos t Ht) as Hs.
  destruct t; try (apply never_bind; [exact Hs | intros; apply never_Ok]).
  - apply never_bind; [auto with never | intros kvs _].
    apply never_bind; [|intros; apply never_Ok].
    apply never_mapM; intros kp _.
    apply never_bind; [apply IH | intros; apply never_Ok].
  - apply never_bind; [auto with never | intros ps _].
    apply never_bind; [|intros; apply never_Ok].
    apply never_mapM; intros p _. apply IH.
Qed.

Lemma _to_python_never_unexpected fuel : forall pos,
  never UnexpectedType (_to_python fuel value metadata pos).
Proof.
  induction fuel as [|f IH]; intros pos;
    [simpl; auto with never | rewrite _to_python_unfold].
  apply never_bind; [auto with never | intros t Ht].
  pose proof (_get_scalar_dispatched value metadata pos t Ht) as Hs.
  destruct t; try (apply never_bind; [exact Hs | intros; apply never_Ok]).
  - apply never_bind; [auto with never | intros kvs _].
    apply never_bind; [|intros; apply never_Ok].
    apply never_mapM; intros kp _.
    apply never_bind; [apply IH | intros; apply never_Ok].
  - apply never_bind; [auto with never | intros ps _].
    apply never_bind; [|intros; apply never_Ok].
    apply never_mapM; intros p _. apply IH.
Qed.

End Fuel.

(** ** Reading inside a concatenation *)

Lemma len_app (a b : bytes) : len (a ++ b) = len a + len b.
Proof. unfold len; rewrite length_app; lia. Qed.

Lemma len_nonneg (a : bytes) : 0 <= len a.
Proof. unfold len; lia. Qed.

Lemma slice_bound_in n i : 0 <= i <= n -> slice_bound n i = i.
Proof.
  intros H; unfold slice_bound. destruct (Z.ltb_spec i 0); lia.
Qed.

Lemma py_slice_app_mid (pre mid post : bytes) :
  py_slice (pre ++ mid ++ post) (len pre) (len pre + len mid) = mid.
Proof.
  unfold py_slice.
  pose proof (len_nonneg pre); pose proof (len_nonneg mid);
    pose proof (len_nonneg post).
  rewrite !slice_bound_in by (rewrite !len_app; lia).
  unfold len. rewrite Nat2Z.id.
  replace (Z.to_nat (_ + _ - _)) with (List.length mid) by lia.
  rewrite skipn_app, skipn_all, Nat.sub_diag. simpl.
  rewrite firstn_app, firstn_all, Nat.sub_diag. simpl. apply app_nil_r.
Qed.

Lemma py_slice_length data lo hi :
  0 <= lo <= hi -> hi <= len data -> len (py_slice data lo hi) = hi - lo.
Proof.
  intros H1 H2; unfold py_slice. rewrite !slice_bound_in by lia.
  unfold len in *. rewrite length_firstn, length_skipn. lia.
Qed.

Lemma py_index_app_head (pre rest : bytes) (b : byte) :
  py_index (pre ++ b :: rest) (len pre) = Ok (byte_val b).
Proof.
  unfold py_index. pose proof (len_nonneg pre). pose proof (len_nonneg rest).
  destruct (Z.ltb_spec (len pre) 0); [lia|].
  destruct (Z.ltb_spec (len pre) 0); [lia|].
  destruct (Z.leb_spec (len (pre ++ b :: rest)) (len pre)) as [Hl|Hl].
  - rewrite len_app in Hl. unfold len in Hl; simpl in Hl; lia.
  - simpl. unfold len. rewrite Nat2Z.id, nth_error_app2, Nat.sub_diag by lia.
    reflexivity.
Qed.


Lemma _get_type_info_app_head (pre rest : bytes) (b : byte) :
  _get_type_info (pre ++ b :: rest) (len pre)
  = Ok (Z.land (byte_val b) BASIC_TYPE_MASK,
        Z.land (Z.shiftr (byte_val b) BASIC_TYPE_BITS) TYPE_INFO_MASK).
Proof. unfold _get_type_info. rewrite py_index_app_head. reflexivity. Qed.


(** ** Nested arrays, by depth and recursion budget *)










Lemma nested_arrays_length n : List.length (nested_arrays n) = (10 * n + 1)%nat.
Proof.
  induction n as [|m IH]; [reflexivity|].
  cbn [nested_arrays]. rewrite !length_app, IH. simpl. lia.
Qed.

(** ** Comprehensions, position by position *)

Lemma mapM_total {A B} (f : A -> result B) (l : list A) :
  (forall x, In x l -> exists y, f x = Ok y) -> exists r, mapM f l = Ok r.
Proof.
  induction l as [|x xs IH]; simpl; intros H; [eauto|].
  destruct (H x) as (y & Hy); [auto|].
  destruct IH as (ys & Hys); [auto|].
  rewrite Hy, Hys. simpl. eauto.
Qed.

Lemma mapM_nth_error {A B} (f : A -> result B) (l : list A) (r : list B) :
  mapM f l = Ok r ->
  forall i x, nth_error l i = Some x ->
              exists y, nth_error r i = Some y /\ f x = Ok y.
Proof.
  revert r; induction l as [|a l IH]; simpl; intros r H i x Hi.
  - destruct i; discriminate.
  - apply bind_Ok in H as (y & Hy & H).
    apply bind_Ok in H as (ys & Hys & H). injection H as <-.
    destruct i as [|i]; simpl in *.
    + injection Hi as <-. eauto.
    + eapply IH; eauto.
Qed.

Lemma mapM_nth_error_inv {A B} (f : A -> result B) (l : list A) (r : list B) :
  mapM f l = Ok r ->
  forall i y, nth_error r i = Some y ->
              exists x, nth_error l i = Some x /\ f x = Ok y.
Proof.
  revert r; induction l as [|a l IH]; simpl; intros r H i y Hi.
  - injection H as <-. destruct i; discriminate.
  - apply bind_Ok in H as (y' & Hy & H).
    apply bind_Ok in H as (ys & Hys & H). injection H as <-.
    destruct i as [|i]; simpl in *.
    + injection Hi as <-. eauto.
    + eapply IH; eauto.
Qed.

Lemma mapM_keys {A B} (g : A -> result B) (l : list (pystr * A)) r :
  mapM (fun kp => v <- g (snd kp) ;; Ok (fst kp, v)) l = Ok r ->
  map fst r = map fst l.
Proof.
  revert r; induction l as [|a l IH]; simpl; intros r H.
  - injection H as <-; reflexivity.
  - apply bind_Ok in H as (y & Hy & H).
    apply bind_Ok in H as (ys & Hys & H). injection H as <-.
    apply bind_Ok in Hy as (v & _ & Hy). injection Hy as <-.
    simpl. f_equal. auto.
Qed.

Lemma mapM_Forall2 {A B} (f : A -> result B) (l : list A) (r : list B) :
  Forall2 (fun x y => f x = Ok y) l r -> mapM f l = Ok r.
Proof.
  induction 1 as [|x y l r Hx _ IH]; cbn [mapM]; [reflexivity|].
  rewrite Hx, IH. reflexivity.
Qed.

Lemma mapM_members {A B C} (g : A -> result B) (h : A -> B -> C)
  (l : list A) (vs : list B) :
  Forall2 (fun x v => g x = Ok v) l vs ->
  mapM (fun x => v <- g x ;; Ok (h x v)) l
  = Ok (map (fun xv => h (fst xv) (snd xv)) (combine l vs)).
Proof.
  induction 1 as [|x v l vs Hx _ IH]; cbn [mapM combine map]; [reflexivity|].
  rewrite Hx. cbn [bind]. rewrite IH. reflexivity.
Qed.

(** A comprehension stops at its first failing element. *)
Lemma mapM_first_error {A B} (f : A -> result B) (l : list A) :
  forall (i : nat) x e,
  nth_error l i = Some x ->
  f x = Err e ->
  (forall j y, (j < i)%nat -> nth_error l j = Some y -> exists z, f y = Ok z) ->
  mapM f l = Err e.
Proof.
  induction l as [|a l IH]; intros i x e Hi He Hbefore;
    [destruct i; discriminate|].
  cbn [mapM]. destruct i as [|i]; cbn [nth_error] in Hi.
  - injection Hi as ->. rewrite He. reflexivity.
  - destruct (Hbefore 0%nat a ltac:(lia) eq_refl) as (z & Hz).
    rewrite Hz. cbn [bind]. rewrite (IH i x e Hi He); [reflexivity|].
    intros j y Hj Hy. apply (Hbefore (S j) y); [lia | exact Hy].
Qed.

(** ** The stored fields of an object *)

Lemma object_loop_stored value metadata L n : forall i : nat,
  object_loop value metadata (id_start L) (id_size L) (offset_start L)
    (offset_size L) (data_start L) n (Z.of_nat i)
  = mapM (stored_field value metadata L) (seq i n).
Proof.
  induction n as [|n IH]; intros i; [reflexivity|].
  cbn [object_loop seq mapM]. unfold stored_field at 1.
  replace (Z.of_nat i + 1) with (Z.of_nat (S i)) by lia. rewrite IH.
  destruct (_read_long value _ (id_size L) false); [|reflexivity].
  cbn [bind].
  destruct (_read_long value _ (offset_size L) false); [|reflexivity].
  cbn [bind]. destruct (_get_metadata_key metadata _); reflexivity.
Qed.

Lemma object_fields_stored value metadata pos :
  object_fields value metadata pos
  = (L <- object_header value pos ;;
     mapM (stored_field value metadata L) (seq 0 (Z.to_nat (num_fields L)))).
Proof.
  unfold object_fields, _handle_object, object_header.
  destruct (_check_index pos (len value)); [|reflexivity]. cbn [bind].
  destruct (_get_type_info value pos) as [[bt ti]|]; [|reflexivity].
  cbn [bind]. destruct (negb (bt =? OBJECT)); [reflexivity|].
  destruct (_read_long value (pos + 1) _ false) as [n|]; [|reflexivity].
  cbn [bind]. rewrite bind_ret.
  apply (object_loop_stored value metadata
           (mkLayout n _ _ _ _ _) (Z.to_nat n) 0).
Qed.

Lemma object_fields_type value metadata pos kvs :
  object_fields value metadata pos = Ok kvs ->
  _get_type value pos = Ok t_dict.
Proof.
  unfold object_fields, _handle_object, _get_type; intros H.
  apply bind_Ok in H as ([] & Hc & H). rewrite Hc. cbn [bind].
  apply bind_Ok in H as ([bt ti] & Hti & H). rewrite Hti. cbn [bind].
  unfold_constants. destruct (Z.eqb_spec bt 2) as [->|]; [|discriminate].
  reflexivity.
Qed.

(** ** [dict(pairs)] *)

Lemma dict_get_setitem {V} (d : list (pystr * V)) k v k' :
  dict_get (dict_setitem d k v) k'
  = if pystr_eq_dec k k' then Some v else dict_get d k'.
Proof.
  induction d as [|[a w] d IH]; simpl.
  - reflexivity.
  - destruct (pystr_eq_dec a k) as [->|Hak]; simpl.
    + destruct (pystr_eq_dec k k'); reflexivity.
    + destruct (pystr_eq_dec a k') as [->|]; [|exact IH].
      destruct (pystr_eq_dec k k'); [congruence | reflexivity].
Qed.

Lemma dict_setitem_keys {V} (d : list (pystr * V)) k v k' :
  In k' (map fst (dict_setitem d k v)) <-> k' = k \/ In k' (map fst d).
Proof.
  induction d as [|[a w] d IH]; simpl.
  - intuition.
  - destruct (pystr_eq_dec a k) as [->|Hak]; simpl; [intuition|].
    rewrite IH. intuition.
Qed.

Lemma dict_setitem_NoDup {V} (d : list (pystr * V)) k v :
  NoDup (map fst d) -> NoDup (map fst (dict_setitem d k v)).
Proof.
  induction d as [|[a w] d IH]; simpl; intros H.
  - constructor; [intros [] | constructor].
  - inversion H as [|? ? Hn Hd]; subst.
    destruct (pystr_eq_dec a k) as [->|Hak]; simpl.
    + constructor; assumption.
    + constructor; [|auto].
      rewrite dict_setitem_keys. intros [->|Hin]; [congruence | auto].
Qed.

Lemma fold_setitem_NoDup {V} (l d : list (pystr * V)) :
  NoDup (map fst d) ->
  NoDup (map fst
           (fold_left (fun d kv => dict_setitem d (fst kv) (snd kv)) l d)).
Proof.
  revert d; induction l as [|[k v] l IH]; simpl; intros d H; [exact H|].
  apply IH, dict_setitem_NoDup, H.
Qed.

Lemma py_dict_NoDup {V} (l : list (pystr * V)) : NoDup (map fst (py_dict l)).
Proof. apply fold_setitem_NoDup; constructor. Qed.

Lemma fold_setitem_get_other {V} (l d : list (pystr * V)) k :
  ~ In k (map fst l) ->
  dict_get (fold_left (fun d kv => dict_setitem d (fst kv) (snd kv)) l d) k
  = dict_get d k.
Proof.
  revert d; induction l as [|[a v] l IH]; simpl; intros d H; [reflexivity|].
  rewrite IH by tauto. rewrite dict_get_setitem.
  destruct (pystr_eq_dec a k); [tauto | reflexivity].
Qed.

(** The last pair with a given key decides the value of that key. *)
Lemma py_dict_get_last {V} (l1 l2 : list (pystr * V)) k v :
  ~ In k (map fst l2) -> dict_get (py_dict (l1 ++ (k, v) :: l2)) k = Some v.
Proof.
  intros H. unfold py_dict. rewrite fold_left_app. simpl.
  rewrite fold_setitem_get_other by exact H.
  rewrite dict_get_setitem. destruct (pystr_eq_dec k k); congruence.
Qed.

Lemma py_dict_get_last_nth {V} (l : list (pystr * V)) j k v :
  nth_error l j = Some (k, v) ->
  ~ In k (skipn (S j) (map fst l)) ->
  dict_get (py_dict l) k = Some v.
Proof.
  intros Hj Hl. apply nth_error_split in Hj as (l1 & l2 & -> & <-).
  apply py_dict_get_last. intros Hin; apply Hl.
  rewrite map_app, skipn_app, length_map.
  replace (S (List.length l1) - List.length l1)%nat with 1%nat by lia.
  rewrite skipn_all2 by (rewrite length_map; lia). exact Hin.
Qed.

(** ** Decimal digits *)

Lemma is_digit_digit_char n : is_digit (digit_char (n mod 10)) = true.
Proof.
  unfold is_digit, digit_char.
  assert (n mod 10 < 10)%N by (apply N.mod_lt; discriminate).
  remember (n mod 10)%N as d.
  rewrite N_ascii_embedding by lia.
  rewrite andb_true_iff, !N.leb_le. lia.
Qed.

Lemma digits_fuel_digits fuel : forall n acc,
  forallb is_digit acc = true ->
  forallb is_digit (digits_fuel fuel n acc) = true.
Proof.
  induction fuel as [|f IH]; intros n acc Hacc; cbn [digits_fuel].
  - cbn [forallb]. rewrite is_digit_digit_char; exact Hacc.
  - destruct (n <? 10)%N.
    + cbn [forallb]. rewrite is_digit_digit_char; exact Hacc.
    + apply IH. cbn [forallb]. rewrite is_digit_digit_char; exact Hacc.
Qed.

Lemma digits_fuel_length_min fuel : forall n acc,
  (S (List.length acc) <= List.length (digits_fuel fuel n acc))%nat.
Proof.
  induction fuel as [|f IH]; intros n acc; cbn [digits_fuel].
  - simpl; lia.
  - destruct (n <? 10)%N; [simpl; lia|].
    specialize (IH (n / 10)%N (digit_char (n mod 10) :: acc)).
    simpl in IH. lia.
Qed.

Lemma digits_fuel_length_le fuel : forall n acc k,
  (1 <= k)%nat -> (n < 10 ^ N.of_nat k)%N ->
  (List.length (digits_fuel fuel n acc) <= k + List.length acc)%nat.
Proof.
  induction fuel as [|f IH]; intros n acc k Hk Hn; cbn [digits_fuel].
  - simpl; lia.
  - destruct (N.ltb_spec n 10); [simpl; lia|].
    destruct k as [|[|k]]; [lia | simpl in Hn; lia |].
    specialize (IH (n / 10)%N (digit_char (n mod 10) :: acc) (S k)).
    cbn [List.length] in IH.
    assert (n / 10 < 10 ^ N.of_nat (S k))%N.
    { apply N.Div0.div_lt_upper_bound.
      rewrite <- N.pow_succ_r', <- Nat2N.inj_succ. exact Hn. }
    lia.
Qed.

Lemma pow10_pos m : (1 <= 10 ^ m)%N.
Proof.
  pose proof (N.pow_nonzero 10 m ltac:(discriminate)).
  remember (10 ^ m)%N as p. lia.
Qed.

Lemma digits_fuel_length_ge fuel : forall n acc k,
  (n < 2 ^ N.of_nat (S fuel))%N -> (10 ^ N.of_nat k <= n)%N ->
  (k + 1 + List.length acc <= List.length (digits_fuel fuel n acc))%nat.
Proof.
  induction fuel as [|f IH]; intros n acc k Hf Hn.
  - change (2 ^ N.of_nat 1)%N with 2%N in Hf.
    destruct k as [|k].
    + pose proof (digits_fuel_length_min 0 n acc). lia.
    + rewrite Nat2N.inj_succ, N.pow_succ_r' in Hn.
      pose proof (pow10_pos (N.of_nat k)).
      lia.
  - cbn [digits_fuel]. destruct (N.ltb_spec n 10) as [Hlt|Hge].
    + destruct k as [|k]; [simpl; lia|].
      rewrite Nat2N.inj_succ, N.pow_succ_r' in Hn.
      pose proof (pow10_pos (N.of_nat k)).
      lia.
    + destruct k as [|k].
      * pose proof (digits_fuel_length_min f (n / 10)%N
                      (digit_char (n mod 10) :: acc)) as Hm.
        simpl in Hm. lia.
      * specialize (IH (n / 10)%N (digit_char (n mod 10) :: acc) k).
        cbn [List.length] in IH.
        assert (n / 10 < 2 ^ N.of_nat (S f))%N.
        { apply N.Div0.div_lt_upper_bound.
          rewrite (Nat2N.inj_succ (S f)), N.pow_succ_r' in Hf. lia. }
        assert (10 ^ N.of_nat k <= n / 10)%N.
        { apply N.div_le_lower_bound; [discriminate|].
          rewrite <- N.pow_succ_r', <- Nat2N.inj_succ. exact Hn. }
        lia.
Qed.

Lemma str_N_fuel n : (n < 2 ^ N.of_nat (S (N.to_nat (N.log2 n))))%N.
Proof.
  rewrite Nat2N.inj_succ, N2Nat.id.
  destruct n as [|p]; [reflexivity|].
  apply N.log2_spec. reflexivity.
Qed.

Lemma str_N_digits n : forallb is_digit (str_N n) = true.
Proof. apply digits_fuel_digits; reflexivity. Qed.

Lemma ndigits_pos n : 1 <= ndigits n.
Proof.
  unfold ndigits, str_N.
  pose proof (digits_fuel_length_min (N.to_nat (N.log2 n)) n []) as H.
  simpl in H. lia.
Qed.

(** A number below [10^k] has at most [k] digits. *)
Lemma ndigits_upper n k : 1 <= k -> Z.of_N n < 10 ^ k -> ndigits n <= k.
Proof.
  intros Hk Hn. unfold ndigits, str_N.
  pose proof (digits_fuel_length_le (N.to_nat (N.log2 n)) n [] (Z.to_nat k))
    as H.
  simpl in H. rewrite Nat.add_0_r in H.
  assert (n < 10 ^ N.of_nat (Z.to_nat k))%N.
  { apply N2Z.inj_lt. rewrite N2Z.inj_pow.
    rewrite nat_N_Z, Z2Nat.id by lia. exact Hn. }
  lia.
Qed.

(** A number from [10^k] on has more than [k] digits. *)
Lemma ndigits_lower n k : 0 <= k -> 10 ^ k <= Z.of_N n -> k + 1 <= ndigits n.
Proof.
  intros Hk Hn. unfold ndigits, str_N.
  pose proof (digits_fuel_length_ge (N.to_nat (N.log2 n)) n [] (Z.to_nat k)
                (str_N_fuel n)) as H.
  simpl in H.
  assert (10 ^ N.of_nat (Z.to_nat k) <= n)%N.
  { apply N2Z.inj_le. rewrite N2Z.inj_pow.
    rewrite nat_N_Z, Z2Nat.id by lia. exact Hn. }
  lia.
Qed.

(** ** Decimals within the context precision *)

Lemma Decimal_mul_pow10 u scale :
  Z.abs u < 10 ^ context_prec ->
  Decimal_mul (Decimal_of_int u) (Decimal_pow10_neg scale)
  = mkDecimal (u <? 0) (Z.abs_N u) (- scale).
Proof.
  intros Hu. unfold Decimal_mul, Decimal_of_int, Decimal_pow10_neg.
  cbn [dec_sign dec_int dec_exp].
  rewrite xorb_false_r, N.mul_1_r, Z.add_0_l.
  unfold Decimal_fix. cbn [dec_sign dec_int dec_exp].
  assert (ndigits (Z.abs_N u) <= context_prec) as Hn.
  { apply ndigits_upper; [unfold context_prec; lia|].
    rewrite N2Z.inj_abs_N. exact Hu. }
  destruct (Z.leb_spec (ndigits (Z.abs_N u)) context_prec); [reflexivity|lia].
Qed.

Lemma decimal_value_signed u e :
  decimal_value (mkDecimal (u <? 0) (Z.abs_N u) e)
  = (inject_Z u * Qpower (10 # 1) e)%Q.
Proof.
  unfold decimal_value. cbn [dec_sign dec_int dec_exp].
  rewrite N2Z.inj_abs_N.
  destruct (Z.ltb_spec u 0); do 2 f_equal; lia.
Qed.

Lemma int_from_bytes_signed_range bs :
  - (256 ^ len bs) <= 2 * int_from_bytes bs true < 256 ^ len bs.
Proof.
  unfold int_from_bytes. pose proof (from_bytes_unsigned_range bs) as H.
  cbn [andb]. destruct (Z.leb_spec (256 ^ len bs) (2 * from_bytes_unsigned bs));
    lia.
Qed.

Lemma decimal_width_cases ti w :
  decimal_width ti = Some w ->
  (ti = DECIMAL4 /\ w = 4) \/ (ti = DECIMAL8 /\ w = 8)
  \/ (ti = DECIMAL16 /\ w = 16).
Proof.
  unfold decimal_width.
  destruct (Z.eqb_spec ti DECIMAL4); [intros [= <-]; auto|].
  destruct (Z.eqb_spec ti DECIMAL8); [intros [= <-]; auto|].
  destruct (Z.eqb_spec ti DECIMAL16); [intros [= <-]; auto|discriminate].
Qed.

Section DecimalAt.

Variables (value : bytes) (pos ti w scale u : Z).
Hypothesis Hpos : 0 <= pos.
Hypothesis Hti : _get_type_info value pos = Ok (PRIMITIVE, ti).
Hypothesis Hw : decimal_width ti = Some w.
Hypothesis Hlen : pos + 1 + w < len value.
Hypothesis Hscale : py_index value (pos + 1) = Ok scale.
Hypothesis Hu :
  u = int_from_bytes (py_slice value (pos + 2) (pos + 2 + w)) true.

Lemma decimal_at_type : _get_type value pos = Ok t_Decimal.
Proof.
  unfold _get_type. rewrite _check_index_in, Hti.
  - cbn [bind].
    destruct (decimal_width_cases _ _ Hw) as [[-> _]|[[-> _]|[-> _]]];
      reflexivity.
  - destruct (decimal_width_cases _ _ Hw) as [[_ ->]|[[_ ->]|[_ ->]]]; lia.
Qed.

Lemma decimal_at_get :
  _get_decimal value pos
  = Ok (Decimal_mul (Decimal_of_int u) (Decimal_pow10_neg scale)).
Proof.
  unfold _get_decimal.
  rewrite _check_index_in, Hti, Hu.
  - cbn [bind]. change (negb (PRIMITIVE =? PRIMITIVE)) with false.
    cbv iota. rewrite Hscale. cbn [bind].
    destruct (decimal_width_cases _ _ Hw) as [[-> ->]|[[-> ->]|[-> ->]]].
    + change (DECIMAL4 =? DECIMAL4) with true. cbv iota.
      rewrite _read_long_in by lia. reflexivity.
    + change (DECIMAL8 =? DECIMAL4) with false.
      change (DECIMAL8 =? DECIMAL8) with true. cbv iota.
      rewrite _read_long_in by lia. reflexivity.
    + change (DECIMAL16 =? DECIMAL4) with false.
      change (DECIMAL16 =? DECIMAL8) with false.
      change (DECIMAL16 =? DECIMAL16) with true. cbv iota.
      rewrite _check_index_in by lia.
      replace (pos + 18) with (pos + 2 + 16) by lia. reflexivity.
  - destruct (decimal_width_cases _ _ Hw) as [[_ ->]|[[_ ->]|[_ ->]]]; lia.
Qed.

Lemma decimal_at_narrow : w <= 8 -> Z.abs u < 10 ^ context_prec.
Proof.
  intros Hw8. pose proof (int_from_bytes_signed_range
                            (py_slice value (pos + 2) (pos + 2 + w))) as H.
  rewrite <- Hu in H.
  destruct (decimal_width_cases _ _ Hw) as [[_ ->]|[[_ ->]|[_ ->]]];
    [| |lia];
    rewrite py_slice_length in H by lia; unfold context_prec.
  - replace (pos + 2 + 4 - (pos + 2)) with 4 in H by lia.
    change (256 ^ 4) with 4294967296 in H.
    change (10 ^ 28) with 10000000000000000000000000000. lia.
  - replace (pos + 2 + 8 - (pos + 2)) with 8 in H by lia.
    change (256 ^ 8) with 18446744073709551616 in H.
    change (10 ^ 28) with 10000000000000000000000000000. lia.
Qed.

Lemma decimal_at_scale : 0 <= scale < 256.
Proof. apply (py_index_Ok value (pos + 1) scale); [lia | exact Hscale]. Qed.

End DecimalAt.

(** ** The plain notation of [str(Decimal)] *)

Lemma is_digit_not_point c : is_digit c = true -> Ascii.eqb c "." = false.
Proof.
  intros H. destruct (Ascii.eqb_spec c "."%char) as [->|]; [|reflexivity].
  discriminate H.
Qed.

Lemma is_digit_not_minus c : is_digit c = true -> Ascii.eqb c "-" = false.
Proof.
  intros H. destruct (Ascii.eqb_spec c "-"%char) as [->|]; [|reflexivity].
  discriminate H.
Qed.

Lemma split_dot_digits ip :
  forallb is_digit ip = true -> split_dot ip = (ip, None).
Proof.
  induction ip as [|c ip IH]; cbn [forallb split_dot]; intros H;
    [reflexivity|].
  apply andb_true_iff in H as [Hc Hip].
  rewrite (is_digit_not_point c Hc), (IH Hip). reflexivity.
Qed.

Lemma split_dot_point ip fp :
  forallb is_digit ip = true -> split_dot (ip ++ "."%char :: fp) = (ip, Some fp).
Proof.
  induction ip as [|c ip IH]; cbn [forallb split_dot app]; intros H;
    [reflexivity|].
  apply andb_true_iff in H as [Hc Hip].
  rewrite (is_digit_not_point c Hc), (IH Hip). reflexivity.
Qed.

Lemma forallb_repeat_zero k : forallb is_digit (repeat "0"%char k) = true.
Proof. induction k as [|k IH]; [reflexivity | exact IH]. Qed.

Lemma forallb_firstn {A} (f : A -> bool) k : forall l,
  forallb f l = true -> forallb f (firstn k l) = true.
Proof.
  induction k as [|k IH]; intros [|a l] H; try reflexivity.
  cbn [firstn forallb] in *. apply andb_true_iff in H as [Ha Hl].
  rewrite Ha, (IH l Hl). reflexivity.
Qed.

Lemma forallb_skipn {A} (f : A -> bool) k : forall l,
  forallb f l = true -> forallb f (skipn k l) = true.
Proof.
  induction k as [|k IH]; intros [|a l] H; try reflexivity; [exact H|].
  cbn [skipn forallb] in *. apply andb_true_iff in H as [_ Hl]. auto.
Qed.

Lemma plain_body_point scale ip fp :
  ip <> [] -> forallb is_digit ip = true -> forallb is_digit fp = true ->
  Z.of_nat (List.length fp) = scale -> 0 < scale ->
  plain_body scale (ip ++ "."%char :: fp) = true.
Proof.
  intros Hne Hip Hfp Hl Hs. unfold plain_body.
  rewrite (split_dot_point ip fp Hip), Hip, Hfp.
  destruct ip; [congruence|]. cbn [List.length Nat.eqb negb andb].
  apply andb_true_iff; split; [apply Z.eqb_eq; exact Hl | apply Z.ltb_lt; exact Hs].
Qed.

Lemma plain_body_integer ip :
  ip <> [] -> forallb is_digit ip = true -> plain_body 0 ip = true.
Proof.
  intros Hne Hip. unfold plain_body.
  rewrite (split_dot_digits ip Hip), Hip.
  destruct ip; [congruence | reflexivity].
Qed.

Lemma strip_minus_digit c r : is_digit c = true -> strip_minus (c :: r) = c :: r.
Proof. intros H. cbn [strip_minus]. rewrite (is_digit_not_minus c H). reflexivity. Qed.

Lemma plain_decimal_text_signed scale (sg : bool) c r :
  is_digit c = true -> plain_body scale (c :: r) = true ->
  plain_decimal_text scale
    (string_of_list_ascii ((if sg then ["-"%char] else []) ++ c :: r)) = true.
Proof.
  intros Hc Hb. unfold plain_decimal_text.
  rewrite list_ascii_of_string_of_list_ascii.
  destruct sg; cbn [app]; [exact Hb|].
  rewrite (strip_minus_digit c r Hc). exact Hb.
Qed.

(** With a non-positive exponent [-scale] and the first digit at most six
    places after the point, [str] writes no exponent and exactly [scale]
    digits after the point. *)
Lemma str_Decimal_plain sg c scale :
  0 <= scale -> -6 < ndigits c - scale ->
  plain_decimal_text scale
    (string_of_list_ascii (str_Decimal (mkDecimal sg c (- scale)))) = true.
Proof.
  intros Hs Hl. unfold str_Decimal. cbn [dec_sign dec_int dec_exp].
  fold (ndigits c).
  pose proof (ndigits_pos c) as Hn. pose proof (str_N_digits c) as Hd.
  assert (Hlen : Z.of_nat (List.length (str_N c)) = ndigits c) by reflexivity.
  set (n := ndigits c) in *. set (int := str_N c) in *.
  destruct (Z.leb_spec (- scale) 0); [|lia].
  destruct (Z.gtb_spec (- scale + n) (-6)); [|lia].
  cbn [andb]. rewrite Z.eqb_refl.
  assert (Hint : exists c0 r0, int = c0 :: r0 /\ is_digit c0 = true).
  { destruct int as [|c0 r0]; [simpl in Hlen; lia|].
    exists c0, r0. split; [reflexivity|].
    cbn [forallb] in Hd. apply andb_true_iff in Hd as [Hc _]. exact Hc. }
  destruct (Z.leb_spec (- scale + n) 0) as [Hdp|Hdp].
  - rewrite app_nil_r.
    apply (plain_decimal_text_signed scale sg "0"%char); [reflexivity|].
    apply (plain_body_point scale ["0"%char]); try reflexivity; try discriminate.
    + rewrite forallb_app, forallb_repeat_zero. exact Hd.
    + rewrite length_app, repeat_length. lia.
    + lia.
  - destruct (Z.geb_spec (- scale + n) n) as [Hge|Hlt].
    + assert (scale = 0) as -> by lia.
      replace (Z.to_nat (- 0 + n - n)) with 0%nat by lia.
      cbn [repeat]. rewrite !app_nil_r.
      destruct Hint as (c0 & r0 & Hi & Hc0). rewrite Hi in *.
      apply (plain_decimal_text_signed 0 sg c0 r0 Hc0).
      apply plain_body_integer; [discriminate | exact Hd].
    + rewrite app_nil_r.
      destruct Hint as (c0 & r0 & Hi & Hc0).
      assert (Hf : exists r1, firstn (Z.to_nat (- scale + n)) int = c0 :: r1).
      { rewrite Hi. destruct (Z.to_nat (- scale + n)) eqn:E; [lia|].
        cbn [firstn]. eauto. }
      destruct Hf as (r1 & Hf).
      pose proof (forallb_firstn is_digit (Z.to_nat (- scale + n)) int Hd) as Hfd.
      rewrite Hf in *.
      apply (plain_decimal_text_signed scale sg c0); [exact Hc0|].
      apply (plain_body_point scale (c0 :: r1)).
      * discriminate.
      * exact Hfd.
      * apply forallb_skipn; exact Hd.
      * rewrite length_skipn. lia.
      * lia.
Qed.

(** With the first digit more than six places after the point, [str]
    writes the coefficient with one digit before the point and the
    exponent [-(scale + 1 - ndigits c)]. *)
Lemma str_Decimal_scientific sg c scale :
  6 < scale -> Z.of_N c < 10 ^ (scale - 6) ->
  string_of_list_ascii (str_Decimal (mkDecimal sg c (- scale)))
  = scientific_text sg c (scale + 1 - ndigits c).
Proof.
  intros Hs Hc. unfold str_Decimal, scientific_text.
  cbn [dec_sign dec_int dec_exp]. fold (ndigits c).
  pose proof (ndigits_pos c) as Hn.
  pose proof (ndigits_upper c (scale - 6) ltac:(lia) Hc) as Hup.
  assert (Hlen : Z.of_nat (List.length (str_N c)) = ndigits c) by reflexivity.
  set (n := ndigits c) in *. set (int := str_N c) in *.
  destruct (Z.leb_spec (- scale) 0); [|lia].
  destruct (Z.gtb_spec (- scale + n) (-6)); [lia|].
  cbn [andb].
  destruct (Z.leb_spec 1 0); [lia|].
  destruct (Z.eqb_spec (- scale + n) 1); [lia|].
  destruct (Z.ltb_spec (- scale + n - 1) 0); [|lia].
  replace (Z.abs_N (- scale + n - 1)) with (Z.to_N (scale + 1 - n)) by lia.
  destruct (Z.geb_spec 1 n) as [Hge|Hlt].
  - replace (Z.to_nat (1 - n)) with 0%nat by lia.
    cbn [repeat]. rewrite app_nil_r.
    destruct int as [|c0 [|c1 r]]; cbn [List.length] in Hlen; try lia.
    reflexivity.
  - change (Z.to_nat 1) with 1%nat.
    destruct int as [|c0 [|c1 r]]; cbn [List.length] in Hlen; try lia.
    reflexivity.
Qed.

Lemma has_exponent_scientific neg c e :
  has_exponent (scientific_text neg c e) = true.
Proof.
  unfold has_exponent, scientific_text.
  rewrite list_ascii_of_string_of_list_ascii, !existsb_app.
  cbn [existsb]. rewrite Ascii.eqb_refl. cbn [orb].
  rewrite !orb_true_r. reflexivity.
Qed.

Lemma forallb_digit_exponent (a b : chars) :
  forallb is_digit (a ++ "E"%char :: b) = false.
Proof.
  rewrite forallb_app. cbn [forallb].
  change (is_digit "E") with false. apply andb_false_r.
Qed.

Lemma scientific_text_not_plain scale neg c e :
  plain_decimal_text scale (scientific_text neg c e) = false.
Proof.
  unfold plain_decimal_text, scientific_text.
  rewrite list_ascii_of_string_of_list_ascii.
  pose proof (ndigits_pos c) as Hn. pose proof (str_N_digits c) as Hd.
  pose proof (str_N_digits (Z.to_N e)) as He.
  unfold ndigits in Hn.
  set (ex := str_N (Z.to_N e)) in *.
  destruct (str_N c) as [|c0 r0]; [cbn [List.length] in Hn; lia|].
  cbn [forallb] in Hd. apply andb_true_iff in Hd as [Hc0 Hr0].
  assert (Hbody : forall body,
            strip_minus ((if neg then ["-"%char] else []) ++ c0 :: body)
            = c0 :: body).
  { intros body. destruct neg; [reflexivity | apply strip_minus_digit; exact Hc0]. }
  destruct r0 as [|c1 r1]; cbn [firstn skipn app]; rewrite Hbody;
    unfold plain_body.
  - cbn [split_dot]. rewrite (is_digit_not_point c0 Hc0).
    change (Ascii.eqb "E" ".") with false.
    change (Ascii.eqb "-" ".") with false.
    cbv iota. rewrite (split_dot_digits ex He).
    cbn [forallb]. change (is_digit "E") with false.
    rewrite andb_false_r, andb_false_r. reflexivity.
  - change (c0 :: "."%char :: c1 :: r1 ++ "E"%char :: "-"%char :: ex)
      with ([c0] ++ "."%char :: ((c1 :: r1) ++ "E"%char :: "-"%char :: ex)).
    rewrite split_dot_point by (cbn [forallb]; rewrite Hc0; reflexivity).
    rewrite forallb_digit_exponent. cbn [andb].
    rewrite andb_false_r. reflexivity.
Qed.

(** X16: a decimal whose unscaled integer [u] has at most 28 digits, which
    every Decimal4 and Decimal8 has, decodes to exactly [u * 10^(-scale)]. *)
Lemma decimal_exact_within_context_precision
  (value : bytes) (pos ti w scale u : Z) :
  0 <= pos ->
  _get_type_info value pos = Ok (PRIMITIVE, ti) ->
  decimal_width ti = Some w ->
  pos + 1 + w < len value ->
  py_index value (pos + 1) = Ok scale ->
  u = int_from_bytes (py_slice value (pos + 2) (pos + 2 + w)) true ->
  w <= 8 \/ Z.abs u < 10 ^ context_prec ->
  exists d,
    _get_decimal value pos = Ok d
    /\ d = mkDecimal (u <? 0) (Z.abs_N u) (- scale)
    /\ decimal_value d = (inject_Z u * Qpower (10 # 1) (- scale))%Q.
Proof.
  intros Hpos Hti Hw Hlen Hscale Hu Hsmall.
  assert (Habs : Z.abs u < 10 ^ context_prec).
  { destruct Hsmall as [Hw8|H]; [|exact H].
    eapply (decimal_at_narrow value pos ti w u); eassumption. }
  exists (mkDecimal (u <? 0) (Z.abs_N u) (- scale)).
  split; [|split; [reflexivity | apply decimal_value_signed]].
  erewrite (decimal_at_get value pos ti w scale u) by eassumption.
  rewrite (Decimal_mul_pow10 u scale Habs). reflexivity.
Qed.

(** * The claims *)

(** C1 (the code departs from the claim): a double header with no payload
    ends in [struct.error] and a decimal header with no scale byte ends in
    [IndexError]; neither is "Malformed Variant". *)
Theorem truncated_double_and_decimal_not_malformed
  (float_repr : bytes -> string) (metadata : bytes) :
  to_json float_repr [x1c] metadata = Err StructError
  /\ to_python [x1c] metadata = Err StructError
  /\ to_json float_repr [x20] metadata = Err IndexError
  /\ to_python [x20] metadata = Err IndexError.
Proof. repeat split; vm_compute; reflexivity. Qed.

(** C2 (the code departs from the claim): the product in [_get_decimal] is
    rounded to the 28 digits of the arithmetic context, so the Decimal16
    with unscaled value [10^28 + 1] and scale 0 decodes to [10^28], not to
    the exact [u * 10^(-scale)]. *)
Theorem decimal16_rounded_to_context_precision :
  int_from_bytes (py_slice sample_decimal16 2 18) true = 10 ^ 28 + 1
  /\ py_index sample_decimal16 1 = Ok 0
  /\ exists d,
       _get_decimal sample_decimal16 0 = Ok d
       /\ to_python sample_decimal16 [] = Ok (PyScalar (SDecimal d))
       /\ ~ (decimal_value d == inject_Z (10 ^ 28 + 1) * Qpower (10 # 1) (- 0))%Q.
Proof.
  split; [reflexivity|]. split; [reflexivity|].
  exists (mkDecimal false 1000000000000000000000000000 1).
  split; [vm_compute; reflexivity|]. split; [reflexivity|].
  intros H. vm_compute in H. discriminate H.
Qed.

(** C3 (as amended): a decimal of scale [s] whose unscaled integer [u] has
    at most 28 digits, which every Decimal4 and Decimal8 has, is written by
    [to_json] without an exponent and with exactly [s] digits after the
    point when [s <= 6] or [|u| >= 10^(s-6)]; when [s >= 7] and
    [|u| < 10^(s-6)] it is written in scientific notation, as the sign, the
    first digit of [|u|], a point before the remaining digits if there are
    any, and the exponent [E-(s + 1 - d)] for the number [d] of digits of
    [|u|] ("1E-7" for scale 7 and unscaled 1). *)
Theorem decimal_json_plain_unless_tiny
  (float_repr : bytes -> string) (value metadata : bytes) (fuel : nat)
  (pos ti w scale u : Z) :
  0 <= pos ->
  _get_type_info value pos = Ok (PRIMITIVE, ti) ->
  decimal_width ti = Some w ->
  pos + 1 + w < len value ->
  py_index value (pos + 1) = Ok scale ->
  u = int_from_bytes (py_slice value (pos + 2) (pos + 2 + w)) true ->
  w <= 8 \/ Z.abs u < 10 ^ context_prec ->
  exists txt,
    _to_json float_repr (S fuel) value metadata pos = Ok txt
    /\ (scale <= 6 \/ 10 ^ (scale - 6) <= Z.abs u ->
        plain_decimal_text scale txt = true)
    /\ (6 < scale -> Z.abs u < 10 ^ (scale - 6) ->
        txt = scientific_text (u <? 0) (Z.abs_N u)
                (scale + 1 - ndigits (Z.abs_N u))
        /\ has_exponent txt = true
        /\ plain_decimal_text scale txt = false).
Proof.
  intros Hpos Hti Hw Hlen Hscale Hu Hsmall.
  assert (Habs : Z.abs u < 10 ^ context_prec).
  { destruct Hsmall as [Hw8|H]; [|exact H].
    eapply (decimal_at_narrow value pos ti w u); eassumption. }
  assert (Hs : 0 <= scale < 256)
    by (eapply (decimal_at_scale value pos scale); eassumption).
  eexists. split; [|split].
  - rewrite _to_json_unfold.
    erewrite (decimal_at_type value pos ti w) by eassumption.
    cbn [bind _get_scalar].
    erewrite (decimal_at_get value pos ti w scale u) by eassumption.
    rewrite (Decimal_mul_pow10 u scale Habs). cbn [bind scalar_json].
    reflexivity.
  - intros Hbig. apply str_Decimal_plain; [lia|].
    pose proof (ndigits_pos (Z.abs_N u)).
    destruct Hbig as [Hle|Hge]; [lia|].
    destruct (Z.le_gt_cases scale 6); [lia|].
    pose proof (ndigits_lower (Z.abs_N u) (scale - 6) ltac:(lia)) as Hlow.
    rewrite N2Z.inj_abs_N in Hlow. specialize (Hlow Hge). lia.
  - intros Hs7 Htiny.
    rewrite str_Decimal_scientific
      by (try rewrite N2Z.inj_abs_N; assumption).
    split; [reflexivity|].
    split; [apply has_exponent_scientific | apply scientific_text_not_plain].
Qed.

Lemma decimal_json_plain_unless_tiny_witness :
  (_get_type_info sample_decimal4 0 = Ok (PRIMITIVE, DECIMAL4)
   /\ py_index sample_decimal4 (0 + 1) = Ok 2
   /\ 12345 = int_from_bytes (py_slice sample_decimal4 (0 + 2) (0 + 2 + 4)) true
   /\ to_json no_float sample_decimal4 [] = Ok "123.45"%string
   /\ exists txt,
        _to_json no_float 1 sample_decimal4 [] 0 = Ok txt
        /\ plain_decimal_text 2 txt = true)
  /\ (_get_type_info sample_decimal4_tiny 0 = Ok (PRIMITIVE, DECIMAL4)
      /\ py_index sample_decimal4_tiny (0 + 1) = Ok 7
      /\ 1 = int_from_bytes (py_slice sample_decimal4_tiny (0 + 2) (0 + 2 + 4))
               true
      /\ exists txt,
           _to_json no_float 1 sample_decimal4_tiny [] 0 = Ok txt
           /\ txt = "1E-7"%string
           /\ has_exponent txt = true
           /\ plain_decimal_text 7 txt = false).
Proof.
  split.
  - split; [reflexivity|]. split; [reflexivity|]. split; [reflexivity|].
    split; [reflexivity|].
    assert (Hpos : 0 <= 0) by lia.
    assert (Hw : 4 <= 8 \/ Z.abs 12345 < 10 ^ context_prec) by (left; lia).
    destruct (decimal_json_plain_unless_tiny no_float sample_decimal4 [] 0
                0 DECIMAL4 4 2 12345 Hpos eq_refl eq_refl eq_refl
                eq_refl eq_refl Hw)
      as (txt & Htxt & Hplain & _).
    exists txt. split; [exact Htxt|]. apply Hplain. left; lia.
  - split; [reflexivity|]. split; [reflexivity|]. split; [reflexivity|].
    assert (Hpos : 0 <= 0) by lia.
    assert (Hw : 4 <= 8 \/ Z.abs 1 < 10 ^ context_prec) by (left; lia).
    destruct (decimal_json_plain_unless_tiny no_float sample_decimal4_tiny []
                0 0 DECIMAL4 4 7 1 Hpos eq_refl eq_refl eq_refl
                eq_refl eq_refl Hw)
      as (txt & Htxt & _ & Hsci).
    assert (H7 : 6 < 7) by lia.
    destruct (Hsci H7 eq_refl) as (Heq & Hexp & Hnot).
    exists txt. split; [exact Htxt|].
    split; [rewrite Heq; reflexivity|]. split; [exact Hexp | exact Hnot].
Defined.

(** C3, the claim as stated fails: for the Decimal4 of scale 7 and unscaled
    value 1, no float rendering and no metadata make [to_json] return a text
    with seven digits after the point and no exponent; it returns "1E-7". *)
Lemma decimal_json_scientific_counterexample :
  to_json no_float sample_decimal4_tiny [] = Ok "1E-7"%string
  /\ ~ exists (float_repr : bytes -> string) (metadata : bytes) (txt : string),
         to_json float_repr sample_decimal4_tiny metadata = Ok txt
         /\ plain_decimal_text 7 txt = true.
Proof.
  split; [reflexivity|].
  intros (float_repr & metadata & txt & H & Hp).
  vm_compute in H. injection H as <-. vm_compute in Hp. discriminate Hp.
Qed.

Lemma decimal4_objheader (float_repr : bytes -> string) (metadata : bytes) :
  to_json float_repr [x0a; x02; x64] metadata = Err MalformedVariant.
Proof. vm_compute; reflexivity. Qed.

(** C4 (as amended): the buffer [0x0A, 0x02, 0x64] has basic type 2, an
    object header, and decoding it fails with "Malformed Variant" whatever
    the metadata; the Decimal4 of scale 2 and unscaled value 100 is
    [0x20, 0x02, 0x64, 0x00, 0x00, 0x00], and for it [to_json] returns
    "1.00". *)
Theorem decimal4_scenario (float_repr : bytes -> string) (metadata : bytes) :
  _get_type_info [x0a; x02; x64] 0 = Ok (OBJECT, 2)
  /\ to_json float_repr [x0a; x02; x64] metadata = Err MalformedVariant
  /\ _get_type_info [x20; x02; x64; x00; x00; x00] 0 = Ok (PRIMITIVE, DECIMAL4)
  /\ to_json float_repr [x20; x02; x64; x00; x00; x00] metadata
     = Ok "1.00"%string.
Proof. repeat split; vm_compute; reflexivity. Qed.

(** C4, the claim as stated fails: no metadata makes [to_json] return
    "1.00" for [0x0A, 0x02, 0x64]. *)
Lemma decimal4_scenario_counterexample :
  ~ exists (float_repr : bytes -> string) (metadata : bytes),
      to_json float_repr [x0a; x02; x64] metadata = Ok "1.00"%string.
Proof.
  intros (float_repr & metadata & H).
  pose proof (decimal4_objheader float_repr metadata) as E.
  rewrite E in H. discriminate H.
Qed.




(** C6 (as amended): looking up an id that is not below [dict_size] fails
    with "Malformed Variant", and so does a lookup whose offset-table
    entry exceeds the next one; when the bytes of the key are not valid
    UTF-8 the lookup fails with [UnicodeDecodeError]. *)
Theorem metadata_key_lookup_failures (metadata : bytes) (id : Z) :
  ((forall n, metadata_dict_size metadata = Ok n -> n <= id) ->
   _get_metadata_key metadata id = Err MalformedVariant)
  /\ (forall o o',
         metadata_offset metadata id = Ok o ->
         metadata_offset metadata (id + 1) = Ok o' ->
         o' < o ->
         _get_metadata_key metadata id = Err MalformedVariant)
  /\ (forall osz n o o',
         metadata_offset_size metadata = Ok osz ->
         metadata_dict_size metadata = Ok n ->
         id < n ->
         metadata_offset metadata id = Ok o ->
         metadata_offset metadata (id + 1) = Ok o' ->
         o <= o' ->
         0 <= 1 + (n + 2) * osz + o' - 1 < len metadata ->
         utf8_decode
           (map byte_val
              (py_slice metadata (1 + (n + 2) * osz + o)
                 (1 + (n + 2) * osz + o'))) = None ->
         _get_metadata_key metadata id = Err UnicodeDecodeError).
Proof.
  unfold metadata_dict_size, metadata_offset, metadata_offset_size,
    _get_metadata_key.
  destruct (_check_index 0 (len metadata)) as [[]|e] eqn:Hc; cbn [bind].
  2:{ apply _check_index_Err in Hc as [-> _].
      repeat split; intros; try discriminate; reflexivity. }
  destruct (py_index metadata 0) as [h|e] eqn:Hh; cbn [bind].
  2:{ apply _check_index_Ok in Hc.
      destruct (py_index_in metadata 0 Hc) as (b & Hb & _). congruence. }
  set (osz := Z.land (Z.shiftr h 6) 3 + 1).
  replace (id + 1 + 1) with (id + 2) by lia.
  destruct (_read_long metadata 1 osz false) as [n|e] eqn:Hn; cbn [bind].
  2:{ apply _read_long_Err in Hn as [-> _].
      repeat split; intros; try discriminate; reflexivity. }
  destruct (Z.geb_spec id n) as [Hge|Hlt].
  { repeat split; intros; try reflexivity.
    match goal with H : Ok n = Ok _ |- _ => injection H as <- end. lia. }
  repeat split.
  - intros H. specialize (H n eq_refl). lia.
  - intros o o' -> -> Ho. cbn [bind].
    destruct (Z.gtb_spec o o'); [reflexivity | lia].
  - intros osz' n' o o' Hosz Hn' Hid -> -> Hoo Hb Hu.
    injection Hosz as <-. injection Hn' as <-. cbn [bind].
    destruct (Z.gtb_spec o o'); [lia|].
    rewrite (_check_index_in _ _ Hb). cbn [bind].
    unfold decode_utf8. fold osz. rewrite Hu. reflexivity.
Qed.

Lemma metadata_key_lookup_failures_witness :
  ((forall n, metadata_dict_size sample_metadata = Ok n -> n <= 2)
   /\ _get_metadata_key sample_metadata 2 = Err MalformedVariant)
  /\ (metadata_offset sample_metadata_bad_offsets 0 = Ok 1
      /\ metadata_offset sample_metadata_bad_offsets (0 + 1) = Ok 0
      /\ _get_metadata_key sample_metadata_bad_offsets 0
         = Err MalformedVariant)
  /\ (metadata_dict_size sample_metadata_bad_utf8 = Ok 1
      /\ metadata_offset sample_metadata_bad_utf8 0 = Ok 0
      /\ metadata_offset sample_metadata_bad_utf8 (0 + 1) = Ok 1
      /\ _get_metadata_key sample_metadata_bad_utf8 0 = Err UnicodeDecodeError).
Proof.
  assert (H1 : forall n, metadata_dict_size sample_metadata = Ok n -> n <= 2).
  { intros n Hn. vm_compute in Hn. injection Hn as <-. discriminate. }
  split; [split; [exact H1|] | split].
  - exact (proj1 (metadata_key_lookup_failures sample_metadata 2) H1).
  - split; [reflexivity|]. split; [reflexivity|].
    refine (proj1 (proj2 (metadata_key_lookup_failures
                            sample_metadata_bad_offsets 0))
              1 0 eq_refl eq_refl _).
    reflexivity.
  - split; [reflexivity|]. split; [reflexivity|]. split; [reflexivity|].
    refine (proj2 (proj2 (metadata_key_lookup_failures
                            sample_metadata_bad_utf8 0))
              1 1 0 1 eq_refl eq_refl _ eq_refl eq_refl _ _ eq_refl).
    + reflexivity.
    + discriminate.
    + split; [discriminate | reflexivity].
Defined.

(** C6, the claim as stated fails: a key that is not valid UTF-8 makes the
    lookup end in [UnicodeDecodeError], not in "Malformed Variant". *)
Lemma metadata_key_invalid_utf8_counterexample :
  utf8_decode [255] = None
  /\ _get_metadata_key sample_metadata_bad_utf8 0 = Err UnicodeDecodeError
  /\ _get_metadata_key sample_metadata_bad_utf8 0 <> Err MalformedVariant.
Proof. repeat split; discriminate. Qed.

(** C7: through [to_json] and [to_python] the exception "Unexpected Variant
    type" is never raised, at any position and recursion depth: the accessor
    [_get_scalar] calls is chosen by the type [_get_type] resolved, and the
    accessor's own check of the header then passes. *)
Theorem materializers_never_raise_unexpected_type
  (float_repr : bytes -> string) (value metadata : bytes) :
  (forall pos,
      match _get_type value pos with
      | Ok t => _get_scalar t value metadata pos <> Err UnexpectedType
      | Err _ => True
      end)
  /\ (forall fuel pos,
         _to_json float_repr fuel value metadata pos <> Err UnexpectedType)
  /\ (forall fuel pos, _to_python fuel value metadata pos <> Err UnexpectedType)
  /\ to_json float_repr value metadata <> Err UnexpectedType
  /\ to_python value metadata <> Err UnexpectedType.
Proof.
  repeat split.
  - intros pos. destruct (_get_type value pos) as [t|] eqn:Ht; [|exact I].
    exact (_get_scalar_dispatched value metadata pos t Ht).
  - intros fuel pos. apply _to_json_never_unexpected.
  - intros fuel pos. apply _to_python_never_unexpected.
  - apply _to_json_never_unexpected.
  - apply _to_python_never_unexpected.
Qed.

(** C8: the list [_handle_object] hands to its callback holds the fields in
    the order they are stored: entry [i] is the key of the [i]-th id and the
    position of the [i]-th offset, nothing is sorted or dropped.  [_to_json]
    writes one [key:value] member per entry in that order: when the value
    of entry [i] decodes to the text [v_i] for every [i], the result is the
    members [key_i:v_i] in stored order, separated by commas, between
    braces; and when a value fails after all the earlier ones decoded, the
    result is that failure. *)
Theorem object_fields_in_stored_order
  (float_repr : bytes -> string) (value metadata : bytes) (pos : Z)
  (kvs : list (pystr * Z)) :
  object_fields value metadata pos = Ok kvs ->
  exists L,
    object_header value pos = Ok L
    /\ List.length kvs = Z.to_nat (num_fields L)
    /\ (forall i kp, nth_error kvs i = Some kp ->
                     stored_field value metadata L i = Ok kp)
    /\ (forall (A : Type) (func : list (pystr * Z) -> result A),
           _handle_object value metadata pos func = func kvs)
    /\ (forall fuel (vs : list string),
           Forall2 (fun kp v =>
                      _to_json float_repr fuel value metadata (snd kp) = Ok v)
                   kvs vs ->
           _to_json float_repr (S fuel) value metadata pos
           = Ok ("{" ++ String.concat ","
                          (map (fun kv => json_dumps (fst (fst kv)) ++ ":"
                                          ++ snd kv)
                               (combine kvs vs))
                     ++ "}")%string)
    /\ (forall fuel (i : nat) kp e,
           nth_error kvs i = Some kp ->
           _to_json float_repr fuel value metadata (snd kp) = Err e ->
           (forall j kq, (j < i)%nat -> nth_error kvs j = Some kq ->
              exists v, _to_json float_repr fuel value metadata (snd kq)
                        = Ok v) ->
           _to_json float_repr (S fuel) value metadata pos = Err e).
Proof.
  intros H. pose proof H as Hs. rewrite object_fields_stored in Hs.
  apply bind_Ok in Hs as (L & HL & Hm). exists L.
  split; [exact HL|]. split; [|split; [|split; [|split]]].
  - rewrite (mapM_Ok_length _ _ _ Hm), length_seq. reflexivity.
  - intros i kp Hi.
    destruct (mapM_nth_error_inv _ _ _ Hm i kp Hi) as (x & Hx & Hf).
    assert (x = i) as ->; [|exact Hf].
    rewrite nth_error_seq in Hx.
    destruct (Nat.ltb_spec i (Z.to_nat (num_fields L))); [|discriminate].
    injection Hx as <-; reflexivity.
  - intros A func. rewrite _handle_object_callback, H. reflexivity.
  - intros fuel vs Hvs. rewrite _to_json_unfold.
    rewrite (object_fields_type _ _ _ _ H). cbn [bind]. rewrite H.
    cbn [bind].
    rewrite (mapM_members
               (fun kp => _to_json float_repr fuel value metadata (snd kp))
               (fun kp v => (json_dumps (fst kp) ++ ":" ++ v)%string)
               kvs vs Hvs).
    reflexivity.
  - intros fuel i kp e Hi He Hbefore. rewrite _to_json_unfold.
    rewrite (object_fields_type _ _ _ _ H). cbn [bind]. rewrite H.
    cbn [bind].
    rewrite (mapM_first_error
               (fun kp => v <- _to_json float_repr fuel value metadata (snd kp) ;;
                          Ok (json_dumps (fst kp) ++ ":" ++ v)%string)
               kvs i kp e Hi); [reflexivity | rewrite He; reflexivity |].
    intros j kq Hj Hq. destruct (Hbefore j kq Hj Hq) as (v & Hv).
    rewrite Hv. cbn [bind]. eauto.
Qed.

Lemma object_fields_in_stored_order_witness :
  object_fields sample_object sample_metadata 0 = Ok [([98], 7); ([97], 9)]
  /\ (exists L,
        object_header sample_object 0 = Ok L
        /\ num_fields L = 2
        /\ stored_field sample_object sample_metadata L 0 = Ok ([98], 7)
        /\ stored_field sample_object sample_metadata L 1 = Ok ([97], 9))
  /\ _to_json no_float 2 sample_object sample_metadata 0
     = Ok ("{" ++ json_dumps [98] ++ ":1," ++ json_dumps [97] ++ ":2}")%string
  /\ _to_json no_float 1 sample_object sample_metadata 0 = Err OutOfFuel.
Proof.
  assert (H : object_fields sample_object sample_metadata 0
              = Ok [([98], 7); ([97], 9)]) by reflexivity.
  split; [exact H|].
  destruct (object_fields_in_stored_order no_float _ _ _ _ H)
    as (L & HL & Hn & Hi & _ & Hjson & Herr).
  split; [|split].
  - exists L. split; [exact HL|].
    split; [injection HL as <-; reflexivity|].
    split; [exact (Hi 0%nat _ eq_refl) | exact (Hi 1%nat _ eq_refl)].
  - apply (Hjson 1%nat ["1"; "2"]%string).
    constructor; [reflexivity|]. constructor; [reflexivity|]. constructor.
  - apply (Herr 0%nat 0%nat ([98], 7) OutOfFuel eq_refl eq_refl).
    intros j kq Hj. lia.
Defined.

(** C9: when two stored fields [i < j] carry the same key and [j] is the
    last field with that key, [_to_json] still writes a member for each of
    them, in stored order, while [_to_python] returns a dict with one entry
    per key, and that key's value is the decoding of field [j]. *)
Theorem duplicate_keys_kept_in_json_last_wins_in_python
  (float_repr : bytes -> string) (value metadata : bytes) (pos : Z)
  (fuel : nat) (kvs : list (pystr * Z)) (i j : nat) (k : pystr) (pi pj : Z)
  (vi vj : string) (wj : pyvalue) :
  object_fields value metadata pos = Ok kvs ->
  (i < j)%nat ->
  nth_error kvs i = Some (k, pi) ->
  nth_error kvs j = Some (k, pj) ->
  ~ In k (skipn (S j) (map fst kvs)) ->
  (forall kp, In kp kvs ->
     exists v w, _to_json float_repr fuel value metadata (snd kp) = Ok v
                 /\ _to_python fuel value metadata (snd kp) = Ok w) ->
  _to_json float_repr fuel value metadata pi = Ok vi ->
  _to_json float_repr fuel value metadata pj = Ok vj ->
  _to_python fuel value metadata pj = Ok wj ->
  exists members items,
    _to_json float_repr (S fuel) value metadata pos
    = Ok ("{" ++ String.concat "," members ++ "}")%string
    /\ List.length members = List.length kvs
    /\ nth_error members i = Some (json_dumps k ++ ":" ++ vi)%string
    /\ nth_error members j = Some (json_dumps k ++ ":" ++ vj)%string
    /\ _to_python (S fuel) value metadata pos = Ok (PyDict items)
    /\ NoDup (map fst items)
    /\ dict_get items k = Some wj.
Proof.
  intros Hk Hij Hi Hj Hlast Hall Hvi Hvj Hwj.
  pose proof (object_fields_type _ _ _ _ Hk) as Ht.
  destruct (mapM_total
              (fun kp => v <- _to_json float_repr fuel value metadata (snd kp) ;;
                         Ok (json_dumps (fst kp) ++ ":" ++ v)%string) kvs)
    as (members & Hm).
  { intros kp Hin. destruct (Hall kp Hin) as (v & _ & Hv & _).
    rewrite Hv. cbn [bind]. eauto. }
  destruct (mapM_total
              (fun kp => v <- _to_python fuel value metadata (snd kp) ;;
                         Ok (fst kp, v)) kvs)
    as (pairs & Hp).
  { intros kp Hin. destruct (Hall kp Hin) as (_ & w & _ & Hw).
    rewrite Hw. cbn [bind]. eauto. }
  exists members, (py_dict pairs). repeat split.
  - rewrite _to_json_unfold, Ht. cbn [bind]. rewrite Hk. cbn [bind].
    rewrite Hm. reflexivity.
  - exact (mapM_Ok_length _ _ _ Hm).
  - destruct (mapM_nth_error _ _ _ Hm i _ Hi) as (m & Hn & Hf).
    cbn [fst snd] in Hf. rewrite Hvi in Hf. injection Hf as <-. exact Hn.
  - destruct (mapM_nth_error _ _ _ Hm j _ Hj) as (m & Hn & Hf).
    cbn [fst snd] in Hf. rewrite Hvj in Hf. injection Hf as <-. exact Hn.
  - rewrite _to_python_unfold, Ht. cbn [bind]. rewrite Hk. cbn [bind].
    rewrite Hp. reflexivity.
  - apply py_dict_NoDup.
  - destruct (mapM_nth_error _ _ _ Hp j _ Hj) as (kv & Hn & Hf).
    cbn [fst snd] in Hf. rewrite Hwj in Hf. injection Hf as <-.
    apply (py_dict_get_last_nth pairs j k wj Hn).
    rewrite (mapM_keys _ _ _ Hp). exact Hlast.
Qed.

Lemma duplicate_keys_kept_in_json_last_wins_in_python_witness :
  object_fields sample_object_dup sample_metadata 0
  = Ok [([97], 7); ([97], 9)]
  /\ exists members items,
       _to_json no_float 2 sample_object_dup sample_metadata 0
       = Ok ("{" ++ String.concat "," members ++ "}")%string
       /\ List.length members = 2%nat
       /\ nth_error members 0 = Some (json_dumps [97] ++ ":" ++ "1")%string
       /\ nth_error members 1 = Some (json_dumps [97] ++ ":" ++ "2")%string
       /\ _to_python 2 sample_object_dup sample_metadata 0 = Ok (PyDict items)
       /\ NoDup (map fst items)
       /\ dict_get items [97] = Some (PyScalar (SInt 2)).
Proof.
  assert (H : object_fields sample_object_dup sample_metadata 0
              = Ok [([97], 7); ([97], 9)]) by reflexivity.
  split; [exact H|].
  refine (duplicate_keys_kept_in_json_last_wins_in_python
            no_float sample_object_dup sample_metadata 0 1
            [([97], 7); ([97], 9)] 0 1 [97] 7 9 "1" "2" (PyScalar (SInt 2))
            H _ eq_refl eq_refl _ _ eq_refl eq_refl eq_refl).
  - lia.
  - intros [].
  - intros kp [<- | [<- | []]].
    + exists "1"%string, (PyScalar (SInt 1)). split; reflexivity.
    + exists "2"%string, (PyScalar (SInt 2)). split; reflexivity.
Defined.

(** C10: every child position a container decoder produces is strictly
    greater than the position of the container, so a recursion budget of
    the length of the value buffer is never used up and a larger budget
    changes nothing: both materializers terminate on every input. *)
Theorem children_follow_container_and_decoding_terminates
  (float_repr : bytes -> string) (value metadata : bytes) (pos : Z)
  (fuel : nat) :
  len value <= Z.of_nat fuel + pos ->
  (forall kvs, object_fields value metadata pos = Ok kvs ->
               Forall (fun kp => pos < snd kp) kvs)
  /\ (forall ps, array_elements value pos = Ok ps ->
                 Forall (fun p => pos < p) ps)
  /\ _to_json float_repr (S fuel) value metadata pos <> Err OutOfFuel
  /\ _to_python (S fuel) value metadata pos <> Err OutOfFuel
  /\ (forall fuel', (fuel <= fuel')%nat ->
        _to_json float_repr (S fuel') value metadata pos
        = _to_json float_repr (S fuel) value metadata pos)
  /\ (forall fuel', (fuel <= fuel')%nat ->
        _to_python (S fuel') value metadata pos
        = _to_python (S fuel) value metadata pos)
  /\ to_json float_repr value metadata <> Err OutOfFuel
  /\ to_python value metadata <> Err OutOfFuel.
Proof.
  intros H. repeat split.
  - apply object_fields_after.
  - apply array_elements_after.
  - apply _to_json_fuel_enough; exact H.
  - apply _to_python_fuel_enough; exact H.
  - intros fuel' Hf. apply _to_json_fuel_stable; lia.
  - intros fuel' Hf. apply _to_python_fuel_stable; lia.
  - apply _to_json_fuel_enough; unfold len; lia.
  - apply _to_python_fuel_enough; unfold len; lia.
Qed.

Lemma children_follow_container_and_decoding_terminates_witness :
  len sample_array <= Z.of_nat 9 + 0
  /\ array_elements sample_array 0 = Ok [5; 7]
  /\ _to_json no_float 10 sample_array [] 0 <> Err OutOfFuel
  /\ _to_json no_float 12 sample_array [] 0 = Ok "[1,2]"%string.
Proof.
  assert (H : len sample_array <= Z.of_nat 9 + 0) by (vm_compute; discriminate).
  pose proof (children_follow_container_and_decoding_terminates
                no_float sample_array [] 0 9 H) as (_ & _ & Hj & _ & Hs & _).
  split; [exact H|]. split; [reflexivity|]. split; [exact Hj|].
  rewrite (Hs 11%nat) by lia. reflexivity.
Defined.

(** * Further properties of the decoder *)

(** ** The reader and the header *)

Lemma py_index_nth value pos b :
  0 <= pos -> nth_error value (Z.to_nat pos) = Some b ->
  py_index value pos = Ok (byte_val b).
Proof.
  intros Hpos Hn.
  assert (Hl : pos < len value).
  { unfold len. assert (Z.to_nat pos < List.length value)%nat; [|lia].
    apply nth_error_Some. congruence. }
  destruct (py_index_in value pos (conj Hpos Hl)) as (b' & Hb & Hn').
  rewrite Hn' in Hn. injection Hn as <-. exact Hb.
Qed.

Lemma header_split b :
  0 <= b < 256 ->
  Z.land b BASIC_TYPE_MASK = b mod 4
  /\ Z.land (Z.shiftr b BASIC_TYPE_BITS) TYPE_INFO_MASK = b / 4.
Proof.
  intros Hb. unfold BASIC_TYPE_MASK, TYPE_INFO_MASK, BASIC_TYPE_BITS.
  rewrite land_3, land_63, Z.shiftr_div_pow2 by lia.
  change (2 ^ 2) with 4. split; [reflexivity|].
  apply Z.mod_small. split; [apply Z.div_pos; lia|].
  apply Z.div_lt_upper_bound; lia.
Qed.

Lemma _get_type_info_nth value pos b :
  0 <= pos -> nth_error value (Z.to_nat pos) = Some b ->
  _get_type_info value pos = Ok (byte_val b mod 4, byte_val b / 4).
Proof.
  intros Hpos Hn. unfold _get_type_info.
  rewrite (py_index_nth value pos b Hpos Hn). cbn [bind].
  destruct (header_split (byte_val b) (byte_val_range b)) as [-> ->].
  reflexivity.
Qed.

(** X1: a read of [n >= 1] bytes succeeds exactly when the whole range
    [pos .. pos + n - 1] lies inside the buffer, and fails with "Malformed
    Variant" otherwise; an unsigned result is in [0, 256^n) and a signed one
    in [-256^n / 2, 256^n / 2). *)
Theorem _read_long_in_bounds_or_malformed
  (data : bytes) (pos n : Z) (signed : bool) :
  1 <= n ->
  (0 <= pos /\ pos + n <= len data ->
   exists v,
     _read_long data pos n signed = Ok v
     /\ if signed then - (256 ^ n) <= 2 * v < 256 ^ n else 0 <= v < 256 ^ n)
  /\ (~ (0 <= pos /\ pos + n <= len data) ->
      _read_long data pos n signed = Err MalformedVariant).
Proof.
  intros Hn. split.
  - intros [Hp Hl]. rewrite _read_long_in by lia.
    eexists; split; [reflexivity|].
    assert (Hs : len (py_slice data pos (pos + n)) = n)
      by (rewrite py_slice_length by lia; lia).
    destruct signed.
    + pose proof (int_from_bytes_signed_range (py_slice data pos (pos + n))) as H.
      rewrite Hs in H. exact H.
    + pose proof (from_bytes_unsigned_range (py_slice data pos (pos + n))) as H.
      rewrite Hs in H. exact H.
  - intros H. apply _read_long_out. lia.
Qed.

Lemma _read_long_in_bounds_or_malformed_witness :
  1 <= 2
  /\ (exists v, _read_long sample_array 1 2 true = Ok v
                /\ - (256 ^ 2) <= 2 * v < 256 ^ 2)
  /\ _read_long sample_array 8 2 true = Err MalformedVariant.
Proof.
  assert (H : 1 <= 2) by lia.
  split; [exact H|]. split.
  - apply (proj1 (_read_long_in_bounds_or_malformed sample_array 1 2 true H)).
    split; [lia | vm_compute; discriminate].
  - apply (proj2 (_read_long_in_bounds_or_malformed sample_array 8 2 true H)).
    intros [_ Hl]. vm_compute in Hl. apply Hl. reflexivity.
Defined.

Lemma header_byte_split (value : bytes) (pos bt ti : Z) :
  0 <= pos ->
  _get_type_info value pos = Ok (bt, ti) ->
  exists b,
    nth_error value (Z.to_nat pos) = Some b
    /\ byte_val b = bt + 4 * ti
    /\ 0 <= bt < 4 /\ 0 <= ti < 64.
Proof.
  intros Hpos H.
  destruct (_get_type_info_Ok value pos bt ti Hpos H) as (Hl & Hbt & Hti).
  destruct (py_index_in value pos (conj Hpos Hl)) as (b & _ & Hn).
  rewrite (_get_type_info_nth value pos b Hpos Hn) in H.
  injection H as <- <-. exists b. split; [exact Hn|].
  pose proof (byte_val_range b) as Hb.
  pose proof (Z.div_mod (byte_val b) 4 ltac:(lia)).
  pose proof (Z.mod_pos_bound (byte_val b) 4 ltac:(lia)).
  lia.
Qed.

(** X2: the header byte is split without loss: the basic type is its low
    two bits, the type info its high six bits, and the byte is
    [basic_type + 4 * type_info]. *)
Theorem _get_type_info_splits_header_byte
  (value : bytes) (pos bt ti : Z) :
  0 <= pos ->
  _get_type_info value pos = Ok (bt, ti) ->
  exists b,
    nth_error value (Z.to_nat pos) = Some b
    /\ byte_val b = bt + 4 * ti
    /\ 0 <= bt < 4 /\ 0 <= ti < 64.
Proof. apply header_byte_split. Qed.

Lemma _get_type_info_splits_header_byte_witness :
  0 <= 0
  /\ _get_type_info sample_object 0 = Ok (2, 0)
  /\ exists b,
       nth_error sample_object (Z.to_nat 0) = Some b
       /\ byte_val b = 2 + 4 * 0
       /\ 0 <= 2 < 4 /\ 0 <= 0 < 64.
Proof.
  assert (H : 0 <= 0) by lia.
  split; [exact H|]. split; [reflexivity|].
  exact (_get_type_info_splits_header_byte sample_object 0 2 0 H eq_refl).
Defined.

Lemma header_kind_cases (bt ti : Z) :
  0 <= bt < 4 -> 0 <= ti < 64 ->
  forall r : result pytype,
  r = (if bt =? SHORT_STR then Ok t_str
       else if bt =? OBJECT then Ok t_dict
       else if bt =? ARRAY then Ok t_array
       else if ti =? NULL then Ok t_NoneType
       else if (ti =? TRUE) || (ti =? FALSE) then Ok t_bool
       else if (ti =? INT1) || (ti =? INT2) || (ti =? INT4) || (ti =? INT8)
            then Ok t_int
       else if ti =? DOUBLE then Ok t_float
       else if (ti =? DECIMAL4) || (ti =? DECIMAL8) || (ti =? DECIMAL16)
            then Ok t_Decimal
       else if ti =? LONG_STR then Ok t_str
       else Err MalformedVariant) ->
  (forall e, r = Err e -> e = MalformedVariant)
  /\ ((exists t, r = Ok t) <-> (bt <> 0 \/ known_primitive ti = true)).
Proof.
  intros Hbt Hti r ->. unfold known_primitive. unfold_constants.
  rewrite orb_true_iff, Z.leb_le, Z.eqb_eq.
  repeat match goal with
         | |- context [Z.eqb ?a ?k] => destruct (Z.eqb_spec a k); cbn [orb]
         end;
    (split; [congruence|]); split;
    try (intros _; lia); try (intros _; eexists; reflexivity);
    try (intros [t Ht]; discriminate Ht); intros H; exfalso; lia.
Qed.

(** X3: [_get_type] fails only with "Malformed Variant", and it resolves a
    type exactly when the position is inside the buffer and the header is a
    short string, an object, an array, or a primitive whose type info is one
    of 0..10 or 16. *)
Theorem _get_type_accepts_known_headers (value : bytes) (pos : Z) :
  (forall e, _get_type value pos = Err e -> e = MalformedVariant)
  /\ ((exists t, _get_type value pos = Ok t) <->
      0 <= pos
      /\ exists b,
           nth_error value (Z.to_nat pos) = Some b
           /\ (byte_val b mod 4 <> 0
               \/ known_primitive (byte_val b / 4) = true)).
Proof.
  unfold _get_type.
  destruct (_check_index pos (len value)) as [[]|e0] eqn:Hc; cbn [bind].
  2:{ apply _check_index_Err in Hc as [-> Hc]. split; [congruence|].
      split; [intros [t Ht]; discriminate|].
      intros (Hpos & b & Hn & _). exfalso.
      assert (Z.to_nat pos < List.length value)%nat
        by (apply nth_error_Some; congruence).
      unfold len in Hc. lia. }
  apply _check_index_Ok in Hc.
  destruct (py_index_in value pos Hc) as (b & _ & Hn).
  rewrite (_get_type_info_nth value pos b (proj1 Hc) Hn). cbn [bind].
  pose proof (byte_val_range b) as Hb.
  pose proof (Z.mod_pos_bound (byte_val b) 4 ltac:(lia)) as Hm.
  assert (Hd : 0 <= byte_val b / 4 < 64).
  { split; [apply Z.div_pos; lia | apply Z.div_lt_upper_bound; lia]. }
  destruct (header_kind_cases _ _ Hm Hd _ eq_refl) as [He Hok].
  split; [exact He|]. rewrite Hok. split.
  - intros H. split; [lia|]. exists b. auto.
  - intros (_ & b0 & Hn0 & H). rewrite Hn0 in Hn. injection Hn as ->.
    exact H.
Qed.

(** ** Scalars *)

Lemma int_width_cases ti w :
  int_width ti = Some w ->
  (ti = INT1 /\ w = 1) \/ (ti = INT2 /\ w = 2) \/ (ti = INT4 /\ w = 4)
  \/ (ti = INT8 /\ w = 8).
Proof.
  unfold int_width.
  destruct (Z.eqb_spec ti INT1); [intros [= <-]; auto|].
  destruct (Z.eqb_spec ti INT2); [intros [= <-]; auto|].
  destruct (Z.eqb_spec ti INT4); [intros [= <-]; auto|].
  destruct (Z.eqb_spec ti INT8); [intros [= <-]; auto 6|discriminate].
Qed.

(** X4: [_get_long] succeeds exactly on a primitive header of type info
    INT1, INT2, INT4 or INT8 followed by the 1, 2, 4 or 8 payload bytes; its
    result is their signed little-endian value, and so lies in
    [-256^w / 2, 256^w / 2) for the width [w]. *)
Theorem _get_long_reads_signed_payload (value : bytes) (pos v : Z) :
  (_get_long value pos = Ok v <->
   0 <= pos
   /\ exists ti w,
        _get_type_info value pos = Ok (PRIMITIVE, ti)
        /\ int_width ti = Some w
        /\ pos + w < len value
        /\ v = int_from_bytes (py_slice value (pos + 1) (pos + 1 + w)) true)
  /\ (_get_long value pos = Ok v ->
      exists w, (w = 1 \/ w = 2 \/ w = 4 \/ w = 8)
                /\ - (256 ^ w) <= 2 * v < 256 ^ w).
Proof.
  assert (Hiff :
    _get_long value pos = Ok v <->
    0 <= pos
    /\ exists ti w,
         _get_type_info value pos = Ok (PRIMITIVE, ti)
         /\ int_width ti = Some w
         /\ pos + w < len value
         /\ v = int_from_bytes (py_slice value (pos + 1) (pos + 1 + w)) true).
  { unfold _get_long. split.
    - intros H. apply bind_Ok in H as ([] & Hc & H).
      apply _check_index_Ok in Hc.
      apply bind_Ok in H as ([bt ti] & Hti & H).
      destruct (_get_type_info_Ok _ _ _ _ (proj1 Hc) Hti) as (_ & Hbt & _).
      split; [lia|]. exists ti. unfold int_width. unfold_constants.
      destruct (Z.eqb_spec bt 0) as [->|]; [|discriminate H]. cbn [negb] in H.
      destruct (Z.eqb_spec ti 3);
        [|destruct (Z.eqb_spec ti 4);
          [|destruct (Z.eqb_spec ti 5);
            [|destruct (Z.eqb_spec ti 6); [|discriminate H]]]];
        apply _read_long_Ok in H as (H1 & H2 & ->);
        eexists; (split; [exact Hti|]); (split; [reflexivity|]);
        (split; [lia | reflexivity]).
    - intros (Hpos & ti & w & Hti & Hw & Hl & ->).
      destruct (int_width_cases _ _ Hw)
        as [[-> ->]|[[-> ->]|[[-> ->]|[-> ->]]]];
        rewrite _check_index_in by lia; rewrite Hti; cbn [bind];
        change (negb (PRIMITIVE =? PRIMITIVE)) with false; cbv iota;
        cbn -[_read_long py_slice int_from_bytes Z.add];
        rewrite _read_long_in by lia; reflexivity. }
  split; [exact Hiff|].
  intros H. apply Hiff in H as (Hpos & ti & w & _ & Hw & Hl & ->).
  exists w.
  pose proof (int_from_bytes_signed_range
                (py_slice value (pos + 1) (pos + 1 + w))) as Hr.
  assert (Hw' : w = 1 \/ w = 2 \/ w = 4 \/ w = 8)
    by (destruct (int_width_cases _ _ Hw)
          as [[_ ->]|[[_ ->]|[[_ ->]|[_ ->]]]]; auto).
  rewrite py_slice_length in Hr by lia.
  replace (pos + 1 + w - (pos + 1)) with w in Hr by lia.
  split; [exact Hw' | exact Hr].
Qed.

(** X5: [_get_boolean] succeeds exactly when the byte at [pos] is 4 (true)
    or 8 (false), and returns which of the two it is. *)
Theorem _get_boolean_reads_header (value : bytes) (pos : Z) (b : bool) :
  _get_boolean value pos = Ok b <->
  0 <= pos
  /\ exists h,
       nth_error value (Z.to_nat pos) = Some h
       /\ byte_val h = if b then 4 else 8.
Proof.
  unfold _get_boolean. split.
  - intros H. apply bind_Ok in H as ([] & Hc & H).
    apply _check_index_Ok in Hc.
    apply bind_Ok in H as ([bt ti] & Hti & H).
    destruct (header_byte_split value pos bt ti (proj1 Hc) Hti)
      as (h & Hn & Hh & Hbt & Hr).
    split; [lia|]. exists h. split; [exact Hn|].
    unfold_constants.
    destruct (Z.eqb_spec bt 0) as [->|]; [|discriminate H].
    destruct (Z.eqb_spec ti 1) as [->|]; cbn in H.
    + injection H as <-. lia.
    + destruct (Z.eqb_spec ti 2) as [->|]; [|discriminate H].
      injection H as <-. lia.
  - intros (Hpos & h & Hn & Hh).
    assert (Hl : pos < len value).
    { unfold len. assert (Z.to_nat pos < List.length value)%nat; [|lia].
      apply nth_error_Some. congruence. }
    rewrite _check_index_in by lia.
    rewrite (_get_type_info_nth value pos h Hpos Hn), Hh. cbn [bind].
    destruct b; reflexivity.
Qed.

(** ** Strings *)

Lemma utf8_decode_length : forall n bs s,
  (List.length bs <= n)%nat -> utf8_decode bs = Some s ->
  (List.length s <= List.length bs)%nat.
Proof.
  induction n as [|n IH]; intros bs s Hn H.
  - destruct bs; [|simpl in Hn; lia]. injection H as <-. simpl; lia.
  - destruct bs as [|b0 r0]; [injection H as <-; simpl; lia|].
    cbn [utf8_decode] in H. cbn [List.length] in *.
    assert (Hstep : forall c r, (List.length r <= n)%nat ->
              option_map (cons c) (utf8_decode r) = Some s ->
              (List.length s <= S (List.length r))%nat).
    { intros c r Hr Hm. destruct (utf8_decode r) as [s'|] eqn:E;
        [|discriminate Hm]. injection Hm as <-.
      specialize (IH r s' Hr E). simpl; lia. }
    destruct (b0 <? 128); [apply Hstep in H; lia|].
    destruct r0 as [|b1 r1]; [discriminate H|]. cbn [List.length] in *.
    destruct ((194 <=? b0) && (b0 <=? 223)).
    { destruct (cont b1); [|discriminate H].
      apply Hstep in H; lia. }
    destruct r1 as [|b2 r2]; [discriminate H|]. cbn [List.length] in *.
    destruct ((224 <=? b0) && (b0 <=? 239)).
    { match type of H with (if ?c then _ else _) = _ => destruct c end;
        [|discriminate H].
      apply Hstep in H; lia. }
    destruct r2 as [|b3 r3]; [discriminate H|]. cbn [List.length] in *.
    destruct ((240 <=? b0) && (b0 <=? 244)); [|discriminate H].
    match type of H with (if ?c then _ else _) = _ => destruct c end;
      [|discriminate H].
    apply Hstep in H; lia.
Qed.

Lemma utf8_decode_ascii bs :
  Forall (fun b => 0 <= b < 128) bs -> utf8_decode bs = Some bs.
Proof.
  induction 1 as [|b bs Hb _ IH]; [reflexivity|].
  cbn [utf8_decode]. destruct (Z.ltb_spec b 128); [|lia].
  rewrite IH. reflexivity.
Qed.

Lemma _get_string_short
  (value : bytes) (pos n : Z) :
  0 <= pos ->
  _get_type_info value pos = Ok (SHORT_STR, n) ->
  (pos + n < len value ->
   _get_string value pos
   = decode_utf8 (py_slice value (pos + 1) (pos + 1 + n)))
  /\ (len value <= pos + n ->
      _get_string value pos = Err MalformedVariant)
  /\ (forall s, _get_string value pos = Ok s ->
                Z.of_nat (List.length s) <= n <= MAX_SHORT_STR_SIZE).
Proof.
  intros Hpos Hti.
  destruct (_get_type_info_Ok value pos _ _ Hpos Hti) as (Hl & _ & Hn).
  assert (Hgs : _get_string value pos
                = (_check_index (pos + 1 + n - 1) (len value) ;;;
                   decode_utf8 (py_slice value (pos + 1) (pos + 1 + n)))).
  { unfold _get_string. rewrite _check_index_in by lia. rewrite Hti.
    reflexivity. }
  split; [|split].
  - intros H. rewrite Hgs, _check_index_in by lia. reflexivity.
  - intros H. rewrite Hgs, _check_index_out by lia. reflexivity.
  - intros s Hs. rewrite Hgs in Hs. apply bind_Ok in Hs as ([] & Hc & Hs).
    apply _check_index_Ok in Hc. unfold decode_utf8 in Hs.
    destruct (utf8_decode _) as [s'|] eqn:E; [|discriminate Hs].
    injection Hs as <-.
    pose proof (utf8_decode_length _ _ _ (le_n _) E) as Hlen.
    rewrite length_map in Hlen.
    pose proof (py_slice_length value (pos + 1) (pos + 1 + n)
                  ltac:(lia) ltac:(lia)) as Hsl.
    unfold len in Hsl. unfold MAX_SHORT_STR_SIZE. lia.
Qed.

(** X6: a string value is decoded from exactly the bytes its header
    declares.  A short string whose header declares [n] bytes decodes the
    [n] bytes after the header when they are all inside the buffer, and
    fails with "Malformed Variant" when fewer than [n] remain; a decoded
    short string has at most [n <= 63] characters. *)
Theorem _get_string_short_reads_declared_bytes
  (value : bytes) (pos n : Z) :
  0 <= pos ->
  _get_type_info value pos = Ok (SHORT_STR, n) ->
  (pos + n < len value ->
   _get_string value pos
   = decode_utf8 (py_slice value (pos + 1) (pos + 1 + n)))
  /\ (len value <= pos + n ->
      _get_string value pos = Err MalformedVariant)
  /\ (forall s, _get_string value pos = Ok s ->
                Z.of_nat (List.length s) <= n <= MAX_SHORT_STR_SIZE).
Proof. apply _get_string_short. Qed.

Lemma _get_string_short_reads_declared_bytes_witness :
  0 <= 0
  /\ _get_type_info [x09; x61; x62] 0 = Ok (SHORT_STR, 2)
  /\ _get_string [x09; x61; x62] 0 = Ok [97; 98]
  /\ _get_string [x09; x61] 0 = Err MalformedVariant.
Proof.
  assert (H : 0 <= 0) by lia.
  split; [exact H|]. split; [reflexivity|]. split.
  - rewrite (proj1 (_get_string_short_reads_declared_bytes
                      [x09; x61; x62] 0 2 H eq_refl)); reflexivity.
  - apply (proj1 (proj2 (_get_string_short_reads_declared_bytes
                           [x09; x61] 0 2 H eq_refl))).
    vm_compute. discriminate.
Defined.

(** X7: a long string (primitive, type info 16) carries its length [n] in
    the four bytes after the header; it decodes the [n] bytes that follow
    when they are all inside the buffer and fails with "Malformed Variant"
    when the length field or the declared bytes run past the end. *)
Theorem _get_string_long_reads_declared_bytes (value : bytes) (pos : Z) :
  0 <= pos ->
  _get_type_info value pos = Ok (PRIMITIVE, LONG_STR) ->
  (len value <= pos + 4 -> _get_string value pos = Err MalformedVariant)
  /\ (pos + 4 < len value ->
      let n := int_from_bytes (py_slice value (pos + 1) (pos + 5)) false in
      (pos + 4 + n < len value ->
       _get_string value pos
       = decode_utf8 (py_slice value (pos + 5) (pos + 5 + n)))
      /\ (len value <= pos + 4 + n ->
          _get_string value pos = Err MalformedVariant)).
Proof.
  intros Hpos Hti.
  destruct (_get_type_info_Ok value pos _ _ Hpos Hti) as (Hl & _ & _).
  assert (Hgs : _get_string value pos
                = (sl <- (length <- _read_long value (pos + 1) U32_SIZE false ;;
                          Ok (pos + 1 + U32_SIZE, length)) ;;
                   let '(start, length) := sl in
                   _check_index (start + length - 1) (len value) ;;;
                   decode_utf8 (py_slice value start (start + length)))).
  { unfold _get_string. rewrite _check_index_in by lia. rewrite Hti.
    reflexivity. }
  unfold U32_SIZE in Hgs. split.
  - intros H. rewrite Hgs, _read_long_out by lia. reflexivity.
  - intros H n.
    assert (Hn : 0 <= n) by apply int_from_bytes_unsigned_nonneg.
    rewrite Hgs, _read_long_in by lia. cbn [bind].
    replace (pos + 1 + 4) with (pos + 5) by lia. fold n. split; intros Hb.
    + rewrite _check_index_in by lia. reflexivity.
    + rewrite _check_index_out by lia. reflexivity.
Qed.

Lemma _get_string_long_reads_declared_bytes_witness :
  0 <= 0
  /\ _get_type_info [x40; x02; x00; x00; x00; x61; x62] 0
     = Ok (PRIMITIVE, LONG_STR)
  /\ _get_string [x40; x02; x00; x00; x00; x61; x62] 0 = Ok [97; 98]
  /\ _get_string [x40; x02; x00; x00; x00; x61] 0 = Err MalformedVariant
  /\ _get_string [x40; x02; x00] 0 = Err MalformedVariant.
Proof.
  assert (H : 0 <= 0) by lia.
  split; [exact H|]. split; [reflexivity|]. split; [|split].
  - pose proof (proj2 (_get_string_long_reads_declared_bytes
                         [x40; x02; x00; x00; x00; x61; x62] 0 H eq_refl)) as P.
    rewrite (proj1 (P ltac:(vm_compute; reflexivity)));
      [reflexivity | vm_compute; reflexivity].
  - pose proof (proj2 (_get_string_long_reads_declared_bytes
                         [x40; x02; x00; x00; x00; x61] 0 H eq_refl)) as P.
    apply (proj2 (P ltac:(vm_compute; reflexivity))).
    vm_compute. discriminate.
  - apply (proj1 (_get_string_long_reads_declared_bytes
                    [x40; x02; x00] 0 H eq_refl)).
    vm_compute. discriminate.
Defined.

(** ** The exceptions of the public entry points *)

Ltac not_public_error :=
  match goal with
  | He : public_error ?e = false |- never ?e (Err _) =>
    apply never_Err; intros <-; discriminate He
  | |- never _ (Err _) => apply never_Err; discriminate
  end.

Section NeverPublic.

Variable e : error.
Hypothesis He : public_error e = false.

Lemma only_public_check_index pos n : never e (_check_index pos n).
Proof. intros H; apply _check_index_Err in H as [-> _]; discriminate He. Qed.

Lemma only_public_read_long data pos n s : never e (_read_long data pos n s).
Proof. intros H; apply _read_long_Err in H as [-> _]; discriminate He. Qed.

Lemma only_public_py_index data i : never e (py_index data i).
Proof. intros H; apply py_index_Err in H as ->; discriminate He. Qed.

Lemma only_public_decode_utf8 bs : never e (decode_utf8 bs).
Proof.
  unfold decode_utf8; destruct (utf8_decode _);
    [apply never_Ok | not_public_error].
Qed.

Lemma only_public_struct_unpack_d bs : never e (struct_unpack_d bs).
Proof.
  unfold struct_unpack_d; destruct (_ =? _);
    [apply never_Ok | not_public_error].
Qed.

End NeverPublic.

Create HintDb only_public discriminated.
#[local] Hint Resolve never_Ok only_public_check_index only_public_read_long
  only_public_py_index only_public_decode_utf8 only_public_struct_unpack_d
  : only_public.
#[local] Hint Extern 1 (never _ (Err _)) => not_public_error : only_public.
#[local] Hint Extern 1 (public_error _ = false) => reflexivity : only_public.

Ltac only_public_step :=
  first
    [ solve [auto with only_public]
    | apply never_bind; [ | intros ? _ ]
    | match goal with
      | |- never _ (if ?b then _ else _) => destruct b
      | |- never _ (let '(_, _) := ?p in _) => destruct p
      end ].

Section NeverPublicContainers.

Variable e : error.
Hypothesis He : public_error e = false.

Lemma only_public_get_type_info value pos : never e (_get_type_info value pos).
Proof. unfold _get_type_info. repeat only_public_step. Qed.

Lemma only_public_get_type value pos : never e (_get_type value pos).
Proof.
  pose proof only_public_get_type_info.
  unfold _get_type. repeat only_public_step.
Qed.

Lemma only_public_get_metadata_key metadata id :
  never e (_get_metadata_key metadata id).
Proof. unfold _get_metadata_key. repeat only_public_step. Qed.

Lemma only_public_object_loop value metadata ids isz os osz ds n i :
  never e (object_loop value metadata ids isz os osz ds n i).
Proof.
  pose proof only_public_get_metadata_key.
  revert i; induction n as [|n IH]; intros i; simpl; repeat only_public_step.
Qed.

Lemma only_public_array_loop value os osz ds n i :
  never e (array_loop value os osz ds n i).
Proof.
  revert i; induction n as [|n IH]; intros i; simpl; repeat only_public_step.
Qed.

Lemma only_public_object_fields value metadata pos :
  never e (object_fields value metadata pos).
Proof.
  pose proof only_public_get_type_info. pose proof only_public_object_loop.
  unfold object_fields, _handle_object. repeat only_public_step.
Qed.

Lemma only_public_array_elements value pos :
  never e (array_elements value pos).
Proof.
  pose proof only_public_get_type_info. pose proof only_public_array_loop.
  unfold array_elements, _handle_array. repeat only_public_step.
Qed.

End NeverPublicContainers.

#[local] Hint Resolve only_public_get_type_info only_public_get_type
  only_public_get_metadata_key only_public_object_fields
  only_public_array_elements : only_public.

(** The [raise] statements of [_get_decimal] that would end in [NameError]
    are not reached once [_get_type] has resolved the type. *)
Lemma _get_scalar_no_name_error value metadata pos t :
  _get_type value pos = Ok t ->
  never NameError (_get_scalar t value metadata pos).
Proof.
  unfold _get_type; intros H.
  apply bind_Ok in H as ([] & Hc & H).
  apply bind_Ok in H as ([bt ti] & Hti & H).
  pose proof Hc as Hr; apply _check_index_Ok in Hr.
  destruct (_get_type_info_Ok _ _ _ _ (proj1 Hr) Hti) as (_ & Hbt & Hti').
  unfold _get_scalar, _get_boolean, _get_long, _get_string, _get_double,
    _get_decimal.
  unfold_constants.
  destruct t; rewrite ?Hc, ?Hti; simpl bind; cbv beta iota;
    try (unfold never; discriminate);
    case_eqb; repeat only_public_step.
Qed.

Section PublicErrors.

Variable float_repr : bytes -> string.
Variables value metadata : bytes.

Lemma _to_json_no_name_error fuel : forall pos,
  never NameError (_to_json float_repr fuel value metadata pos).
Proof.
  induction fuel as [|f IH]; intros pos;
    [simpl; auto with only_public | rewrite _to_json_unfold].
  apply never_bind; [auto with only_public | intros t Ht].
  pose proof (_get_scalar_no_name_error value metadata pos t Ht) as Hs.
  destruct t; try (apply never_bind; [exact Hs | intros; apply never_Ok]).
  - apply never_bind; [auto with only_public | intros kvs _].
    apply never_bind; [|intros; apply never_Ok].
    apply never_mapM; intros kp _.
    apply never_bind; [apply IH | intros; apply never_Ok].
  - apply never_bind; [auto with only_public | intros ps _].
    apply never_bind; [|intros; apply never_Ok].
    apply never_mapM; intros p _. apply IH.
Qed.

Lemma _to_python_no_name_error fuel : forall pos,
  never NameError (_to_python fuel value metadata pos).
Proof.
  induction fuel as [|f IH]; intros pos;
    [simpl; auto with only_public | rewrite _to_python_unfold].
  apply never_bind; [auto with only_public | intros t Ht].
  pose proof (_get_scalar_no_name_error value metadata pos t Ht) as Hs.
  destruct t; try (apply never_bind; [exact Hs | intros; apply never_Ok]).
  - apply never_bind; [auto with only_public | intros kvs _].
    apply never_bind; [|intros; apply never_Ok].
    apply never_mapM; intros kp _.
    apply never_bind; [apply IH | intros; apply never_Ok].
  - apply never_bind; [auto with only_public | intros ps _].
    apply never_bind; [|intros; apply never_Ok].
    apply never_mapM; intros p _. apply IH.
Qed.

End PublicErrors.

(** X8: whatever the buffers, the position and the recursion budget,
    [_to_json] and [_to_python] end either in a result, or in one of four
    exceptions: "Malformed Variant", [IndexError], [struct.error] or
    [UnicodeDecodeError], or with the budget used up, which in Python is
    the interpreter's [RecursionError]; and the budget cannot be used up
    when it exceeds the number of bytes from the position to the end of the
    buffer.  In particular the "Unexpected Variant type" exceptions and the
    unbound name in the messages of [_get_decimal] are never reached. *)
Theorem materializers_raise_four_exceptions_or_exhaust_budget
  (float_repr : bytes -> string) (value metadata : bytes) (limit : nat)
  (pos : Z) (e : error) :
  _to_json float_repr limit value metadata pos = Err e
  \/ _to_python limit value metadata pos = Err e ->
  (public_error e = true \/ e = OutOfFuel)
  /\ ((0 < limit)%nat -> len value < Z.of_nat limit + pos ->
      public_error e = true).
Proof.
  intros [H|H].
  - pose proof (_to_json_no_name_error float_repr value metadata limit pos)
      as Hn.
    pose proof (_to_json_never_unexpected float_repr value metadata limit pos)
      as Hu.
    unfold never in *. split.
    + destruct e; try (left; reflexivity); try congruence. right; reflexivity.
    + intros Hl Hlen. destruct limit as [|fuel]; [lia|].
      pose proof (_to_json_fuel_enough float_repr value metadata fuel pos
                    ltac:(lia)) as Hf.
      unfold never in Hf. destruct e; try reflexivity; congruence.
  - pose proof (_to_python_no_name_error value metadata limit pos) as Hn.
    pose proof (_to_python_never_unexpected value metadata limit pos) as Hu.
    unfold never in *. split.
    + destruct e; try (left; reflexivity); try congruence. right; reflexivity.
    + intros Hl Hlen. destruct limit as [|fuel]; [lia|].
      pose proof (_to_python_fuel_enough value metadata fuel pos ltac:(lia))
        as Hf.
      unfold never in Hf. destruct e; try reflexivity; congruence.
Qed.

Lemma materializers_raise_four_exceptions_or_exhaust_budget_witness :
  (_to_json no_float 3 [x1c; x00] [] 0 = Err StructError
   /\ public_error StructError = true)
  /\ (_to_python 4 [x09; xff; xff] [] 0 = Err UnicodeDecodeError
      /\ public_error UnicodeDecodeError = true)
  /\ (_to_python 1 (nested_arrays 1) [] 0 = Err OutOfFuel
      /\ (public_error OutOfFuel = true \/ OutOfFuel = OutOfFuel)).
Proof.
  assert (H1 : _to_json no_float 3 [x1c; x00] [] 0 = Err StructError)
    by reflexivity.
  assert (H2 : _to_python 4 [x09; xff; xff] [] 0 = Err UnicodeDecodeError)
    by reflexivity.
  assert (H3 : _to_python 1 (nested_arrays 1) [] 0 = Err OutOfFuel)
    by reflexivity.
  split; [|split].
  - split; [exact H1|].
    apply (proj2 (materializers_raise_four_exceptions_or_exhaust_budget
                    no_float [x1c; x00] [] 3 0 StructError (or_introl H1)));
      [lia | reflexivity].
  - split; [exact H2|].
    apply (proj2 (materializers_raise_four_exceptions_or_exhaust_budget
                    no_float [x09; xff; xff] [] 4 0 UnicodeDecodeError
                    (or_intror H2)));
      [lia | reflexivity].
  - split; [exact H3|].
    exact (proj1 (materializers_raise_four_exceptions_or_exhaust_budget
                    no_float (nested_arrays 1) [] 1 0 OutOfFuel
                    (or_intror H3))).
Defined.

(** ** The two materializers walk the value alike *)

Lemma raised_bind {A B} (c : result A) (k : A -> result B) :
  raised (bind c k)
  = match c with Ok a => raised (k a) | Err e => Some e end.
Proof. destruct c; reflexivity. Qed.

Lemma raised_mapM {A B C} (f : A -> result B) (g : A -> result C) l :
  (forall x, In x l -> raised (f x) = raised (g x)) ->
  raised (mapM f l) = raised (mapM g l).
Proof.
  induction l as [|x xs IH]; intros H; [reflexivity|].
  cbn [mapM]. pose proof (H x (or_introl eq_refl)) as Hx.
  specialize (IH (fun y Hy => H y (or_intror Hy))).
  destruct (f x) as [b|e1], (g x) as [c|e2]; cbn [bind raised] in *;
    try congruence.
  destruct (mapM f xs), (mapM g xs); cbn [bind raised] in *; congruence.
Qed.

Lemma materializers_raise_alike float_repr value metadata fuel : forall pos,
  raised (_to_json float_repr fuel value metadata pos)
  = raised (_to_python fuel value metadata pos).
Proof.
  induction fuel as [|f IH]; intros pos; [reflexivity|].
  rewrite _to_json_unfold, _to_python_unfold, !raised_bind.
  destruct (_get_type value pos) as [t|]; [|reflexivity].
  destruct t; rewrite !raised_bind;
    try (destruct (_get_scalar _ value metadata pos); reflexivity).
  - destruct (object_fields value metadata pos) as [kvs|]; [|reflexivity].
    rewrite !raised_bind.
    pose proof (raised_mapM
      (fun kp => v <- _to_json float_repr f value metadata (snd kp) ;;
                 Ok (json_dumps (fst kp) ++ ":" ++ v)%string)
      (fun kp => v <- _to_python f value metadata (snd kp) ;; Ok (fst kp, v))
      kvs) as Hm.
    assert (Hx : forall kp, In kp kvs ->
              raised (v <- _to_json float_repr f value metadata (snd kp) ;;
                      Ok (json_dumps (fst kp) ++ ":" ++ v)%string)
              = raised (v <- _to_python f value metadata (snd kp) ;;
                        Ok (fst kp, v))).
    { intros kp _. rewrite !raised_bind. specialize (IH (snd kp)).
      destruct (_to_json float_repr f value metadata (snd kp)),
        (_to_python f value metadata (snd kp)); cbn [raised] in *;
        congruence. }
    specialize (Hm Hx).
    destruct (mapM _ kvs), (mapM _ kvs); cbn [raised] in *; congruence.
  - destruct (array_elements value pos) as [ps|]; [|reflexivity].
    rewrite !raised_bind.
    pose proof (raised_mapM (_to_json float_repr f value metadata)
                  (_to_python f value metadata) ps (fun p _ => IH p)) as Hm.
    destruct (mapM (_to_json float_repr f value metadata) ps),
      (mapM (_to_python f value metadata) ps); cbn [raised] in *;
      congruence.
Qed.

(** X9: on the same buffers [to_json] and [to_python] either both return a
    result or both raise, and then the same exception. *)
Theorem to_json_and_to_python_fail_alike
  (float_repr : bytes -> string) (value metadata : bytes) :
  raised (to_json float_repr value metadata)
  = raised (to_python value metadata).
Proof. apply materializers_raise_alike. Qed.

(** ** Arrays *)

Lemma array_loop_stored value L n : forall i : nat,
  array_loop value (arr_offset_start L) (arr_offset_size L) (arr_data_start L)
    n (Z.of_nat i)
  = mapM (stored_element value L) (seq i n).
Proof.
  induction n as [|n IH]; intros i; [reflexivity|].
  cbn [array_loop seq mapM]. unfold stored_element at 1.
  replace (Z.of_nat i + 1) with (Z.of_nat (S i)) by lia. rewrite IH.
  destruct (_read_long value _ (arr_offset_size L) false); reflexivity.
Qed.

Lemma array_elements_stored value pos :
  array_elements value pos
  = (L <- array_header value pos ;;
     mapM (stored_element value L) (seq 0 (Z.to_nat (arr_count L)))).
Proof.
  unfold array_elements, _handle_array, array_header.
  destruct (_check_index pos (len value)); [|reflexivity]. cbn [bind].
  destruct (_get_type_info value pos) as [[bt ti]|]; [|reflexivity].
  cbn [bind]. destruct (negb (bt =? ARRAY)); [reflexivity|].
  destruct (_read_long value (pos + 1) _ false) as [n|]; [|reflexivity].
  cbn [bind]. rewrite bind_ret.
  apply (array_loop_stored value (mkArrayLayout n _ _ _) (Z.to_nat n) 0).
Qed.

Lemma array_elements_type value pos ps :
  array_elements value pos = Ok ps -> _get_type value pos = Ok t_array.
Proof.
  unfold array_elements, _handle_array, _get_type; intros H.
  apply bind_Ok in H as ([] & Hc & H). rewrite Hc. cbn [bind].
  apply bind_Ok in H as ([bt ti] & Hti & H). rewrite Hti. cbn [bind].
  unfold_constants. destruct (Z.eqb_spec bt 3) as [->|]; [|discriminate].
  reflexivity.
Qed.

(** X10: the list [_handle_array] hands to its callback holds one position
    per declared element, in stored order: entry [i] is the start of the
    element data plus the [i]-th entry of the offset table.  When element
    [i] decodes to the text [v_i] for every [i], [_to_json] returns the
    texts in that order, separated by commas, between brackets; when it
    decodes to the object [w_i] for every [i], [_to_python] returns the
    list of the [w_i] in that order; and when an element fails after all
    the earlier ones decoded, the result is that failure. *)
Theorem array_elements_in_stored_order
  (float_repr : bytes -> string) (value metadata : bytes) (pos : Z)
  (ps : list Z) :
  array_elements value pos = Ok ps ->
  exists L,
    array_header value pos = Ok L
    /\ List.length ps = Z.to_nat (arr_count L)
    /\ (forall i p, nth_error ps i = Some p ->
                    stored_element value L i = Ok p)
    /\ (forall fuel (texts : list string),
           Forall2 (fun p v => _to_json float_repr fuel value metadata p = Ok v)
                   ps texts ->
           _to_json float_repr (S fuel) value metadata pos
           = Ok ("[" ++ String.concat "," texts ++ "]")%string)
    /\ (forall fuel (items : list pyvalue),
           Forall2 (fun p w => _to_python fuel value metadata p = Ok w)
                   ps items ->
           _to_python (S fuel) value metadata pos = Ok (PyList items))
    /\ (forall fuel (i : nat) p e,
           nth_error ps i = Some p ->
           _to_python fuel value metadata p = Err e ->
           (forall j q, (j < i)%nat -> nth_error ps j = Some q ->
              exists w, _to_python fuel value metadata q = Ok w) ->
           _to_python (S fuel) value metadata pos = Err e
           /\ _to_json float_repr (S fuel) value metadata pos = Err e).
Proof.
  intros H. pose proof H as Hs. rewrite array_elements_stored in Hs.
  apply bind_Ok in Hs as (L & HL & Hm). exists L.
  split; [exact HL|]. split; [|split; [|split; [|split]]].
  - rewrite (mapM_Ok_length _ _ _ Hm), length_seq. reflexivity.
  - intros i p Hi.
    destruct (mapM_nth_error_inv _ _ _ Hm i p Hi) as (x & Hx & Hf).
    assert (x = i) as ->; [|exact Hf].
    rewrite nth_error_seq in Hx.
    destruct (Nat.ltb_spec i (Z.to_nat (arr_count L))); [|discriminate].
    injection Hx as <-; reflexivity.
  - intros fuel texts Ht. rewrite _to_json_unfold.
    rewrite (array_elements_type _ _ _ H). cbn [bind]. rewrite H.
    cbn [bind]. rewrite (mapM_Forall2 _ ps texts Ht). reflexivity.
  - intros fuel items Ht. rewrite _to_python_unfold.
    rewrite (array_elements_type _ _ _ H). cbn [bind]. rewrite H.
    cbn [bind]. rewrite (mapM_Forall2 _ ps items Ht). reflexivity.
  - intros fuel i p e Hi He Hbefore.
    assert (Hp : _to_python (S fuel) value metadata pos = Err e).
    { rewrite _to_python_unfold.
      rewrite (array_elements_type _ _ _ H). cbn [bind]. rewrite H.
      cbn [bind].
      rewrite (mapM_first_error (_to_python fuel value metadata) ps i p e
                 Hi He Hbefore).
      reflexivity. }
    split; [exact Hp|].
    pose proof (materializers_raise_alike float_repr value metadata (S fuel)
                  pos) as Ha.
    rewrite Hp in Ha. cbn [raised] in Ha.
    destruct (_to_json float_repr (S fuel) value metadata pos);
      cbn [raised] in Ha; congruence.
Qed.

Lemma array_elements_in_stored_order_witness :
  array_elements sample_array 0 = Ok [5; 7]
  /\ (exists L,
        array_header sample_array 0 = Ok L
        /\ arr_count L = 2
        /\ stored_element sample_array L 0 = Ok 5
        /\ stored_element sample_array L 1 = Ok 7)
  /\ _to_json no_float 2 sample_array [] 0 = Ok "[1,2]"%string
  /\ _to_python 2 sample_array [] 0
     = Ok (PyList [PyScalar (SInt 1); PyScalar (SInt 2)])
  /\ _to_python 1 sample_array [] 0 = Err OutOfFuel
  /\ _to_json no_float 1 sample_array [] 0 = Err OutOfFuel.
Proof.
  assert (H : array_elements sample_array 0 = Ok [5; 7]) by reflexivity.
  split; [exact H|].
  destruct (array_elements_in_stored_order no_float _ [] _ _ H)
    as (L & HL & Hn & Hi & Hj & Hp & He).
  split; [|split; [|split]].
  - exists L. split; [exact HL|].
    split; [injection HL as <-; reflexivity|].
    split; [exact (Hi 0%nat _ eq_refl) | exact (Hi 1%nat _ eq_refl)].
  - apply (Hj 1%nat ["1"; "2"]%string).
    constructor; [reflexivity|]. constructor; [reflexivity|]. constructor.
  - apply (Hp 1%nat [PyScalar (SInt 1); PyScalar (SInt 2)]).
    constructor; [reflexivity|]. constructor; [reflexivity|]. constructor.
  - apply (He 0%nat 0%nat 5 OutOfFuel eq_refl eq_refl).
    intros j q Hlt. lia.
Defined.

(** ** Empty containers and dangling children *)

(** X11: an object or array whose count field is 0 decodes to the empty
    object or array, whatever follows the count: [{}] and an empty dict,
    [[]] and an empty list.  The offset table is not read at all. *)
Theorem empty_containers_decode
  (float_repr : bytes -> string) (value metadata : bytes) (pos : Z)
  (fuel : nat) :
  (forall L, object_header value pos = Ok L -> num_fields L = 0 ->
     _to_json float_repr (S fuel) value metadata pos = Ok "{}"%string
     /\ _to_python (S fuel) value metadata pos = Ok (PyDict []))
  /\ (forall L, array_header value pos = Ok L -> arr_count L = 0 ->
        _to_json float_repr (S fuel) value metadata pos = Ok "[]"%string
        /\ _to_python (S fuel) value metadata pos = Ok (PyList [])).
Proof.
  split; intros L HL Hn.
  - assert (Hk : object_fields value metadata pos = Ok []).
    { rewrite object_fields_stored, HL. cbn [bind]. rewrite Hn. reflexivity. }
    rewrite _to_json_unfold, _to_python_unfold,
      (object_fields_type _ _ _ _ Hk).
    cbn [bind]. rewrite Hk. split; reflexivity.
  - assert (Hk : array_elements value pos = Ok []).
    { rewrite array_elements_stored, HL. cbn [bind]. rewrite Hn. reflexivity. }
    rewrite _to_json_unfold, _to_python_unfold,
      (array_elements_type _ _ _ Hk).
    cbn [bind]. rewrite Hk. split; reflexivity.
Qed.

Lemma empty_containers_decode_witness :
  (exists L, object_header [x02; x00] 0 = Ok L /\ num_fields L = 0
             /\ to_json no_float [x02; x00] [] = Ok "{}"%string
             /\ _to_python 1 [x02; x00] [] 0 = Ok (PyDict []))
  /\ (exists L, array_header [x03; x00] 0 = Ok L /\ arr_count L = 0
                /\ _to_json no_float 1 [x03; x00] [] 0 = Ok "[]"%string
                /\ to_python [x03; x00] [] = Ok (PyList [])).
Proof.
  split.
  - eexists. split; [reflexivity|]. split; [reflexivity|].
    split; [reflexivity|].
    exact (proj2 (proj1 (empty_containers_decode no_float [x02; x00] [] 0 0)
                    _ eq_refl eq_refl)).
  - eexists. split; [reflexivity|]. split; [reflexivity|].
    split; [|reflexivity].
    exact (proj1 (proj2 (empty_containers_decode no_float [x03; x00] [] 0 0)
                    _ eq_refl eq_refl)).
Defined.

Lemma mapM_Ok_In {A B} (f : A -> result B) (l : list A) (r : list B) x :
  mapM f l = Ok r -> In x l -> exists y, f x = Ok y.
Proof.
  intros H Hin. apply In_nth_error in Hin as (i & Hi).
  destruct (mapM_nth_error f l r H i x Hi) as (y & _ & Hy). eauto.
Qed.

Lemma out_of_range_malformed float_repr value metadata pos fuel :
  pos < 0 \/ len value <= pos ->
  _to_json float_repr (S fuel) value metadata pos = Err MalformedVariant
  /\ _to_python (S fuel) value metadata pos = Err MalformedVariant.
Proof.
  intros H. rewrite _to_json_unfold, _to_python_unfold.
  unfold _get_type. rewrite _check_index_out by exact H. split; reflexivity.
Qed.

(** X12: decoding starts with a bounds check at every position, so a
    position outside the value buffer fails with "Malformed Variant", for
    the empty buffer in particular; and a container with a child position
    outside the buffer never decodes, in either materializer. *)
Theorem dangling_positions_are_refused
  (float_repr : bytes -> string) (value metadata : bytes) (pos : Z)
  (fuel : nat) :
  (pos < 0 \/ len value <= pos ->
   _to_json float_repr (S fuel) value metadata pos = Err MalformedVariant
   /\ _to_python (S fuel) value metadata pos = Err MalformedVariant)
  /\ (forall ps p, array_elements value pos = Ok ps -> In p ps ->
        len value <= p ->
        raised (_to_json float_repr (S fuel) value metadata pos) <> None
        /\ raised (_to_python (S fuel) value metadata pos) <> None)
  /\ (forall kvs kp, object_fields value metadata pos = Ok kvs -> In kp kvs ->
        len value <= snd kp ->
        raised (_to_json float_repr (S fuel) value metadata pos) <> None
        /\ raised (_to_python (S fuel) value metadata pos) <> None).
Proof.
  split; [apply out_of_range_malformed|]. split.
  - intros ps p Hps Hin Hp.
    assert (Hj : raised (_to_json float_repr (S fuel) value metadata pos)
                 <> None).
    { rewrite _to_json_unfold, (array_elements_type _ _ _ Hps).
      cbn [bind]. rewrite Hps. cbn [bind].
      destruct (mapM _ ps) as [r|] eqn:Hm; [|discriminate].
      destruct (mapM_Ok_In _ _ _ p Hm Hin) as (y & Hy).
      destruct fuel as [|f]; [discriminate Hy|].
      rewrite (proj1 (out_of_range_malformed float_repr value metadata p f
                        (or_intror Hp))) in Hy. discriminate Hy. }
    split; [exact Hj|]. rewrite <- (materializers_raise_alike float_repr). exact Hj.
  - intros kvs kp Hk Hin Hp.
    assert (Hj : raised (_to_json float_repr (S fuel) value metadata pos)
                 <> None).
    { rewrite _to_json_unfold, (object_fields_type _ _ _ _ Hk).
      cbn [bind]. rewrite Hk. cbn [bind].
      destruct (mapM _ kvs) as [r|] eqn:Hm; [|discriminate].
      destruct (mapM_Ok_In _ _ _ kp Hm Hin) as (y & Hy).
      apply bind_Ok in Hy as (v & Hv & _).
      destruct fuel as [|f]; [discriminate Hv|].
      rewrite (proj1 (out_of_range_malformed float_repr value metadata
                        (snd kp) f (or_intror Hp))) in Hv. discriminate Hv. }
    split; [exact Hj|]. rewrite <- (materializers_raise_alike float_repr). exact Hj.
Qed.

Lemma dangling_positions_are_refused_witness :
  (len [] <= 0
   /\ _to_json no_float 1 [] [] 0 = Err MalformedVariant)
  /\ (array_elements [x03; x01; x09; x00] 0 = Ok [13]
      /\ raised (_to_json no_float 2 [x03; x01; x09; x00] [] 0) <> None).
Proof.
  split.
  - assert (H : len [] <= 0) by (vm_compute; discriminate).
    split; [exact H|].
    exact (proj1 (proj1 (dangling_positions_are_refused no_float [] [] 0 0)
                    (or_intror H))).
  - assert (H : array_elements [x03; x01; x09; x00] 0 = Ok [13])
      by reflexivity.
    split; [exact H|].
    refine (proj1 (proj1 (proj2 (dangling_positions_are_refused
                                   no_float [x03; x01; x09; x00] [] 0 1))
                     [13] 13 H (or_introl eq_refl) _)).
    vm_compute. discriminate.
Defined.

(** ** Objects with distinct keys *)

Lemma dict_setitem_new {V} (d : list (pystr * V)) k v :
  ~ In k (map fst d) -> dict_setitem d k v = d ++ [(k, v)].
Proof.
  induction d as [|[a w] d IH]; simpl; intros H; [reflexivity|].
  destruct (pystr_eq_dec a k) as [->|]; [tauto|].
  rewrite IH by tauto. reflexivity.
Qed.

Lemma fold_setitem_distinct {V} (l d : list (pystr * V)) :
  NoDup (map fst (d ++ l)) ->
  fold_left (fun d kv => dict_setitem d (fst kv) (snd kv)) l d = d ++ l.
Proof.
  revert d; induction l as [|[k v] l IH]; intros d H; simpl.
  - rewrite app_nil_r. reflexivity.
  - rewrite dict_setitem_new.
    + rewrite IH; rewrite <- app_assoc; [reflexivity | exact H].
    + rewrite map_app in H. apply NoDup_remove_2 in H.
      intros Hin. apply H. apply in_or_app. left. exact Hin.
Qed.

Lemma py_dict_distinct {V} (l : list (pystr * V)) :
  NoDup (map fst l) -> py_dict l = l.
Proof. intros H. apply (fold_setitem_distinct l []). exact H. Qed.

(** X13: when the stored keys of an object are pairwise distinct,
    [_to_python] returns a dict whose items are exactly the stored fields in
    stored order, each key with the decoding of its own value. *)
Theorem distinct_keys_python_dict_in_stored_order
  (value metadata : bytes) (pos : Z) (fuel : nat)
  (kvs : list (pystr * Z)) (items : list (pystr * pyvalue)) :
  object_fields value metadata pos = Ok kvs ->
  NoDup (map fst kvs) ->
  mapM (fun kp => v <- _to_python fuel value metadata (snd kp) ;;
                  Ok (fst kp, v)) kvs = Ok items ->
  _to_python (S fuel) value metadata pos = Ok (PyDict items)
  /\ map fst items = map fst kvs.
Proof.
  intros Hk Hd Hm. pose proof (mapM_keys _ _ _ Hm) as Hkeys.
  split; [|exact Hkeys].
  rewrite _to_python_unfold, (object_fields_type _ _ _ _ Hk). cbn [bind].
  rewrite Hk. cbn [bind]. rewrite Hm. cbn [bind].
  rewrite py_dict_distinct by (rewrite Hkeys; exact Hd). reflexivity.
Qed.

Lemma distinct_keys_python_dict_in_stored_order_witness :
  object_fields sample_object sample_metadata 0 = Ok [([98], 7); ([97], 9)]
  /\ NoDup (map fst [([98], 7); ([97], 9)])
  /\ _to_python 2 sample_object sample_metadata 0
     = Ok (PyDict [([98], PyScalar (SInt 1)); ([97], PyScalar (SInt 2))]).
Proof.
  assert (H : object_fields sample_object sample_metadata 0
              = Ok [([98], 7); ([97], 9)]) by reflexivity.
  assert (Hd : NoDup (map fst [([98], 7); ([97], 9)])).
  { repeat constructor; simpl; intuition discriminate. }
  split; [exact H|]. split; [exact Hd|].
  exact (proj1 (distinct_keys_python_dict_in_stored_order
                  sample_object sample_metadata 0 1 _
                  [([98], PyScalar (SInt 1)); ([97], PyScalar (SInt 2))]
                  H Hd eq_refl)).
Defined.

(** ** Doubles and decimals at the end of the buffer *)

Lemma py_slice_length_clamped data lo hi :
  0 <= lo <= len data -> lo <= hi ->
  len (py_slice data lo hi) = Z.min hi (len data) - lo.
Proof.
  intros H1 H2; unfold py_slice, slice_bound.
  destruct (Z.ltb_spec lo 0); [lia|]. destruct (Z.ltb_spec hi 0); [lia|].
  unfold len in *. rewrite length_firstn, length_skipn. lia.
Qed.

Lemma double_at_type value pos :
  0 <= pos -> _get_type_info value pos = Ok (PRIMITIVE, DOUBLE) ->
  _get_type value pos = Ok t_float.
Proof.
  intros Hpos Hti.
  destruct (_get_type_info_Ok value pos _ _ Hpos Hti) as (Hl & _ & _).
  unfold _get_type. rewrite _check_index_in by lia. rewrite Hti. reflexivity.
Qed.

(** X14: a double needs its eight payload bytes.  When they are inside the
    buffer [_get_double] unpacks exactly the bytes [pos+1 .. pos+8]; when
    the buffer ends before them, [struct.unpack] is given a shorter slice
    and both materializers end in [struct.error]. *)
Theorem _get_double_needs_eight_bytes
  (float_repr : bytes -> string) (value metadata : bytes) (pos : Z)
  (fuel : nat) :
  0 <= pos ->
  _get_type_info value pos = Ok (PRIMITIVE, DOUBLE) ->
  (pos + 8 < len value ->
   _get_double value pos = Ok (py_slice value (pos + 1) (pos + 9))
   /\ len (py_slice value (pos + 1) (pos + 9)) = 8
   /\ _to_python (S fuel) value metadata pos
      = Ok (PyScalar (SFloat (py_slice value (pos + 1) (pos + 9)))))
  /\ (len value <= pos + 8 ->
      _get_double value pos = Err StructError
      /\ _to_json float_repr (S fuel) value metadata pos = Err StructError
      /\ _to_python (S fuel) value metadata pos = Err StructError).
Proof.
  intros Hpos Hti.
  destruct (_get_type_info_Ok value pos _ _ Hpos Hti) as (Hl & _ & _).
  pose proof (double_at_type value pos Hpos Hti) as Ht.
  assert (Hgd : _get_double value pos
                = struct_unpack_d (py_slice value (pos + 1) (pos + 9))).
  { unfold _get_double. rewrite _check_index_in by lia. rewrite Hti.
    reflexivity. }
  pose proof (py_slice_length_clamped value (pos + 1) (pos + 9)
                ltac:(lia) ltac:(lia)) as Hs.
  split; intros H.
  - assert (Hd : _get_double value pos
                 = Ok (py_slice value (pos + 1) (pos + 9))).
    { rewrite Hgd. unfold struct_unpack_d.
      destruct (Z.eqb_spec (len (py_slice value (pos + 1) (pos + 9))) 8);
        [reflexivity | lia]. }
    split; [exact Hd|]. split; [lia|].
    rewrite _to_python_unfold, Ht. cbn [bind _get_scalar]. rewrite Hd.
    reflexivity.
  - assert (Hd : _get_double value pos = Err StructError).
    { rewrite Hgd. unfold struct_unpack_d.
      destruct (Z.eqb_spec (len (py_slice value (pos + 1) (pos + 9))) 8);
        [lia | reflexivity]. }
    split; [exact Hd|].
    rewrite _to_json_unfold, _to_python_unfold, Ht. cbn [bind _get_scalar].
    rewrite Hd. split; reflexivity.
Qed.

Lemma _get_double_needs_eight_bytes_witness :
  0 <= 0
  /\ _get_type_info [x1c; x00; x00; x00; x00; x00; x00; xf0; x3f] 0
     = Ok (PRIMITIVE, DOUBLE)
  /\ _get_double [x1c; x00; x00; x00; x00; x00; x00; xf0; x3f] 0
     = Ok [x00; x00; x00; x00; x00; x00; xf0; x3f]
  /\ _get_double [x1c; x00; x00; x00; x00; x00; x00; xf0] 0 = Err StructError.
Proof.
  assert (H : 0 <= 0) by lia.
  split; [exact H|]. split; [reflexivity|]. split.
  - refine (proj1 (proj1 (_get_double_needs_eight_bytes no_float
              [x1c; x00; x00; x00; x00; x00; x00; xf0; x3f] [] 0 0
              H eq_refl) _)).
    vm_compute. reflexivity.
  - refine (proj1 (proj2 (_get_double_needs_eight_bytes no_float
              [x1c; x00; x00; x00; x00; x00; x00; xf0] [] 0 0
              H eq_refl) _)).
    vm_compute. discriminate.
Defined.

(** X15: a decimal header at the last byte of the buffer ends in
    [IndexError], from the unchecked read of the scale byte; with the scale
    byte present but the unscaled integer cut short, the checked read fails
    with "Malformed Variant". *)
Theorem _get_decimal_truncated (value : bytes) (pos ti w : Z) :
  0 <= pos ->
  _get_type_info value pos = Ok (PRIMITIVE, ti) ->
  decimal_width ti = Some w ->
  (len value = pos + 1 -> _get_decimal value pos = Err IndexError)
  /\ (pos + 1 < len value <= pos + 1 + w ->
      _get_decimal value pos = Err MalformedVariant).
Proof.
  intros Hpos Hti Hw.
  destruct (_get_type_info_Ok value pos _ _ Hpos Hti) as (Hl & _ & _).
  unfold _get_decimal. rewrite _check_index_in by lia. rewrite Hti.
  cbn [bind]. change (negb (PRIMITIVE =? PRIMITIVE)) with false. cbv iota.
  split; intros H.
  - destruct (py_index value (pos + 1)) as [s|e] eqn:E.
    + apply py_index_Ok in E; lia.
    + apply py_index_Err in E as ->. reflexivity.
  - destruct (py_index_in value (pos + 1) ltac:(lia)) as (b & -> & _).
    cbn [bind].
    destruct (decimal_width_cases _ _ Hw) as [[-> ->]|[[-> ->]|[-> ->]]].
    + change (DECIMAL4 =? DECIMAL4) with true. cbv iota.
      rewrite _read_long_out by lia. reflexivity.
    + change (DECIMAL8 =? DECIMAL4) with false.
      change (DECIMAL8 =? DECIMAL8) with true. cbv iota.
      rewrite _read_long_out by lia. reflexivity.
    + change (DECIMAL16 =? DECIMAL4) with false.
      change (DECIMAL16 =? DECIMAL8) with false.
      change (DECIMAL16 =? DECIMAL16) with true. cbv iota.
      rewrite _check_index_out by lia. reflexivity.
Qed.

Lemma _get_decimal_truncated_witness :
  0 <= 0
  /\ _get_type_info [x24] 0 = Ok (PRIMITIVE, DECIMAL8)
  /\ _get_decimal [x24] 0 = Err IndexError
  /\ _get_decimal [x24; x02; x01; x00] 0 = Err MalformedVariant.
Proof.
  assert (H : 0 <= 0) by lia.
  split; [exact H|]. split; [reflexivity|]. split.
  - exact (proj1 (_get_decimal_truncated [x24] 0 DECIMAL8 8 H eq_refl eq_refl)
             eq_refl).
  - refine (proj2 (_get_decimal_truncated [x24; x02; x01; x00] 0 DECIMAL8 8
                     H eq_refl eq_refl) _).
    vm_compute. split; [reflexivity | discriminate].
Defined.

Lemma decimal_exact_within_context_precision_witness :
  0 <= 0
  /\ _get_type_info sample_decimal4 0 = Ok (PRIMITIVE, DECIMAL4)
  /\ py_index sample_decimal4 (0 + 1) = Ok 2
  /\ 12345 = int_from_bytes (py_slice sample_decimal4 (0 + 2) (0 + 2 + 4)) true
  /\ exists d,
       _get_decimal sample_decimal4 0 = Ok d
       /\ d = mkDecimal (12345 <? 0) (Z.abs_N 12345) (- 2)
       /\ decimal_value d = (inject_Z 12345 * Qpower (10 # 1) (- 2))%Q.
Proof.
  split; [lia|]. split; [reflexivity|]. split; [reflexivity|].
  split; [reflexivity|].
  refine (decimal_exact_within_context_precision
            sample_decimal4 0 DECIMAL4 4 2 12345 _ eq_refl eq_refl _ eq_refl
            eq_refl _).
  - lia.
  - reflexivity.
  - left; lia.
Defined.

(** ** The metadata dictionary *)

(** X17: a key lookup succeeds exactly when the id is below [dict_size],
    the two offset-table entries of the id can be read and do not decrease,
    the last byte of the key lies inside the buffer and the key bytes are
    valid UTF-8; the key is the decoding of exactly the bytes between the
    two offsets, so it has at most [o' - o] characters. *)
Theorem _get_metadata_key_succeeds_iff (metadata : bytes) (id : Z) (k : pystr) :
  (_get_metadata_key metadata id = Ok k <->
   exists osz n o o',
     metadata_offset_size metadata = Ok osz
     /\ metadata_dict_size metadata = Ok n
     /\ id < n
     /\ metadata_offset metadata id = Ok o
     /\ metadata_offset metadata (id + 1) = Ok o'
     /\ o <= o'
     /\ 0 <= 1 + (n + 2) * osz + o' - 1 < len metadata
     /\ utf8_decode
          (map byte_val
             (py_slice metadata (1 + (n + 2) * osz + o)
                (1 + (n + 2) * osz + o'))) = Some k)
  /\ (_get_metadata_key metadata id = Ok k ->
      exists o o',
        metadata_offset metadata id = Ok o
        /\ metadata_offset metadata (id + 1) = Ok o'
        /\ Z.of_nat (List.length k) <= o' - o).
Proof.
  assert (Hiff :
    _get_metadata_key metadata id = Ok k <->
    exists osz n o o',
      metadata_offset_size metadata = Ok osz
      /\ metadata_dict_size metadata = Ok n
      /\ id < n
      /\ metadata_offset metadata id = Ok o
      /\ metadata_offset metadata (id + 1) = Ok o'
      /\ o <= o'
      /\ 0 <= 1 + (n + 2) * osz + o' - 1 < len metadata
      /\ utf8_decode
           (map byte_val
              (py_slice metadata (1 + (n + 2) * osz + o)
                 (1 + (n + 2) * osz + o'))) = Some k).
  { unfold metadata_dict_size, metadata_offset, metadata_offset_size,
      _get_metadata_key.
    destruct (_check_index 0 (len metadata)) as [[]|e] eqn:Hc; cbn [bind].
    2:{ split; [discriminate|]. intros (? & ? & ? & ? & H & _).
        discriminate H. }
    destruct (py_index metadata 0) as [h|e] eqn:Hh; cbn [bind].
    2:{ split; [discriminate|]. intros (? & ? & ? & ? & H & _).
        discriminate H. }
    set (osz := Z.land (Z.shiftr h 6) 3 + 1).
    replace (id + 1 + 1) with (id + 2) by lia.
    destruct (_read_long metadata 1 osz false) as [n|e] eqn:Hn; cbn [bind].
    2:{ split; [discriminate|]. intros (? & ? & ? & ? & _ & H & _).
        discriminate H. }
    destruct (Z.geb_spec id n) as [Hge|Hlt].
    { split; [discriminate|].
      intros (? & n' & ? & ? & _ & H & Hid & _). injection H as <-. lia. }
    destruct (_read_long metadata (1 + (id + 1) * osz) osz false)
      as [o|e] eqn:Ho; cbn [bind].
    2:{ split; [discriminate|].
        intros (? & ? & ? & ? & _ & _ & _ & H & _). discriminate H. }
    destruct (_read_long metadata (1 + (id + 2) * osz) osz false)
      as [o'|e] eqn:Ho'; cbn [bind].
    2:{ split; [discriminate|].
        intros (? & ? & ? & ? & _ & _ & _ & _ & H & _). discriminate H. }
    destruct (Z.gtb_spec o o') as [Hgt|Hle].
    { split; [discriminate|].
      intros (? & ? & o1 & o2 & _ & _ & _ & H1 & H2 & Hoo & _).
      injection H1 as <-. injection H2 as <-. lia. }
    destruct (_check_index (1 + (n + 2) * osz + o' - 1) (len metadata))
      as [[]|e] eqn:Hb; cbn [bind].
    2:{ apply _check_index_Err in Hb as [_ Hb]. split; [discriminate|].
        intros (osz1 & n1 & o1 & o2 & H0 & H1 & _ & H2 & H3 & _ & Hr & _).
        injection H0 as <-. injection H1 as <-. injection H2 as <-.
        injection H3 as <-. fold osz in Hr. lia. }
    apply _check_index_Ok in Hb. unfold decode_utf8. split.
    - intros H. exists osz, n, o, o'.
      repeat (split; [first [reflexivity | lia]|]).
      destruct (utf8_decode _); [injection H as <-; reflexivity|discriminate].
    - intros (osz1 & n1 & o1 & o2 & H0 & H1 & _ & H2 & H3 & _ & _ & Hu).
      injection H0 as <-. injection H1 as <-. injection H2 as <-.
      injection H3 as <-. fold osz in Hu. rewrite Hu. reflexivity. }
  split; [exact Hiff|].
  intros H. apply Hiff in H
    as (osz & n & o & o' & Hosz & Hn & Hid & Ho & Ho' & Hoo & Hb & Hu).
  exists o, o'. split; [exact Ho|]. split; [exact Ho'|].
  pose proof (utf8_decode_length _ _ _ (le_n _) Hu) as Hlen.
  rewrite length_map in Hlen.
  assert (Ho0 : 0 <= o).
  { unfold metadata_offset in Ho. rewrite Hosz in Ho. cbn [bind] in Ho.
    apply _read_long_unsigned_nonneg in Ho. exact Ho. }
  assert (Hosz' : 1 <= osz).
  { unfold metadata_offset_size in Hosz.
    apply bind_Ok in Hosz as (? & _ & Hosz).
    apply bind_Ok in Hosz as (h & _ & Hosz). injection Hosz as <-.
    pose proof (land_3_range (Z.shiftr h 6)). lia. }
  assert (Hn' : 0 <= n).
  { unfold metadata_dict_size in Hn. rewrite Hosz in Hn. cbn [bind] in Hn.
    apply _read_long_unsigned_nonneg in Hn. exact Hn. }
  pose proof (py_slice_length metadata (1 + (n + 2) * osz + o)
                (1 + (n + 2) * osz + o') ltac:(nia) ltac:(lia)) as Hsl.
  unfold len in Hsl. lia.
Qed.

Lemma _get_metadata_key_succeeds_iff_witness :
  _get_metadata_key sample_metadata 1 = Ok [98]
  /\ exists o o',
       metadata_offset sample_metadata 1 = Ok o
       /\ metadata_offset sample_metadata (1 + 1) = Ok o'
       /\ Z.of_nat (List.length [98]) <= o' - o.
Proof.
  assert (H : _get_metadata_key sample_metadata 1 = Ok [98]) by reflexivity.
  split; [exact H|].
  exact (proj2 (_get_metadata_key_succeeds_iff sample_metadata 1 [98]) H).
Defined.

Lemma _get_type_accepts_known_headers_witness :
  _get_type [x2c] 0 = Err MalformedVariant
  /\ MalformedVariant = MalformedVariant
  /\ exists t, _get_type sample_object 0 = Ok t.
Proof.
  assert (H : _get_type [x2c] 0 = Err MalformedVariant) by reflexivity.
  split; [exact H|]. split.
  - exact (proj1 (_get_type_accepts_known_headers [x2c] 0) _ H).
  - apply (proj2 (_get_type_accepts_known_headers sample_object 0)).
    split; [lia|]. exists x02. split; [reflexivity|]. left. discriminate.
Defined.

Lemma _get_long_reads_signed_payload_witness :
  _get_long [x0c; xfb] 0 = Ok (-5)
  /\ exists w, (w = 1 \/ w = 2 \/ w = 4 \/ w = 8)
               /\ - (256 ^ w) <= 2 * -5 < 256 ^ w.
Proof.
  assert (H : _get_long [x0c; xfb] 0 = Ok (-5)) by reflexivity.
  split; [exact H|].
  exact (proj2 (_get_long_reads_signed_payload [x0c; xfb] 0 (-5)) H).
Defined.

(** ** Plain text *)

Lemma byte_val_byte_of_Z z : byte_val (byte_of_Z z) = z mod 256.
Proof.
  unfold byte_of_Z, byte_val.
  pose proof (Z.mod_pos_bound z 256 ltac:(lia)) as Hm.
  destruct (Byte.of_N (Z.to_N (z mod 256))) as [b|] eqn:E.
  - apply Byte.to_of_N in E. rewrite E. lia.
  - apply Byte.of_N_None_iff in E. lia.
Qed.

Lemma plain_ascii_range b :
  plain_ascii b = true ->
  32 <= byte_val b <= 126 /\ byte_val b <> 34 /\ byte_val b <> 92.
Proof.
  unfold plain_ascii. rewrite !andb_true_iff, !negb_true_iff.
  rewrite !Z.leb_le, !Z.eqb_neq. tauto.
Qed.

Lemma escape_char_plain b :
  plain_ascii b = true ->
  escape_char (byte_val b) = [ascii_of_N (Byte.to_N b)].
Proof.
  intros H. apply plain_ascii_range in H as (Hr & H34 & H92).
  unfold escape_char.
  repeat match goal with
         | |- context [Z.eqb (byte_val b) ?k] =>
           destruct (Z.eqb_spec (byte_val b) k); [lia|]
         end.
  destruct (Z.leb_spec 32 (byte_val b)); [|lia].
  destruct (Z.leb_spec (byte_val b) 126); [|lia].
  cbn [andb]. unfold byte_val. rewrite N2Z.id. reflexivity.
Qed.

Lemma json_dumps_plain payload :
  forallb plain_ascii payload = true ->
  json_dumps (map byte_val payload) = quoted payload.
Proof.
  intros H. unfold json_dumps, quoted. do 3 f_equal.
  induction payload as [|b bs IH]; [reflexivity|].
  cbn [forallb] in H. apply andb_true_iff in H as [Hb Hbs].
  cbn [map flat_map]. rewrite (escape_char_plain b Hb), (IH Hbs).
  reflexivity.
Qed.

Lemma decode_utf8_plain payload :
  forallb plain_ascii payload = true ->
  decode_utf8 payload = Ok (map byte_val payload).
Proof.
  intros H. unfold decode_utf8. rewrite utf8_decode_ascii; [reflexivity|].
  apply Forall_map. rewrite forallb_forall in H. apply Forall_forall.
  intros b Hb. apply H, plain_ascii_range in Hb. lia.
Qed.

(** X18: a short string of up to 63 printable ASCII bytes without quote or
    backslash, wherever it sits in the buffer, is returned by [_to_python]
    as those characters and by [_to_json] as the same characters between
    two quotes. *)
Theorem short_plain_string_is_copied
  (float_repr : bytes -> string) (pre payload post metadata : bytes)
  (fuel : nat) :
  (List.length payload <= 63)%nat ->
  forallb plain_ascii payload = true ->
  let value := pre ++ short_str_header (List.length payload) :: payload ++ post in
  _to_python (S fuel) value metadata (len pre)
  = Ok (PyScalar (SStr (map byte_val payload)))
  /\ _to_json float_repr (S fuel) value metadata (len pre)
     = Ok (quoted payload).
Proof.
  intros Hlen Hplain value.
  set (n := Z.of_nat (List.length payload)).
  assert (Hh : byte_val (short_str_header (List.length payload)) = 4 * n + 1).
  { unfold short_str_header. rewrite byte_val_byte_of_Z.
    apply Z.mod_small. unfold n. lia. }
  assert (Hti : _get_type_info value (len pre) = Ok (SHORT_STR, n)).
  { unfold value. rewrite _get_type_info_app_head, Hh.
    destruct (header_split (4 * n + 1) ltac:(unfold n; lia)) as [-> ->].
    unfold SHORT_STR. do 2 f_equal.
    - rewrite Z.add_comm, Z.mul_comm, Z.mod_add by lia. reflexivity.
    - rewrite Z.add_comm, Z.mul_comm, Z.div_add by lia. reflexivity. }
  pose proof (len_nonneg pre) as Hpre.
  assert (Hvl : len value = len pre + 1 + n + len post).
  { unfold value. rewrite len_app. unfold len. cbn [List.length].
    rewrite length_app. unfold n. lia. }
  pose proof (len_nonneg post) as Hpost.
  assert (Ht : _get_type value (len pre) = Ok t_str).
  { unfold _get_type. rewrite _check_index_in by lia. rewrite Hti.
    reflexivity. }
  assert (Hs : _get_string value (len pre) = Ok (map byte_val payload)).
  { rewrite (proj1 (_get_string_short value (len pre) n Hpre Hti)) by lia.
    replace (py_slice value (len pre + 1) (len pre + 1 + n)) with payload;
      [apply decode_utf8_plain; exact Hplain|].
    unfold value.
    change (pre ++ short_str_header (List.length payload) :: payload ++ post)
      with (pre ++ [short_str_header (List.length payload)] ++ payload ++ post).
    rewrite app_assoc.
    replace (len pre + 1)
      with (len (pre ++ [short_str_header (List.length payload)]))
      by (rewrite len_app; reflexivity).
    symmetry. apply py_slice_app_mid. }
  rewrite _to_python_unfold, _to_json_unfold, Ht. cbn [bind _get_scalar].
  rewrite Hs. cbn [bind scalar_json]. rewrite json_dumps_plain by exact Hplain.
  split; reflexivity.
Qed.

Lemma short_plain_string_is_copied_witness :
  (List.length [x61; x62] <= 63)%nat
  /\ forallb plain_ascii [x61; x62] = true
  /\ _to_python 1 ([x00] ++ short_str_header 2 :: [x61; x62] ++ [x00]) []
       (len [x00])
     = Ok (PyScalar (SStr [97; 98]))
  /\ _to_json no_float 1
       ([x00] ++ short_str_header 2 :: [x61; x62] ++ [x00]) [] (len [x00])
     = Ok (quoted [x61; x62]).
Proof.
  assert (H1 : (List.length [x61; x62] <= 63)%nat) by (simpl; lia).
  assert (H2 : forallb plain_ascii [x61; x62] = true) by reflexivity.
  split; [exact H1|]. split; [exact H2|].
  exact (short_plain_string_is_copied no_float [x00] [x61; x62] [x00] [] 0
           H1 H2).
Defined.

(** ** Field ids outside the dictionary *)

Lemma _get_metadata_key_unknown_id (metadata : bytes) (id : Z) :
  (forall n, metadata_dict_size metadata = Ok n -> n <= id) ->
  _get_metadata_key metadata id = Err MalformedVariant.
Proof.
  intros Hn.
  unfold metadata_dict_size, metadata_offset_size in Hn.
  unfold _get_metadata_key.
  destruct (_check_index 0 (len metadata)) as [[]|e] eqn:Hc; cbn [bind] in *.
  2:{ apply _check_index_Err in Hc as [-> _]. reflexivity. }
  destruct (py_index metadata 0) as [h|e] eqn:Hh; cbn [bind] in *.
  2:{ apply _check_index_Ok in Hc.
      destruct (py_index_in metadata 0 Hc) as (b & Hb & _). congruence. }
  destruct (_read_long metadata 1 _ false) as [n|e] eqn:Hr; cbn [bind].
  2:{ apply _read_long_Err in Hr as [-> _]. reflexivity. }
  specialize (Hn n eq_refl).
  destruct (Z.geb_spec id n); [reflexivity | lia].
Qed.

(** X19: an object one of whose stored field ids is not below the
    [dict_size] of the metadata never decodes: the keys of all fields are
    looked up before any value is decoded, and both materializers raise. *)
Theorem object_with_unknown_field_id_is_refused
  (float_repr : bytes -> string) (value metadata : bytes) (pos : Z)
  (fuel : nat) (L : object_layout) (i : nat) (id : Z) :
  object_header value pos = Ok L ->
  (Z.of_nat i < num_fields L) ->
  _read_long value (id_start L + id_size L * Z.of_nat i) (id_size L) false
  = Ok id ->
  (forall n, metadata_dict_size metadata = Ok n -> n <= id) ->
  (exists e, object_fields value metadata pos = Err e)
  /\ raised (_to_json float_repr (S fuel) value metadata pos) <> None
  /\ raised (_to_python (S fuel) value metadata pos) <> None.
Proof.
  intros HL Hi Hid Hn.
  assert (Hf : exists e, stored_field value metadata L i = Err e).
  { unfold stored_field. rewrite Hid. cbn [bind].
    destruct (_read_long value _ (offset_size L) false); cbn [bind]; [|eauto].
    rewrite (_get_metadata_key_unknown_id metadata id Hn). cbn [bind].
    eauto. }
  assert (Hk : exists e, object_fields value metadata pos = Err e).
  { rewrite object_fields_stored, HL. cbn [bind].
    destruct (mapM _ _) as [r|e] eqn:Hm; [|eauto].
    destruct (mapM_Ok_In _ _ _ i Hm) as (y & Hy).
    - apply in_seq. lia.
    - destruct Hf as (e & He). congruence. }
  split; [exact Hk|]. destruct Hk as (e & Hk).
  assert (Hj : raised (_to_json float_repr (S fuel) value metadata pos)
               <> None).
  { rewrite _to_json_unfold.
    destruct (_get_type value pos) as [t|] eqn:Ht; [|discriminate].
    cbn [bind].
    assert (t = t_dict) as ->.
    { unfold object_header in HL. unfold _get_type in Ht.
      apply bind_Ok in HL as ([] & Hc & HL). rewrite Hc in Ht.
      cbn [bind] in Ht.
      apply bind_Ok in HL as ([bt ti] & Hti & HL). rewrite Hti in Ht.
      cbn [bind] in Ht. unfold_constants.
      destruct (Z.eqb_spec bt 2) as [->|]; [|discriminate HL].
      cbn in Ht. congruence. }
    rewrite Hk. discriminate. }
  split; [exact Hj|].
  rewrite <- (materializers_raise_alike float_repr). exact Hj.
Qed.

Lemma object_with_unknown_field_id_is_refused_witness :
  (exists L id,
      object_header sample_object 0 = Ok L
      /\ _read_long sample_object (id_start L + id_size L * Z.of_nat 0)
           (id_size L) false = Ok id)
  /\ raised (_to_json no_float 2 sample_object [x01; x01; x00; x01; x61] 0)
     <> None.
Proof.
  split.
  - eexists. eexists. split; reflexivity.
  - refine (proj1 (proj2 (object_with_unknown_field_id_is_refused
              no_float sample_object [x01; x01; x00; x01; x61] 0 1
              _ 0 1 eq_refl _ eq_refl _))).
    + reflexivity.
    + intros n Hn. vm_compute in Hn. injection Hn as <-. discriminate.
Defined.

(** ** The JSON text is the rendering of the native value *)

Lemma mapM_transport {A B C} (g : A -> result B) (f : A -> result C)
  (h : B -> C) (l : list A) (ws : list B) :
  (forall x, In x l -> forall w, g x = Ok w -> f x = Ok (h w)) ->
  mapM g l = Ok ws -> mapM f l = Ok (map h ws).
Proof.
  revert ws; induction l as [|x xs IH]; intros ws H Hm.
  - injection Hm as <-. reflexivity.
  - cbn [mapM] in *. apply bind_Ok in Hm as (w & Hw & Hm).
    apply bind_Ok in Hm as (ws' & Hws & Hm). injection Hm as <-.
    rewrite (H x (or_introl eq_refl) w Hw). cbn [bind].
    rewrite (IH ws' (fun y Hy => H y (or_intror Hy)) Hws). reflexivity.
Qed.

Lemma array_not_object value metadata pos :
  _get_type value pos = Ok t_array ->
  exists e, object_fields value metadata pos = Err e.
Proof.
  intros Ht. destruct (object_fields value metadata pos) as [kvs|e] eqn:E;
    [|eauto].
  apply object_fields_type in E. congruence.
Qed.

Lemma _to_json_renders_to_python float_repr value metadata fuel :
  forall pos v,
    keys_distinct fuel value metadata pos ->
    _to_python fuel value metadata pos = Ok v ->
    _to_json float_repr fuel value metadata pos = Ok (render float_repr v).
Proof.
  induction fuel as [|f IH]; intros pos v Hd Hp; [discriminate Hp|].
  rewrite _to_python_unfold in Hp. rewrite _to_json_unfold.
  destruct (_get_type value pos) as [t|] eqn:Ht; [|discriminate Hp].
  cbn [bind] in *. cbn [keys_distinct] in Hd.
  destruct t;
    try (apply bind_Ok in Hp as (s & Hs & Hp); injection Hp as <-;
         rewrite Hs; reflexivity).
  - destruct (object_fields value metadata pos) as [kvs|] eqn:Hk;
      [|discriminate Hp].
    destruct Hd as [Hnd Hall]. rewrite Forall_forall in Hall.
    cbn [bind] in *. apply bind_Ok in Hp as (items & Hm & Hp).
    injection Hp as <-.
    rewrite py_dict_distinct by (rewrite (mapM_keys _ _ _ Hm); exact Hnd).
    rewrite (mapM_transport
               (fun kp => v <- _to_python f value metadata (snd kp) ;;
                          Ok (fst kp, v))
               (fun kp => v <- _to_json float_repr f value metadata (snd kp) ;;
                          Ok (json_dumps (fst kp) ++ ":" ++ v)%string)
               (fun kv => (json_dumps (fst kv) ++ ":"
                           ++ render float_repr (snd kv))%string)
               kvs items); [reflexivity| |exact Hm].
    intros kp Hin kv Hkv. apply bind_Ok in Hkv as (w & Hw & Hkv).
    injection Hkv as <-. cbn [fst snd].
    rewrite (IH (snd kp) w (Hall kp Hin) Hw). reflexivity.
  - destruct (array_not_object value metadata pos Ht) as (e & He).
    rewrite He in Hd.
    destruct (array_elements value pos) as [ps|] eqn:Hk; [|discriminate Hp].
    rewrite Forall_forall in Hd.
    cbn [bind] in *. apply bind_Ok in Hp as (items & Hm & Hp).
    injection Hp as <-.
    rewrite (mapM_transport (_to_python f value metadata)
               (_to_json float_repr f value metadata)
               (render float_repr) ps items);
      [reflexivity| |exact Hm].
    intros p Hin w Hw. apply IH; auto.
Qed.

(** X20: when no object in the value repeats a key, the text [to_json]
    returns is the JSON rendering of the value [to_python] returns: scalars
    as [_to_json] writes them, list items and dict items in order. *)
Theorem to_json_is_rendering_of_to_python
  (float_repr : bytes -> string) (value metadata : bytes) (v : pyvalue) :
  keys_distinct (S (List.length value)) value metadata 0 ->
  to_python value metadata = Ok v ->
  to_json float_repr value metadata = Ok (render float_repr v).
Proof. apply _to_json_renders_to_python. Qed.

Lemma to_json_is_rendering_of_to_python_witness :
  keys_distinct (S (List.length sample_object)) sample_object sample_metadata 0
  /\ to_python sample_object sample_metadata
     = Ok (PyDict [([98], PyScalar (SInt 1)); ([97], PyScalar (SInt 2))])
  /\ to_json no_float sample_object sample_metadata
     = Ok (render no_float
             (PyDict [([98], PyScalar (SInt 1)); ([97], PyScalar (SInt 2))])).
Proof.
  assert (Hd : keys_distinct (S (List.length sample_object)) sample_object
                 sample_metadata 0).
  { cbn [keys_distinct List.length sample_object].
    change (object_fields _ sample_metadata 0)
      with (@Ok (list (pystr * Z)) [([98], 7); ([97], 9)]).
    split.
    - repeat constructor; simpl; intuition discriminate.
    - constructor; [|constructor; [|constructor]]; cbn [snd keys_distinct].
      + change (object_fields _ sample_metadata 7)
          with (@Err (list (pystr * Z)) MalformedVariant).
        change (array_elements _ 7) with (@Err (list Z) MalformedVariant).
        exact I.
      + change (object_fields _ sample_metadata 9)
          with (@Err (list (pystr * Z)) MalformedVariant).
        change (array_elements _ 9) with (@Err (list Z) MalformedVariant).
        exact I. }
  split; [exact Hd|]. split; [reflexivity|].
  exact (to_json_is_rendering_of_to_python no_float sample_object
           sample_metadata _ Hd eq_refl).
Defined.
